(** * Ducted HVAC: zone controller and motor coordinator

    A shallow embedding of [custom_components/ducted_hvac/climate.py]
    (class [DuctedHVACZone]) and [custom_components/ducted_hvac/__init__.py]
    (class [MotorCoordinator]).

    Conventions.
    - Temperatures are Python floats: IEEE 754 binary64, embedded as the
      primitive [float] of the kernel with its own [+], [-], [<?], [<=?].
      A Python comparison [a >= b] is the IEEE test [b <= a] and [a > b]
      is [b < a].
    - [datetime] and [timedelta] values are integers counting microseconds.
    - A coroutine is a function returning the new object state together
      with the list of effects it performed, in program order.  Whatever
      the coroutine reads from the outside (the clock, whether a service
      call raises) is an explicit argument. *)

From Stdlib Require Import ZArith List Bool String Lia.
From Stdlib Require Import Floats.
From Stdlib Require Import DecimalString Permutation.
Import ListNotations.

Set Warnings "-inexact-float".

Local Open Scope string_scope.
Local Open Scope Z_scope.
Local Open Scope list_scope.

(* ------------------------------------------------------------------ *)
(** ** Home Assistant constants used by the integration *)

Module HA.

(** [homeassistant.components.climate.const.HVACMode] *)
Inductive HVACMode : Type :=
| OFF | HEAT | COOL | HEAT_COOL | AUTO | DRY | FAN_ONLY.

Definition HVACMode_eq_dec (a b : HVACMode) : {a = b} + {a <> b}.
Proof. decide equality. Defined.

Definition mode_eqb (a b : HVACMode) : bool :=
  if HVACMode_eq_dec a b then true else false.

(** [m.value] *)
Definition value (m : HVACMode) : string :=
  match m with
  | OFF => "off" | HEAT => "heat" | COOL => "cool"
  | HEAT_COOL => "heat_cool" | AUTO => "auto"
  | DRY => "dry" | FAN_ONLY => "fan_only"
  end.

Definition all_modes : list HVACMode :=
  [OFF; HEAT; COOL; HEAT_COOL; AUTO; DRY; FAN_ONLY].

(** [HVACMode(s)], guarded by [s in [m.value for m in HVACMode]] *)
Definition of_value (s : string) : option HVACMode :=
  find (fun m => String.eqb (value m) s) all_modes.

(** [m in modes] for a Python list or set of modes *)
Definition mode_in (m : HVACMode) (l : list HVACMode) : bool :=
  existsb (mode_eqb m) l.

(** [s in names] for a list of strings *)
Definition str_in (s : string) (l : list string) : bool :=
  existsb (String.eqb s) l.

End HA.
Export HA.

(* ------------------------------------------------------------------ *)
(** ** Effects *)

(** Payload of [hass.services.async_call(domain, service, data)]. *)
Inductive ServiceData : Type :=
| Entity (entity_id : string)
| EntityHvacMode (entity_id : string) (hvac_mode : string)
| EntityTemperature (entity_id : string) (temperature : float)
| EntityFanMode (entity_id : string) (fan_mode : string).

Inductive Effect : Type :=
| Call (domain service : string) (data : ServiceData)
| LogWarning
| LogDebug
| LogException
| WriteHaState                       (* self.async_write_ha_state() *)
| ZoneChanged                        (* coordinator.async_zone_changed() *)
| FanModeChanged (fan_mode : string) (* coordinator.async_fan_mode_changed(f) *)
| UpdateSensor.                      (* sensor.async_update_sensor() *)

Definition is_call (service : string) (e : Effect) : bool :=
  match e with
  | Call _ s _ => String.eqb s service
  | _ => false
  end.

Definition is_any_call (e : Effect) : bool :=
  match e with Call _ _ _ => true | _ => false end.

Definition is_zone_changed (e : Effect) : bool :=
  match e with ZoneChanged => true | _ => false end.

Definition is_update_sensor (e : Effect) : bool :=
  match e with UpdateSensor => true | _ => false end.

Definition count (p : Effect -> bool) (t : list Effect) : nat :=
  List.length (filter p t).

(* ------------------------------------------------------------------ *)
(** ** Zone controller: [DuctedHVACZone] *)

Module Zone.

(** The fields of a [DuctedHVACZone] that the control logic touches. *)
Record t : Type := mk {
  name : string;
  _vent_entity_id : string;
  _sensor_entity_id : string;
  _tolerance : float;
  _min_cycle_duration : option Z;
  _attr_hvac_modes : list HVACMode;
  _attr_fan_modes : list string;
  _attr_min_temp : float;
  _attr_max_temp : float;
  _fan_mode : option string;
  _hvac_mode : HVACMode;
  _target_temp : float;
  _current_temp : option float;
  _vent_open : bool;
  _last_vent_toggle : option Z
}.

Definition with_hvac_mode (z : t) (m : HVACMode) : t :=
  mk (name z) (_vent_entity_id z) (_sensor_entity_id z) (_tolerance z)
     (_min_cycle_duration z) (_attr_hvac_modes z) (_attr_fan_modes z)
     (_attr_min_temp z) (_attr_max_temp z) (_fan_mode z)
     m (_target_temp z) (_current_temp z) (_vent_open z)
     (_last_vent_toggle z).

Definition with_target_temp (z : t) (x : float) : t :=
  mk (name z) (_vent_entity_id z) (_sensor_entity_id z) (_tolerance z)
     (_min_cycle_duration z) (_attr_hvac_modes z) (_attr_fan_modes z)
     (_attr_min_temp z) (_attr_max_temp z) (_fan_mode z)
     (_hvac_mode z) x (_current_temp z) (_vent_open z)
     (_last_vent_toggle z).

Definition with_current_temp (z : t) (x : option float) : t :=
  mk (name z) (_vent_entity_id z) (_sensor_entity_id z) (_tolerance z)
     (_min_cycle_duration z) (_attr_hvac_modes z) (_attr_fan_modes z)
     (_attr_min_temp z) (_attr_max_temp z) (_fan_mode z)
     (_hvac_mode z) (_target_temp z) x (_vent_open z)
     (_last_vent_toggle z).

Definition with_fan_mode (z : t) (f : option string) : t :=
  mk (name z) (_vent_entity_id z) (_sensor_entity_id z) (_tolerance z)
     (_min_cycle_duration z) (_attr_hvac_modes z) (_attr_fan_modes z)
     (_attr_min_temp z) (_attr_max_temp z) f
     (_hvac_mode z) (_target_temp z) (_current_temp z) (_vent_open z)
     (_last_vent_toggle z).

Definition with_vent (z : t) (open : bool) (toggled : option Z) : t :=
  mk (name z) (_vent_entity_id z) (_sensor_entity_id z) (_tolerance z)
     (_min_cycle_duration z) (_attr_hvac_modes z) (_attr_fan_modes z)
     (_attr_min_temp z) (_attr_max_temp z) (_fan_mode z)
     (_hvac_mode z) (_target_temp z) (_current_temp z) open toggled.

(** [__init__]: the state of a freshly constructed zone. *)
Definition __init__ (nm vent sensor : string) (modes : list HVACMode)
    (fan_modes : list string) (min_temp max_temp tolerance : float)
    (min_cycle_duration : option Z) : t :=
  mk nm vent sensor tolerance min_cycle_duration modes fan_modes
     min_temp max_temp
     (match fan_modes with f :: _ => Some f | [] => None end)
     OFF ((min_temp + max_temp) / 2)%float None false None.

(** [_should_vent_be_open] *)
Definition _should_vent_be_open (z : t) : bool :=
  let mode := _hvac_mode z in
  if mode_eqb mode OFF then false
  else if mode_in mode [FAN_ONLY; DRY] then true
  else
    match _current_temp z with
    | None => false
    | Some temp =>
        let target := _target_temp z in
        let tol := _tolerance z in
        if mode_eqb mode HEAT then
          if (temp <? target - tol)%float then true
          else if (target + tol <=? temp)%float then false
          else _vent_open z
        else if mode_eqb mode COOL then
          if (target + tol <? temp)%float then true
          else if (temp <=? target - tol)%float then false
          else _vent_open z
        else false
    end.

(** [_is_min_cycle_respected]; [now] is the value of [dt_util.utcnow()]. *)
Definition _is_min_cycle_respected (z : t) (desired_open : bool) (now : Z)
  : bool :=
  match _min_cycle_duration z with
  | None => true
  | Some min_cycle =>
      match _last_vent_toggle z with
      | None => true
      | Some last =>
          let elapsed := now - last in
          min_cycle <=? elapsed
      end
  end.

(** What one run of [_async_control_vent] reads from the outside: the
    clock when the guard runs, whether the switch service call returns
    normally, and the clock after the call has returned. *)
Record Env : Type := mkEnv {
  now_guard : Z;
  call_ok : bool;
  now_toggle : Z
}.

(** [_async_set_vent] *)
Definition _async_set_vent (z : t) (open : bool) (ok : bool) (now : Z)
  : t * list Effect :=
  let service := if open then "turn_on" else "turn_off" in
  let call := Call "switch" service (Entity (_vent_entity_id z)) in
  if ok then
    (with_vent z open (Some now), [call; WriteHaState; ZoneChanged])
  else
    (z, [call; LogException]).

(** [_async_control_vent] *)
Definition _async_control_vent (z : t) (env : Env) : t * list Effect :=
  let desired := _should_vent_be_open z in
  if Bool.eqb desired (_vent_open z) then (z, [])
  else if negb (_is_min_cycle_respected z desired (now_guard env)) then
    (z, [LogDebug])
  else _async_set_vent z desired (call_ok env) (now_toggle env).

(** [async_set_hvac_mode] *)
Definition async_set_hvac_mode (z : t) (hvac_mode : HVACMode) (env : Env)
  : t * list Effect :=
  if negb (mode_in hvac_mode (_attr_hvac_modes z)) then (z, [LogWarning])
  else
    let z1 := with_hvac_mode z hvac_mode in
    let (z2, eff) := _async_control_vent z1 env in
    (z2, WriteHaState :: eff ++ [ZoneChanged]).

(** [async_set_temperature], called with keyword arguments.
    [temperature] is
    [float(kwargs.get(ATTR_TEMPERATURE))] and [hvac_mode] is
    [HVACMode(kwargs.get("hvac_mode"))], each [None] when the key is
    missing.  The two vent evaluations read the outside separately. *)
Definition async_set_temperature (z : t) (temperature : option float)
    (hvac_mode : option HVACMode) (env1 env2 : Env) : t * list Effect :=
  let (z1, eff1) :=
    match temperature with
    | Some temp =>
        let (z', eff) := _async_control_vent (with_target_temp z temp) env1 in
        (z', WriteHaState :: eff ++ [ZoneChanged])
    | None => (z, [])
    end in
  match hvac_mode with
  | Some m =>
      let (z2, eff2) := async_set_hvac_mode z1 m env2 in
      (z2, eff1 ++ eff2)
  | None => (z1, eff1)
  end.

(** [async_set_fan_mode] *)
Definition async_set_fan_mode (z : t) (fan_mode : string)
  : t * list Effect :=
  if negb (str_in fan_mode (_attr_fan_modes z)) then (z, [LogWarning])
  else (with_fan_mode z (Some fan_mode),
        [WriteHaState; FanModeChanged fan_mode]).

(** Exceptions that escape a handler. *)
Inductive Exn : Type := IndexError.

Inductive Result (A : Type) : Type :=
| Ok (a : A)
| Raise (e : Exn).
Arguments Ok {A} a.
Arguments Raise {A} e.

(** [async_turn_on]; [modes[1]] raises [IndexError] out of range. *)
Definition async_turn_on (z : t) (env : Env) : Result (t * list Effect) :=
  if negb (mode_eqb (_hvac_mode z) OFF) then
    Ok (async_set_hvac_mode z (_hvac_mode z) env)
  else if mode_in COOL (_attr_hvac_modes z) then
    Ok (async_set_hvac_mode z COOL env)
  else
    match nth_error (_attr_hvac_modes z) 1 with
    | Some mode => Ok (async_set_hvac_mode z mode env)
    | None => Raise IndexError
    end.

(** [async_turn_off] *)
Definition async_turn_off (z : t) (env : Env) : t * list Effect :=
  async_set_hvac_mode z OFF env.

(** What [hass.states.get(sensor)] or an event's [new_state] holds:
    no state object, one of the two marker strings, a string that
    [float()] accepts, or one that it rejects. *)
Inductive SensorState : Type :=
| NoState
| StateUnknown
| StateUnavailable
| Reading (x : float)
| Unparseable.

(** [_update_current_temp] *)
Definition _update_current_temp (z : t) (sensor_state : SensorState)
  : t * list Effect :=
  match sensor_state with
  | NoState | StateUnknown | StateUnavailable => (z, [])
  | Reading x => (with_current_temp z (Some x), [])
  | Unparseable => (z, [LogWarning])
  end.

(** [_async_sensor_changed]; the task it creates for
    [_async_control_vent] is run right after the callback. *)
Definition _async_sensor_changed (z : t) (new_state : SensorState)
    (env : Env) : t * list Effect :=
  match new_state with
  | Reading x =>
      let (z', eff) := _async_control_vent (with_current_temp z (Some x)) env in
      (z', WriteHaState :: eff)
  | _ => (z, [])
  end.

(** [_async_startup_check] *)
Definition _async_startup_check (z : t) (sensor_state : SensorState)
    (env : Env) : t * list Effect :=
  let (z1, eff1) := _update_current_temp z sensor_state in
  let (z2, eff2) := _async_control_vent z1 env in
  (z2, eff1 ++ eff2).

(** The persisted state read by [async_get_last_state()].  An attribute
    is [None] when missing; [temperature] holds [Some None] when
    [float()] rejects the stored value, and [last_vent_toggle] holds
    what [dt_util.parse_datetime] returned. *)
Record LastState : Type := mkLast {
  state : string;
  attr_temperature : option (option float);
  attr_vent_open : option bool;
  attr_last_vent_toggle : option (option Z);
  attr_fan_mode : option string
}.

(** [async_added_to_hass], steps 1 and 2: restore, then read the sensor. *)
Definition async_added_to_hass (z : t) (last_state : option LastState)
    (sensor_state : SensorState) : t * list Effect :=
  let z1 :=
    match last_state with
    | None => z
    | Some ls =>
        let za :=
          match of_value (state ls) with
          | Some m => with_hvac_mode z m
          | None => z
          end in
        let zb :=
          match attr_temperature ls with
          | Some (Some temp) => with_target_temp za temp
          | _ => za
          end in
        let zc :=
          match attr_vent_open ls with
          | Some vent => with_vent zb vent (_last_vent_toggle zb)
          | None => zb
          end in
        let zd :=
          match attr_last_vent_toggle ls with
          | Some ts => with_vent zc (_vent_open zc) ts
          | None => zc
          end in
        match _fan_mode zd, attr_fan_mode ls with
        | Some _, Some fm =>
            if negb (String.eqb fm "") && str_in fm (_attr_fan_modes zd)
            then with_fan_mode zd (Some fm) else zd
        | _, _ => zd
        end
    end in
  let (z2, eff) := _update_current_temp z1 sensor_state in
  (z2, eff ++ [WriteHaState]).

End Zone.

(* ------------------------------------------------------------------ *)
(** ** Coordinator: [MotorCoordinator] *)

Module Coordinator.

(** Mode priority for coordinator (highest priority first, excluding OFF) *)
Definition MODE_PRIORITY : list HVACMode := [COOL; HEAT; DRY; FAN_ONLY].

(** Modes that require temperature comparison for vent control *)
Definition TEMP_CONTROLLED_MODES : list HVACMode := [HEAT; COOL].

(** An [asyncio.Task] as the event loop sees it.  [task.done()] holds
    only in the last state. *)
Inductive TaskStatus : Type := Scheduled | Running | Finished.

(** The loop's task table; a task handle is its index. *)
Definition Tasks : Type := list TaskStatus.

Definition done (tasks : Tasks) (handle : nat) : bool :=
  match nth_error tasks handle with
  | Some Finished => true
  | _ => false
  end.

(** [hass.async_create_task(coro)] *)
Definition async_create_task (tasks : Tasks) : Tasks * nat :=
  (tasks ++ [Scheduled], List.length tasks).

(** [_zones] holds references: the list is the live state of every
    registered zone object, in registration order. *)
Record t : Type := mk {
  _motor_entity_id : string;
  _zones : list Zone.t;
  _pending_sync : option nat;
  _last_active_mode : option string;
  _last_motor_temp : option float;
  _last_fan_mode : option string;
  _sensor : option string
}.

Definition __init__ (motor_entity_id : string) : t :=
  mk motor_entity_id [] None None None None None.

Definition with_zones (c : t) (zs : list Zone.t) : t :=
  mk (_motor_entity_id c) zs (_pending_sync c) (_last_active_mode c)
     (_last_motor_temp c) (_last_fan_mode c) (_sensor c).

Definition with_pending_sync (c : t) (h : option nat) : t :=
  mk (_motor_entity_id c) (_zones c) h (_last_active_mode c)
     (_last_motor_temp c) (_last_fan_mode c) (_sensor c).

Definition with_last (c : t) (mode : option string) (temp : option float)
  : t :=
  mk (_motor_entity_id c) (_zones c) (_pending_sync c) mode temp
     (_last_fan_mode c) (_sensor c).

Definition with_last_fan_mode (c : t) (f : option string) : t :=
  mk (_motor_entity_id c) (_zones c) (_pending_sync c) (_last_active_mode c)
     (_last_motor_temp c) f (_sensor c).

Definition with_sensor (c : t) (s : option string) : t :=
  mk (_motor_entity_id c) (_zones c) (_pending_sync c) (_last_active_mode c)
     (_last_motor_temp c) (_last_fan_mode c) s.

(** [register_zone] *)
Definition register_zone (c : t) (zone : Zone.t) : t :=
  with_zones c (_zones c ++ [zone]).

(** [register_sensor] *)
Definition register_sensor (c : t) (sensor : string) : t :=
  with_sensor c (Some sensor).

(** [async_zone_changed] *)
Definition async_zone_changed (c : t) (tasks : Tasks) : t * Tasks :=
  let schedule :=
    let (tasks', handle) := async_create_task tasks in
    (with_pending_sync c (Some handle), tasks') in
  match _pending_sync c with
  | Some handle => if negb (done tasks handle) then (c, tasks) else schedule
  | None => schedule
  end.

(** [async_fan_mode_changed] *)
Definition async_fan_mode_changed (c : t) (fan_mode : string)
    (tasks : Tasks) : t * Tasks :=
  async_zone_changed (with_last_fan_mode c (Some fan_mode)) tasks.

(** Python's [min(xs)] on a non-empty list: the running best is replaced
    by an item only when [item < best]. *)
Fixpoint min_from (best : float) (xs : list float) : float :=
  match xs with
  | [] => best
  | x :: rest => min_from (if (x <? best)%float then x else best) rest
  end.

(** Python's [max(xs)]: replaced only when [item > best]. *)
Fixpoint max_from (best : float) (xs : list float) : float :=
  match xs with
  | [] => best
  | x :: rest => max_from (if (best <? x)%float then x else best) rest
  end.

(** [min(open_temps) if open_temps else None] *)
Definition min_or_none (xs : list float) : option float :=
  match xs with
  | [] => None
  | x :: rest => Some (min_from x rest)
  end.

(** [max(open_temps) if open_temps else None] *)
Definition max_or_none (xs : list float) : option float :=
  match xs with
  | [] => None
  | x :: rest => Some (max_from x rest)
  end.

(** Which of the motor's service calls return normally during one pass. *)
Record Outcomes : Type := mkOut {
  turn_off_ok : bool;
  set_hvac_mode_ok : bool;
  set_temperature_ok : bool;
  set_fan_mode_ok : bool
}.

(** [_notify_sensor] *)
Definition _notify_sensor (c : t) : list Effect :=
  match _sensor c with
  | Some _ => [UpdateSensor]
  | None => []
  end.

(** A service call wrapped in [try ... except Exception: log]. *)
Definition guarded (call : Effect) (ok : bool) : list Effect :=
  if ok then [call] else [call; LogException].

(** [_async_sync_motor], from the point where it resumes after
    [await asyncio.sleep(0)].  The zones and the coordinator's own fields
    are taken as they stand at that point: this is the pass when nothing
    else runs while it awaits its calls.  [Interleaved._async_sync_motor]
    further down spells out the two reads made after those awaits. *)
Definition _async_sync_motor (c : t) (out : Outcomes) : t * list Effect :=
  let motor := _motor_entity_id c in
  let open_zones := filter Zone._vent_open (_zones c) in
  match open_zones with
  | [] =>
      let c1 := with_last c None None in
      (c1, guarded (Call "climate" "turn_off" (Entity motor))
                   (turn_off_ok out)
           ++ _notify_sensor c1)
  | _ :: _ =>
      let open_modes := map Zone._hvac_mode open_zones in
      let target_mode :=
        match find (fun m => mode_in m open_modes) MODE_PRIORITY with
        | Some m => m
        | None => FAN_ONLY
        end in
      let open_temps :=
        map Zone._target_temp
            (filter (fun z => mode_in (Zone._hvac_mode z)
                                      TEMP_CONTROLLED_MODES)
                    open_zones) in
      let target_temp :=
        if mode_eqb target_mode COOL then min_or_none open_temps
        else if mode_eqb target_mode HEAT then max_or_none open_temps
        else None in
      let c1 := with_last c (Some (value target_mode)) target_temp in
      let mode_call :=
        Call "climate" "set_hvac_mode"
             (EntityHvacMode motor (value target_mode)) in
      if negb (set_hvac_mode_ok out) then
        (c1, [mode_call; LogException] ++ _notify_sensor c1)
      else
        let temp_eff :=
          match target_temp with
          | Some temp =>
              guarded (Call "climate" "set_temperature"
                            (EntityTemperature motor temp))
                      (set_temperature_ok out)
          | None => []
          end in
        let fan_eff :=
          match _last_fan_mode c1 with
          | Some fan =>
              guarded (Call "climate" "set_fan_mode"
                            (EntityFanMode motor fan))
                      (set_fan_mode_ok out)
          | None => []
          end in
        (c1, [mode_call] ++ temp_eff ++ fan_eff ++ _notify_sensor c1)
  end.

End Coordinator.

(* ------------------------------------------------------------------ *)
(** ** The event loop around the coordinator *)

Module Loop.
Import Coordinator.

(** The coordinator and the loop's task table. *)
Record World : Type := mkWorld {
  coord : Coordinator.t;
  tasks : Tasks
}.

(** What can happen, one at a time, on the single-threaded loop:
    a zone calls [async_zone_changed]; a zone calls
    [async_fan_mode_changed]; a zone or the status sensor registers; a
    registered zone object is rewritten by its own handlers; the loop
    resumes a scheduled pass after its [sleep(0)], at which point the pass
    reads the zones; a running pass returns. *)
Inductive Event : Type :=
| Notify
| NotifyFan (fan_mode : string)
| Register (z : Zone.t)
| RegisterSensor (sensor : string)
| ZoneWrite (index : nat) (z : Zone.t)
| Resume (handle : nat) (out : Outcomes)
| Return (handle : nat).

Fixpoint set_nth {A : Type} (l : list A) (n : nat) (a : A) : list A :=
  match l, n with
  | [], _ => []
  | _ :: r, O => a :: r
  | x :: r, S n' => x :: set_nth r n' a
  end.

Definition step (w : World) (ev : Event) : World :=
  match ev with
  | Notify =>
      let (c, ts) := async_zone_changed (coord w) (tasks w) in
      mkWorld c ts
  | NotifyFan f =>
      let (c, ts) := async_fan_mode_changed (coord w) f (tasks w) in
      mkWorld c ts
  | Register z => mkWorld (register_zone (coord w) z) (tasks w)
  | RegisterSensor sn => mkWorld (register_sensor (coord w) sn) (tasks w)
  | ZoneWrite i z =>
      mkWorld (with_zones (coord w) (set_nth (_zones (coord w)) i z))
              (tasks w)
  | Resume h out =>
      match nth_error (tasks w) h with
      | Some Scheduled =>
          mkWorld (fst (_async_sync_motor (coord w) out))
                  (set_nth (tasks w) h Running)
      | _ => w
      end
  | Return h =>
      match nth_error (tasks w) h with
      | Some Running => mkWorld (coord w) (set_nth (tasks w) h Finished)
      | _ => w
      end
  end.

Definition run (w : World) (evs : list Event) : World :=
  fold_left step evs w.

Definition init (motor_entity_id : string) : World :=
  mkWorld (Coordinator.__init__ motor_entity_id) [].

Definition not_done (s : TaskStatus) : bool :=
  match s with Finished => false | _ => true end.

Definition has_read (s : TaskStatus) : bool :=
  match s with Scheduled => false | _ => true end.

(** Passes scheduled or running, and passes that have read zone state. *)
Definition in_flight (w : World) : nat :=
  List.length (filter not_done (tasks w)).

Definition executed (w : World) : nat :=
  List.length (filter has_read (tasks w)).

End Loop.

(* ------------------------------------------------------------------ *)
(** ** The damper decision as the design document words it *)

(** Reference definition, clause by clause: Off; FanOnly and Dry; Heat or
    Cool without a reading; Heat; Cool; anything else. *)
Definition shouldDamperBeOpen (mode : HVACMode)
    (currentTemperature : option float) (targetTemperature tolerance : float)
    (damperOpen : bool) : bool :=
  match mode, currentTemperature with
  | OFF, _ => false
  | FAN_ONLY, _ | DRY, _ => true
  | HEAT, None | COOL, None => false
  | HEAT, Some current =>
      if (current <? targetTemperature - tolerance)%float then true
      else if (targetTemperature + tolerance <=? current)%float then false
      else damperOpen
  | COOL, Some current =>
      if (targetTemperature + tolerance <? current)%float then true
      else if (current <=? targetTemperature - tolerance)%float then false
      else damperOpen
  | _, _ => false
  end.

(* ------------------------------------------------------------------ *)
(** ** Vocabulary of the aggregation rule *)

(** The comparison of two finite floats of equal sign, as [SFcompare]
    performs it: exponents first, then mantissas. *)
Definition lex (e1 : Z) (m1 : positive) (e2 : Z) (m2 : positive)
  : comparison :=
  match e1 ?= e2 with
  | Lt => Lt
  | Gt => Gt
  | Eq => Pos.compare_cont Eq m1 m2
  end.

Definition no_nan (xs : list float) : Prop :=
  forall x, In x xs -> is_nan x = false.

(** [m] is the minimum of [xs]: it occurs in [xs], nothing in [xs] is
    strictly below it, and it is below or equal to everything in [xs] as
    soon as [xs] holds no NaN. *)
Definition is_minimum (m : float) (xs : list float) : Prop :=
  In m xs /\
  (forall y, In y xs -> (y <? m)%float = false) /\
  (no_nan xs -> forall y, In y xs -> (m <=? y)%float = true).

Definition is_maximum (m : float) (xs : list float) : Prop :=
  In m xs /\
  (forall y, In y xs -> (m <? y)%float = false) /\
  (no_nan xs -> forall y, In y xs -> (y <=? m)%float = true).

(** [r] is [b] or strictly below it; [r] is [b] or strictly above it. *)
Definition below (r b : float) : Prop := r = b \/ (r <? b)%float = true.
Definition above (r b : float) : Prop := r = b \/ (b <? r)%float = true.

(** [m] is the first entry of [priority] that occurs in [present]. *)
Definition first_present (priority present : list HVACMode) (m : HVACMode)
  : Prop :=
  exists before after,
    priority = before ++ m :: after /\
    In m present /\
    forall m', In m' before -> ~ In m' present.

(** Zones whose damper is open, and the setpoints that take part in the
    temperature aggregation. *)
Definition open_zones (c : Coordinator.t) : list Zone.t :=
  filter Zone._vent_open (Coordinator._zones c).

Definition open_modes (c : Coordinator.t) : list HVACMode :=
  map Zone._hvac_mode (open_zones c).

Definition qualifying_temps (c : Coordinator.t) : list float :=
  map Zone._target_temp
      (filter (fun z => mode_eqb (Zone._hvac_mode z) HEAT
                        || mode_eqb (Zone._hvac_mode z) COOL)
              (open_zones c)).

Definition set_temperature_calls (eff : list Effect) : list float :=
  flat_map (fun e =>
              match e with
              | Call _ "set_temperature" (EntityTemperature _ x) => [x]
              | _ => []
              end) eff.

(* ------------------------------------------------------------------ *)
(** ** A zone's life as a sequence of handler invocations *)

Module Life.
Import Zone.

(** One invocation of a handler, with everything it reads from outside. *)
Inductive Command : Type :=
| SetHvacMode (hvac_mode : HVACMode) (env : Env)
| SetTemperature (temperature : option float) (hvac_mode : option HVACMode)
                 (env1 env2 : Env)
| SetFanMode (fan_mode : string)
| TurnOn (env : Env)
| TurnOff (env : Env)
| SensorChanged (new_state : SensorState) (env : Env)
| StartupCheck (sensor_state : SensorState) (env : Env).

Definition handle (z : Zone.t) (cmd : Command)
  : Result (Zone.t * list Effect) :=
  match cmd with
  | SetHvacMode m env => Ok (async_set_hvac_mode z m env)
  | SetTemperature x m env1 env2 => Ok (async_set_temperature z x m env1 env2)
  | SetFanMode f => Ok (async_set_fan_mode z f)
  | TurnOn env => async_turn_on z env
  | TurnOff env => Ok (async_turn_off z env)
  | SensorChanged st env => Ok (_async_sensor_changed z st env)
  | StartupCheck st env => Ok (_async_startup_check z st env)
  end.

(** The zone object after the handler; a handler that raises has not
    written anything yet. *)
Definition after (z : Zone.t) (cmd : Command) : Zone.t :=
  match handle z cmd with
  | Ok (z', _) => z'
  | Raise _ => z
  end.

Definition run (z : Zone.t) (cmds : list Command) : Zone.t :=
  fold_left after cmds z.

End Life.

(** The zone invariants of the data model: the mode is configured and the
    target temperature lies within the configured bounds. *)
Definition mode_configured (z : Zone.t) : Prop :=
  In (Zone._hvac_mode z) (Zone._attr_hvac_modes z).

Definition target_in_bounds (z : Zone.t) : Prop :=
  (Zone._attr_min_temp z <=? Zone._target_temp z)%float = true /\
  (Zone._target_temp z <=? Zone._attr_max_temp z)%float = true.

Definition off_means_closed (z : Zone.t) : Prop :=
  Zone._hvac_mode z = OFF -> Zone._vent_open z = false.

(** What the vent logic leaves alone in a zone. *)
Definition same_config (z z' : Zone.t) : Prop :=
  Zone._attr_hvac_modes z' = Zone._attr_hvac_modes z /\
  Zone._min_cycle_duration z' = Zone._min_cycle_duration z /\
  Zone._tolerance z' = Zone._tolerance z.

(** The shape of the task table: every pass created so far has finished,
    except possibly the newest one, which is then the one [_pending_sync]
    refers to. *)
Definition settled (w : Loop.World) : Prop :=
  exists n,
    Loop.tasks w = repeat Coordinator.Finished n /\
    forall h, Coordinator._pending_sync (Loop.coord w) = Some h -> (h < n)%nat.

Definition busy (w : Loop.World) : Prop :=
  exists n s,
    Loop.tasks w = repeat Coordinator.Finished n ++ [s] /\
    Loop.not_done s = true /\
    Coordinator._pending_sync (Loop.coord w) = Some n.

Definition coherent (w : Loop.World) : Prop := settled w \/ busy w.

(* ------------------------------------------------------------------ *)
(** ** A concrete installation *)

Module Sample.
Import Zone Life.

Definition second : Z := 1000000.

(** The outside at clock [now], with the switch call succeeding or not. *)
Definition at_time (now : Z) (ok : bool) : Env := mkEnv now ok now.

(** Default bounds and tolerance, five-minute minimum cycle. *)
Definition living : Zone.t :=
  Zone.__init__ "Living" "switch.living_vent" "sensor.living_temp"
    [OFF; HEAT; COOL; FAN_ONLY; DRY] ["auto"; "low"; "medium"; "high"]
    16 30 0.3 (Some (300 * second)).

(** The living room reads 30 degrees and is put in Cool at time 0: the
    damper opens. *)
Definition cooling : Zone.t :=
  run living [SensorChanged (Reading 30) (at_time 0 true);
              SetHvacMode COOL (at_time 0 true)].

(** A zone configured with heating only. *)
Definition heat_only : Zone.t :=
  Zone.__init__ "Attic" "switch.attic_vent" "sensor.attic_temp"
    [OFF; HEAT] [] 16 30 0.3 None.

(** A zone whose configured list is just Off. *)
Definition off_only : Zone.t :=
  Zone.__init__ "Shed" "switch.shed_vent" "sensor.shed_temp"
    [OFF] [] 16 30 0.3 None.

Definition all_ok : Coordinator.Outcomes :=
  Coordinator.mkOut true true true true.

(** A zone caught in a given mode, setpoint and damper position. *)
Definition zone_in (nm : string) (mode : HVACMode) (target : float)
    (open : bool) : Zone.t :=
  with_vent
    (with_target_temp
       (with_hvac_mode
          (Zone.__init__ nm ("switch." ++ nm) ("sensor." ++ nm)
             [OFF; HEAT; COOL; FAN_ONLY; DRY] [] 16 30 0.3 None)
          mode)
       target)
    open None.

(** A coordinator with its status sensor and the given zones registered. *)
Definition house (zones : list Zone.t) : Coordinator.t :=
  fold_left Coordinator.register_zone zones
    (Coordinator.register_sensor (Coordinator.__init__ "climate.motor")
                                 "entry_coordinator_sensor").

(** Zones A (open, Cool, 20), B (open, Heat, 22), C (closed, Dry). *)
Definition mixed : Coordinator.t :=
  house [zone_in "a" COOL 20 true; zone_in "b" HEAT 22 true;
         zone_in "c" DRY 23 false].

(** Zones A (open, Heat, 22), B (open, Dry). *)
Definition heat_and_dry : Coordinator.t :=
  house [zone_in "a" HEAT 22 true; zone_in "b" DRY 23 true].

Definition all_closed : Coordinator.t :=
  house [zone_in "a" COOL 20 false; zone_in "b" OFF 22 false].

End Sample.

(* ------------------------------------------------------------------ *)
(** ** Zone: what the entity reports *)

Module ZoneView.

(** [homeassistant.components.climate.const.HVACAction] *)
Inductive HVACAction : Type :=
| COOLING | DEFROSTING | DRYING | FAN | HEATING | IDLE | OFF | PREHEATING.

(** [_MODE_ACTION_OPEN.get(mode)] *)
Definition _MODE_ACTION_OPEN (mode : HVACMode) : option HVACAction :=
  match mode with
  | HA.HEAT => Some HEATING
  | HA.COOL => Some COOLING
  | HA.FAN_ONLY => Some FAN
  | HA.DRY => Some DRYING
  | _ => None
  end.

(** [hvac_action] *)
Definition hvac_action (z : Zone.t) : HVACAction :=
  if mode_eqb (Zone._hvac_mode z) HA.OFF then OFF
  else if Zone._vent_open z then
    match _MODE_ACTION_OPEN (Zone._hvac_mode z) with
    | Some action => action
    | None => IDLE
    end
  else IDLE.

End ZoneView.

(** The fan mode of a zone is one of its configured fan modes, and is
    absent only when none is configured. *)
Definition fan_mode_configured (z : Zone.t) : Prop :=
  match Zone._fan_mode z with
  | Some f => In f (Zone._attr_fan_modes z)
  | None => Zone._attr_fan_modes z = []
  end.

(** The static configuration of a zone. *)
Definition same_setup (z z' : Zone.t) : Prop :=
  Zone.name z' = Zone.name z /\
  Zone._vent_entity_id z' = Zone._vent_entity_id z /\
  Zone._sensor_entity_id z' = Zone._sensor_entity_id z /\
  Zone._tolerance z' = Zone._tolerance z /\
  Zone._min_cycle_duration z' = Zone._min_cycle_duration z /\
  Zone._attr_hvac_modes z' = Zone._attr_hvac_modes z /\
  Zone._attr_fan_modes z' = Zone._attr_fan_modes z /\
  Zone._attr_min_temp z' = Zone._attr_min_temp z /\
  Zone._attr_max_temp z' = Zone._attr_max_temp z.

(** Effects that reach outside the zone object: service calls and the two
    coordinator notifications. *)
Definition is_outgoing (e : Effect) : bool :=
  match e with
  | Call _ _ _ | ZoneChanged | FanModeChanged _ => true
  | _ => false
  end.

(** The fan state of a zone. *)
Definition same_fan (z z' : Zone.t) : Prop :=
  Zone._fan_mode z' = Zone._fan_mode z /\
  Zone._attr_fan_modes z' = Zone._attr_fan_modes z.

(* ------------------------------------------------------------------ *)
(** ** Wiring zones to the coordinator *)

Module Wiring.

(** The coordinator methods invoked by effects that follow one another
    with no suspension point in between, in order. *)
Definition deliver (w : Loop.World) (eff : list Effect) : Loop.World :=
  fold_left
    (fun w e =>
       match e with
       | ZoneChanged => Loop.step w Loop.Notify
       | FanModeChanged f => Loop.step w (Loop.NotifyFan f)
       | _ => w
       end)
    eff w.

End Wiring.

(* ------------------------------------------------------------------ *)
(** ** Status sensor: [MotorCoordinatorSensor] *)

Module StatusSensor.
Import Coordinator.

(** Python's [str(n)] for a non-negative integer. *)
Definition str (n : nat) : string :=
  DecimalString.NilZero.string_of_uint (Nat.to_uint n).

(** [sum(1 for z in zones if z.vent_is_open)] *)
Definition open_count (c : Coordinator.t) : nat :=
  List.length (filter Zone._vent_open (_zones c)).

(** [native_value] *)
Definition native_value (c : Coordinator.t) : string :=
  (str (open_count c) ++ "/" ++ str (List.length (_zones c)))%string.

(** [extra_state_attributes] *)
Record Attributes : Type := mkAttrs {
  active_mode : option string;
  motor_target_temperature : option float;
  open_zones : list string;
  closed_zones : list string
}.

Definition extra_state_attributes (c : Coordinator.t) : Attributes :=
  mkAttrs (_last_active_mode c) (_last_motor_temp c)
          (map Zone.name (filter Zone._vent_open (_zones c)))
          (map Zone.name
               (filter (fun z => negb (Zone._vent_open z)) (_zones c))).

End StatusSensor.

(** The entity a service call is addressed to. *)
Definition entity_of (d : ServiceData) : string :=
  match d with
  | Entity e | EntityHvacMode e _ | EntityTemperature e _
  | EntityFanMode e _ => e
  end.

(** Some registered zone has its damper open in mode [m]. *)
Definition has_open (c : Coordinator.t) (m : HVACMode) : Prop :=
  exists z, In z (Coordinator._zones c) /\
            Zone._vent_open z = true /\ Zone._hvac_mode z = m.

Definition is_notification (e : Effect) : bool :=
  match e with
  | ZoneChanged | FanModeChanged _ => true
  | _ => false
  end.

Definition is_fan_event (ev : Loop.Event) : bool :=
  match ev with Loop.NotifyFan _ => true | _ => false end.

(** A motor command as a pass issues it: a [climate] call on the motor
    entity; the mode and the temperature it carries are those on record
    in [c_end], [turn_off] goes with no active mode on record there, and
    the fan mode it carries is the one on record in [c_mid]. *)
Definition command_as_issued (c_mid c_end : Coordinator.t) (e : Effect)
  : Prop :=
  match e with
  | Call domain service data =>
      domain = "climate" /\
      entity_of data = Coordinator._motor_entity_id c_end /\
      match data with
      | Entity _ =>
          service = "turn_off" /\ Coordinator._last_active_mode c_end = None
      | EntityHvacMode _ m =>
          service = "set_hvac_mode" /\
          Coordinator._last_active_mode c_end = Some m
      | EntityTemperature _ x =>
          service = "set_temperature" /\
          Coordinator._last_motor_temp c_end = Some x
      | EntityFanMode _ f =>
          service = "set_fan_mode" /\
          Coordinator._last_fan_mode c_mid = Some f
      end
  | _ => True
  end.

(** What a pass has recorded, and whom it talks to. *)
Definition same_record (c c' : Coordinator.t) : Prop :=
  Coordinator._last_active_mode c' = Coordinator._last_active_mode c /\
  Coordinator._last_motor_temp c' = Coordinator._last_motor_temp c /\
  Coordinator._motor_entity_id c' = Coordinator._motor_entity_id c.

(** The recorded mode agrees with the dampers: absent exactly when no
    registered zone is open, and then no temperature is on record. *)
Definition view_consistent (c : Coordinator.t) : Prop :=
  (Coordinator._last_active_mode c = None <->
   filter Zone._vent_open (Coordinator._zones c) = []) /\
  (Coordinator._last_active_mode c = None ->
   Coordinator._last_motor_temp c = None).

(** Events that change what the coordinator's zone list shows. *)
Definition is_zone_event (ev : Loop.Event) : bool :=
  match ev with
  | Loop.Register _ | Loop.ZoneWrite _ _ => true
  | _ => false
  end.

(* ------------------------------------------------------------------ *)
(** ** Suspension points *)

Module Interleaved.
Import Coordinator.

(** [_async_sync_motor] with its late reads spelled out.  Once resumed,
    the pass reads the zones and records mode and temperature without
    suspending; it then awaits its service calls one by one.
    [self._last_fan_mode] is read when the fan step is reached, after the
    mode and temperature calls have been awaited, and [self._sensor] when
    the pass notifies, after its last call.  [c] is the coordinator as
    the pass resumes, [fan_seen] and [sensor_seen] are those two reads. *)
Definition _async_sync_motor (c : Coordinator.t) (out : Outcomes)
    (fan_seen sensor_seen : option string) : Coordinator.t * list Effect :=
  let motor := _motor_entity_id c in
  let notify :=
    match sensor_seen with Some _ => [UpdateSensor] | None => [] end in
  let open_zones := filter Zone._vent_open (_zones c) in
  match open_zones with
  | [] =>
      (with_last c None None,
       guarded (Call "climate" "turn_off" (Entity motor)) (turn_off_ok out)
       ++ notify)
  | _ :: _ =>
      let open_modes := map Zone._hvac_mode open_zones in
      let target_mode :=
        match find (fun m => mode_in m open_modes) MODE_PRIORITY with
        | Some m => m
        | None => FAN_ONLY
        end in
      let open_temps :=
        map Zone._target_temp
            (filter (fun z => mode_in (Zone._hvac_mode z)
                                      TEMP_CONTROLLED_MODES)
                    open_zones) in
      let target_temp :=
        if mode_eqb target_mode COOL then min_or_none open_temps
        else if mode_eqb target_mode HEAT then max_or_none open_temps
        else None in
      let c1 := with_last c (Some (value target_mode)) target_temp in
      let mode_call :=
        Call "climate" "set_hvac_mode"
             (EntityHvacMode motor (value target_mode)) in
      if negb (set_hvac_mode_ok out) then
        (c1, [mode_call; LogException] ++ notify)
      else
        let temp_eff :=
          match target_temp with
          | Some temp =>
              guarded (Call "climate" "set_temperature"
                            (EntityTemperature motor temp))
                      (set_temperature_ok out)
          | None => []
          end in
        let fan_eff :=
          match fan_seen with
          | Some fan =>
              guarded (Call "climate" "set_fan_mode"
                            (EntityFanMode motor fan))
                      (set_fan_mode_ok out)
          | None => []
          end in
        (c1, [mode_call] ++ temp_eff ++ fan_eff ++ notify)
  end.

(** The effects of the pass with handle [h] when the loop runs
    [during_calls] while the pass awaits its mode and temperature calls
    (or its turn-off call) and [during_fan] while it awaits its fan
    call. *)
Definition pass_effects (w : Loop.World) (h : nat) (out : Outcomes)
    (during_calls during_fan : list Loop.Event) : list Effect :=
  let w1 := Loop.step w (Loop.Resume h out) in
  let w_mid := Loop.run w1 during_calls in
  let w_end := Loop.run w_mid during_fan in
  snd (_async_sync_motor (Loop.coord w) out
         (_last_fan_mode (Loop.coord w_mid))
         (_sensor (Loop.coord w_end))).

(** A handler suspends at every service call it awaits, and nowhere
    else.  [gaps] gives, call by call, the loop events that run while the
    handler waits; the notifications in between reach the coordinator at
    once. *)
Fixpoint deliver_with (w : Loop.World) (eff : list Effect)
    (gaps : list (list Loop.Event)) : Loop.World :=
  match eff with
  | [] => w
  | Call _ _ _ :: rest =>
      match gaps with
      | gap :: later => deliver_with (Loop.run w gap) rest later
      | [] => deliver_with w rest []
      end
  | ZoneChanged :: rest => deliver_with (Loop.step w Loop.Notify) rest gaps
  | FanModeChanged f :: rest =>
      deliver_with (Loop.step w (Loop.NotifyFan f)) rest gaps
  | _ :: rest => deliver_with w rest gaps
  end.

End Interleaved.


(* ------------------------------------------------------------------ *)
(** ** Setting up from a config entry *)

Module Setup.

(** [[HVACMode(m) for m in data[CONF_MODES]]]: [None] stands for the
    [ValueError] raised on a string that is not a mode value. *)
Fixpoint modes_of_values (raw : list string) : option (list HVACMode) :=
  match raw with
  | [] => Some []
  | s :: rest =>
      match of_value s, modes_of_values rest with
      | Some m, Some ms => Some (m :: ms)
      | _, _ => None
      end
  end.

(** [async_setup_entry] of the integration: the mode list handed to the
    zones. *)
Definition entry_modes (raw : list string) : option (list HVACMode) :=
  match modes_of_values raw with
  | Some modes => Some (if mode_in OFF modes then modes else OFF :: modes)
  | None => None
  end.

(** The same normalisation on mode strings, as [async_setup] and both
    config flows do it: [if "off" not in modes: modes.insert(0, "off")]. *)
Definition with_off (modes : list string) : list string :=
  if str_in "off" modes then modes else "off" :: modes.

(** One entry of [cfg["zones"]]. *)
Record ZoneEntry : Type := mkZone {
  zone_name : string;
  unique_id : string;
  vent : string;
  sensor : string
}.

(** Python truthiness of a float. *)
Definition truthy (x : float) : bool := negb (x =? 0)%float.

(** [async_setup_entry] of the climate platform: the minimum cycle
    duration.  [value] is [cfg.get("min_cycle_duration")];
    [microseconds] turns a number of seconds into a [timedelta]. *)
Definition min_cycle_of (microseconds : float -> Z) (value : option float)
  : option Z :=
  match value with
  | Some seconds =>
      if truthy seconds then Some (microseconds seconds) else None
  | None => None
  end.

(** [async_setup_entry] of the climate platform: one entity per zone, all
    with the same modes, fan modes, bounds, tolerance and guard. *)
Definition zone_entities (microseconds : float -> Z)
    (modes : list HVACMode) (fan_modes : option (list string))
    (min_temp max_temp tolerance : float) (min_cycle : option float)
    (zones : list ZoneEntry) : list Zone.t :=
  map (fun zone_cfg =>
         Zone.__init__ (zone_name zone_cfg) (vent zone_cfg) (sensor zone_cfg)
           modes
           (match fan_modes with Some (f :: fs) => f :: fs | _ => [] end)
           min_temp max_temp tolerance
           (min_cycle_of microseconds min_cycle))
      zones.

End Setup.

(* ------------------------------------------------------------------ *)
(** ** Config flow and options flow *)

Module ConfigFlow.
Import Setup.

(** The validated form of the global step.  Every optional key has a
    default in the schema, so all keys are present. *)
Record GlobalInput : Type := mkGlobal {
  name : string;
  motor : string;
  modes : list string;
  fan_modes : list string;
  min_temp : float;
  max_temp : float;
  temp_step : float;
  tolerance : float;
  min_cycle_duration : float
}.

Definition with_modes (u : GlobalInput) (ms : list string) : GlobalInput :=
  mkGlobal (name u) (motor u) ms (fan_modes u) (min_temp u) (max_temp u)
           (temp_step u) (tolerance u) (min_cycle_duration u).

(** The form of a zone step. *)
Record ZoneInput : Type := mkZoneInput {
  in_name : string;
  in_vent : string;
  in_sensor : string
}.

(** An [errors] dict, as key and message in insertion order. *)
Definition Errors : Type := list (string * string).

(** [_validate_global] *)
Definition _validate_global (user_input : GlobalInput) : Errors :=
  (if (max_temp user_input <=? min_temp user_input)%float
   then [("base", "temp_range_invalid")] else [])
  ++ (match modes user_input with
      | [] => [("modes", "no_modes_selected")]
      | _ :: _ => []
      end).

(** Entry data: the global settings (missing while the [_global] dict is
    still empty) and the zones. *)
Record EntryData : Type := mkEntry {
  settings : option GlobalInput;
  zones : list ZoneEntry
}.

Inductive FlowResult : Type :=
| Form (step_id : string) (errors : Errors)
| Menu (step_id : string) (menu_options : list string)
| CreateEntry (title : string) (data : EntryData)
| OptionsSaved
| Abort (reason : string).

Section WithText.

(** [_slug] ([re.sub] over the lower-cased name, then [strip("_")]) and
    [str.strip] are left to Python; nothing below looks inside them. *)
Variables _slug strip : string -> string.

(** [_build_zone_entry] *)
Definition _build_zone_entry (user_input : ZoneInput) : ZoneEntry :=
  let name := strip (in_name user_input) in
  mkZone name (_slug name) (in_vent user_input) (in_sensor user_input).

(** The name check shared by the zone steps; [existing_uids] is what each
    step compares the new slug with. *)
Definition zone_errors (user_input : ZoneInput) (existing_uids : list string)
  : Errors :=
  let name := strip (in_name user_input) in
  if String.eqb name "" then [("name", "zone_name_required")]
  else if str_in (_slug name) existing_uids
       then [("name", "zone_name_duplicate")]
       else [].

(** [DuctedHVACConfigFlow]: the [_global] dict and the [_zones] list. *)
Record Flow : Type := mkFlow {
  _global : option GlobalInput;
  _zones : list ZoneEntry
}.

Definition __init__ : Flow := mkFlow None [].

(** [async_step_zone] *)
Definition async_step_zone (f : Flow) (user_input : option ZoneInput)
  : Flow * FlowResult :=
  match user_input with
  | Some u =>
      match zone_errors u (map (fun z => _slug (zone_name z)) (_zones f)) with
      | [] =>
          (mkFlow (_global f) (_zones f ++ [_build_zone_entry u]),
           Menu "add_another" ["zone"; "finish"])
      | errors => (f, Form "zone" errors)
      end
  | None => (f, Form "zone" [])
  end.

(** [async_step_user] *)
Definition async_step_user (f : Flow) (user_input : option GlobalInput)
  : Flow * FlowResult :=
  match user_input with
  | Some u =>
      match _validate_global u with
      | [] =>
          async_step_zone
            (mkFlow (Some (with_modes u (with_off (modes u)))) [])
            None
      | errors => (f, Form "user" errors)
      end
  | None => (f, Form "user" [])
  end.

(** [async_step_add_another] *)
Definition async_step_add_another (f : Flow) : Flow * FlowResult :=
  (f, Menu "add_another" ["zone"; "finish"]).

(** [async_step_finish]; [configured] tells whether
    [_abort_if_unique_id_configured] aborts. *)
Definition async_step_finish (f : Flow) (configured : bool)
  : Flow * FlowResult :=
  match _zones f with
  | [] => async_step_zone f None
  | _ :: _ =>
      let title :=
        match _global f with Some g => name g | None => "Ducted HVAC" end in
      if configured then (f, Abort "already_configured")
      else (f, CreateEntry title (mkEntry (_global f) (_zones f)))
  end.

(** [async_step_import]: the YAML import.  [user_input] is the data
    handed over by [async_setup], [None] when it is missing or empty;
    nothing in it is checked.  [configured] tells whether
    [_abort_if_unique_id_configured] aborts. *)
Definition async_step_import (f : Flow) (user_input : option EntryData)
    (configured : bool) : Flow * FlowResult :=
  match user_input with
  | None => (f, Abort "no_data")
  | Some data =>
      if configured then (f, Abort "already_configured")
      else
        let title :=
          match settings data with
          | Some g => name g
          | None => "Ducted HVAC"
          end in
        (f, CreateEntry title data)
  end.

(** One call of a step method. *)
Inductive StepCall : Type :=
| StepUser (user_input : option GlobalInput)
| StepZone (user_input : option ZoneInput)
| StepAddAnother
| StepFinish (configured : bool)
| StepImport (user_input : option EntryData) (configured : bool).

Definition call (f : Flow) (c : StepCall) : Flow * FlowResult :=
  match c with
  | StepUser u => async_step_user f u
  | StepZone u => async_step_zone f u
  | StepAddAnother => async_step_add_another f
  | StepFinish configured => async_step_finish f configured
  | StepImport u configured => async_step_import f u configured
  end.

(** The flow object after a sequence of step calls. *)
Definition flow_after (cs : list StepCall) : Flow :=
  fold_left (fun f c => fst (call f c)) cs __init__.

(** [DuctedHVACOptionsFlow]: each step returns the entry data it stored
    with [async_update_entry], if any, and its result. *)

(** [async_step_global_settings], when the form is submitted *)
Definition async_step_global_settings (current : EntryData)
    (user_input : GlobalInput) : option EntryData * FlowResult :=
  match _validate_global user_input with
  | [] =>
      (Some (mkEntry
               (Some (with_modes user_input (with_off (modes user_input))))
               (zones current)),
       OptionsSaved)
  | errors => (None, Form "global_settings" errors)
  end.

(** [async_step_add_zone], when the form is submitted *)
Definition async_step_add_zone (current : EntryData)
    (user_input : ZoneInput) : option EntryData * FlowResult :=
  match zone_errors user_input (map unique_id (zones current)) with
  | [] =>
      (Some (mkEntry (settings current)
                     (zones current ++ [_build_zone_entry user_input])),
       OptionsSaved)
  | errors => (None, Form "add_zone" errors)
  end.

(** [async_step_delete_zone]; [zone_uid] is [None] while the form has not
    been submitted. *)
Definition async_step_delete_zone (current : EntryData)
    (zone_uid : option string) : option EntryData * FlowResult :=
  match zones current with
  | [] => (None, Abort "no_zones_to_delete")
  | _ :: _ =>
      match zone_uid with
      | Some uid_to_delete =>
          let updated_zones :=
            filter (fun z => negb (String.eqb (unique_id z) uid_to_delete))
                   (zones current) in
          if Nat.eqb (List.length updated_zones)
                     (List.length (zones current))
          then (None, Form "delete_zone" [("base", "zone_not_found")])
          else (Some (mkEntry (settings current) updated_zones), OptionsSaved)
      | None => (None, Form "delete_zone" [])
      end
  end.

End WithText.

End ConfigFlow.

(** What every stored zone list is expected to satisfy. *)
Definition distinct_ids (zs : list Setup.ZoneEntry) : Prop :=
  NoDup (map Setup.unique_id zs).

(** A stored zone has a name and the id its name slugs to. *)
Definition entry_zone_ok (_slug : string -> string) (z : Setup.ZoneEntry)
  : Prop :=
  Setup.zone_name z <> "" /\ Setup.unique_id z = _slug (Setup.zone_name z).

(** Stored global settings list Off among the modes and have the minimum
    temperature not at or above the maximum. *)
Definition settings_ok (g : option ConfigFlow.GlobalInput) : Prop :=
  match g with
  | Some g =>
      In "off" (ConfigFlow.modes g) /\
      (ConfigFlow.max_temp g <=? ConfigFlow.min_temp g)%float = false
  | None => True
  end.

Definition flow_ok (_slug : string -> string) (f : ConfigFlow.Flow) : Prop :=
  distinct_ids (ConfigFlow._zones f) /\
  Forall (entry_zone_ok _slug) (ConfigFlow._zones f) /\
  settings_ok (ConfigFlow._global f).

(** A small installation for the flows, with names that are their own
    slugs. *)
Module FlowSample.

Definition same (s : string) : string := s.

Definition form : ConfigFlow.GlobalInput :=
  ConfigFlow.mkGlobal "Home" "climate.motor" ["heat"; "dry"]
    ["auto"; "low"] 16 30 0.5 0.3 0.

Definition kitchen : ConfigFlow.ZoneInput :=
  ConfigFlow.mkZoneInput "kitchen" "switch.kitchen" "sensor.kitchen".

Definition study : ConfigFlow.ZoneInput :=
  ConfigFlow.mkZoneInput "study" "switch.study" "sensor.study".

Definition stored : ConfigFlow.EntryData :=
  ConfigFlow.mkEntry
    (Some (ConfigFlow.with_modes form ["off"; "heat"; "dry"]))
    [Setup.mkZone "kitchen" "kitchen" "switch.kitchen" "sensor.kitchen";
     Setup.mkZone "study" "study" "switch.study" "sensor.study"].

End FlowSample.

(* ================================================================== *)
(** * Properties *)

(** ** Order facts on binary64 *)

Module FloatOrder.

Lemma lex_lt e1 m1 e2 m2 :
  lex e1 m1 e2 m2 = Lt <-> e1 < e2 \/ (e1 = e2 /\ (m1 < m2)%positive).
Proof.
  unfold lex. change (Pos.compare_cont Eq m1 m2) with (m1 ?= m2)%positive.
  destruct (Z.compare_spec e1 e2); rewrite ?Pos.compare_lt_iff;
    split; intros; try discriminate; try lia; auto.
Qed.

Lemma lex_gt e1 m1 e2 m2 :
  lex e1 m1 e2 m2 = Gt <-> e2 < e1 \/ (e1 = e2 /\ (m2 < m1)%positive).
Proof.
  unfold lex. change (Pos.compare_cont Eq m1 m2) with (m1 ?= m2)%positive.
  destruct (Z.compare_spec e1 e2); rewrite ?Pos.compare_gt_iff;
    split; intros; try discriminate; try lia; auto.
Qed.

Lemma lex_eq e1 m1 e2 m2 :
  lex e1 m1 e2 m2 = Eq <-> e1 = e2 /\ m1 = m2.
Proof.
  unfold lex. change (Pos.compare_cont Eq m1 m2) with (m1 ?= m2)%positive.
  destruct (Z.compare_spec e1 e2); rewrite ?Pos.compare_eq_iff;
    split; intros; try discriminate; try lia; intuition congruence.
Qed.

Lemma SFcompare_finite s1 m1 e1 s2 m2 e2 :
  SFcompare (S754_finite s1 m1 e1) (S754_finite s2 m2 e2) =
  Some match s1, s2 with
       | true, false => Lt
       | false, true => Gt
       | false, false => lex e1 m1 e2 m2
       | true, true =>
           match lex e1 m1 e2 m2 with Lt => Gt | Gt => Lt | Eq => Eq end
       end.
Proof.
  unfold lex; simpl. destruct s1, s2; try reflexivity.
  destruct (e1 ?= e2); try reflexivity.
Qed.

Ltac lex_cases :=
  repeat match goal with
  | |- context [lex ?a ?b ?c ?d] =>
      let E := fresh "E" in
      destruct (lex a b c d) eqn:E;
      [apply lex_eq in E | apply lex_lt in E | apply lex_gt in E]
  end.

Lemma SFltb_trans (x y z : spec_float) :
  SFltb x y = true -> SFltb y z = true -> SFltb x z = true.
Proof.
  unfold SFltb.
  destruct x as [sx|sx| |sx mx ex], y as [sy|sy| |sy my ey],
           z as [sz|sz| |sz mz ez];
    rewrite ?SFcompare_finite; cbn -[lex];
    try discriminate; try reflexivity;
    repeat match goal with s : bool |- _ => destruct s end;
    cbn -[lex]; try discriminate; try reflexivity;
    lex_cases; try discriminate; try reflexivity; intros _ _; exfalso; lia.
Qed.

Lemma SFltb_irrefl (x : spec_float) : SFltb x x = false.
Proof.
  unfold SFltb. destruct x as [s|s| |s m e];
    rewrite ?SFcompare_finite; cbn -[lex]; try reflexivity;
    try (destruct s; reflexivity).
  destruct s; lex_cases; try reflexivity; exfalso; lia.
Qed.

(** Two floats that are not NaN are comparable. *)
Lemma SFleb_total (x y : spec_float) :
  x <> S754_nan -> y <> S754_nan -> SFltb y x = false -> SFleb x y = true.
Proof.
  unfold SFltb, SFleb.
  destruct x as [sx|sx| |sx mx ex], y as [sy|sy| |sy my ey];
    rewrite ?SFcompare_finite; cbn -[lex]; try congruence;
    repeat match goal with s : bool |- _ => destruct s end;
    cbn -[lex]; try congruence; intros _ _;
    lex_cases; try discriminate; try reflexivity;
    intros _; exfalso; lia.
Qed.

Local Open Scope float_scope.

Lemma ltb_trans (x y z : float) :
  (x <? y) = true -> (y <? z) = true -> (x <? z) = true.
Proof. rewrite !ltb_spec. apply SFltb_trans. Qed.

Lemma ltb_irrefl (x : float) : (x <? x) = false.
Proof. rewrite ltb_spec. apply SFltb_irrefl. Qed.

Lemma ltb_asym (x y : float) : (x <? y) = true -> (y <? x) = false.
Proof.
  intros H. destruct (y <? x) eqn:E; [|reflexivity].
  pose proof (ltb_trans _ _ _ H E) as T. now rewrite ltb_irrefl in T.
Qed.

Lemma not_nan_spec (x : float) : is_nan x = false -> Prim2SF x <> S754_nan.
Proof.
  unfold is_nan. rewrite eqb_spec. intros H E. rewrite E in H. discriminate.
Qed.

Lemma leb_total (x y : float) :
  is_nan x = false -> is_nan y = false -> (y <? x) = false ->
  (x <=? y) = true.
Proof.
  intros Hx Hy. rewrite ltb_spec, leb_spec.
  apply SFleb_total; now apply not_nan_spec.
Qed.

End FloatOrder.

(** ** Python's [min] and [max] *)

Section MinMax.
Import Coordinator FloatOrder.
Local Open Scope float_scope.

Lemma below_trans r s b : below r s -> below s b -> below r b.
Proof.
  intros [->|H1] [->|H2]; unfold below; auto.
  right. eapply ltb_trans; eauto.
Qed.

Lemma below_not_above r b : below r b -> (b <? r) = false.
Proof. intros [->|H]; [apply ltb_irrefl | now apply ltb_asym]. Qed.

Lemma below_keeps_bound r b y :
  below r b -> (y <? b) = false -> (y <? r) = false.
Proof.
  intros [->|H] Hy; [assumption|].
  destruct (y <? r) eqn:E; [|reflexivity].
  now rewrite (ltb_trans _ _ _ E H) in Hy.
Qed.

Lemma min_from_below xs : forall b, below (min_from b xs) b.
Proof.
  induction xs as [|x xs IH]; intros b; simpl; [now left|].
  destruct (x <? b) eqn:E; [|apply IH].
  eapply below_trans; [apply IH|now right].
Qed.

Lemma min_from_In xs : forall b, In (min_from b xs) (b :: xs).
Proof.
  induction xs as [|x xs IH]; intros b; simpl; [now left|].
  destruct (IH (if x <? b then x else b)) as [H|H]; [|now right; right].
  destruct (x <? b); rewrite <- H; auto.
Qed.

Lemma min_from_lower xs :
  forall b y, In y (b :: xs) -> (y <? min_from b xs) = false.
Proof.
  induction xs as [|x xs IH]; intros b y Hy.
  - destruct Hy as [<-|[]]. apply ltb_irrefl.
  - cbn [min_from]. set (b' := if x <? b then x else b).
    assert (Hb : below (min_from b' xs) b') by apply min_from_below.
    destruct Hy as [<-|[<-|Hy]].
    + subst b'. destruct (x <? b) eqn:E.
      * apply below_not_above. eapply below_trans; [exact Hb|now right].
      * now apply below_not_above.
    + subst b'. destruct (x <? b) eqn:E.
      * now apply below_not_above.
      * eapply below_keeps_bound; eauto.
    + apply IH. now right.
Qed.

(** The same facts for [max], with the order reversed. *)

Lemma above_trans r s b : above r s -> above s b -> above r b.
Proof.
  intros [->|H1] [->|H2]; unfold above; auto.
  right. eapply ltb_trans; eauto.
Qed.

Lemma above_not_below r b : above r b -> (r <? b) = false.
Proof. intros [->|H]; [apply ltb_irrefl | now apply ltb_asym]. Qed.

Lemma above_keeps_bound r b y :
  above r b -> (b <? y) = false -> (r <? y) = false.
Proof.
  intros [->|H] Hy; [assumption|].
  destruct (r <? y) eqn:E; [|reflexivity].
  now rewrite (ltb_trans _ _ _ H E) in Hy.
Qed.

Lemma max_from_above xs : forall b, above (max_from b xs) b.
Proof.
  induction xs as [|x xs IH]; intros b; simpl; [now left|].
  destruct (b <? x) eqn:E; [|apply IH].
  eapply above_trans; [apply IH|now right].
Qed.

Lemma max_from_In xs : forall b, In (max_from b xs) (b :: xs).
Proof.
  induction xs as [|x xs IH]; intros b; simpl; [now left|].
  destruct (IH (if b <? x then x else b)) as [H|H]; [|now right; right].
  destruct (b <? x); rewrite <- H; auto.
Qed.

Lemma max_from_upper xs :
  forall b y, In y (b :: xs) -> (max_from b xs <? y) = false.
Proof.
  induction xs as [|x xs IH]; intros b y Hy.
  - destruct Hy as [<-|[]]. apply ltb_irrefl.
  - cbn [max_from]. set (b' := if b <? x then x else b).
    assert (Hb : above (max_from b' xs) b') by apply max_from_above.
    destruct Hy as [<-|[<-|Hy]].
    + subst b'. destruct (b <? x) eqn:E.
      * apply above_not_below. eapply above_trans; [exact Hb|now right].
      * now apply above_not_below.
    + subst b'. destruct (b <? x) eqn:E.
      * now apply above_not_below.
      * eapply above_keeps_bound; eauto.
    + apply IH. now right.
Qed.

Lemma min_or_none_minimum xs m :
  min_or_none xs = Some m -> is_minimum m xs.
Proof.
  destruct xs as [|b xs]; [discriminate|]. intros [= <-].
  split; [apply min_from_In|]. split; [apply min_from_lower|].
  intros Hn y Hy. apply leb_total.
  - apply Hn, min_from_In.
  - now apply Hn.
  - now apply min_from_lower.
Qed.

Lemma max_or_none_maximum xs m :
  max_or_none xs = Some m -> is_maximum m xs.
Proof.
  destruct xs as [|b xs]; [discriminate|]. intros [= <-].
  split; [apply max_from_In|]. split; [apply max_from_upper|].
  intros Hn y Hy. apply leb_total.
  - now apply Hn.
  - apply Hn, max_from_In.
  - now apply max_from_upper.
Qed.

End MinMax.

(** ** Zone controller *)

(** C1: the zone's damper decision [_should_vent_be_open] reads only mode,
    current temperature, target temperature, tolerance and the current
    damper flag, and agrees everywhere with the reference definition. *)
Theorem should_vent_be_open_refines (z : Zone.t) :
  Zone._should_vent_be_open z =
  shouldDamperBeOpen (Zone._hvac_mode z) (Zone._current_temp z)
    (Zone._target_temp z) (Zone._tolerance z) (Zone._vent_open z).
Proof.
  unfold Zone._should_vent_be_open, shouldDamperBeOpen.
  destruct (Zone._hvac_mode z), (Zone._current_temp z); reflexivity.
Qed.

(** The dead-band scenarios: Cool, target 24, tolerance 0.5. *)
Example dead_band_cool :
  let z := fun (current : float) (open : bool) =>
    Zone.with_vent
      (Zone.with_current_temp
         (Zone.with_target_temp
            (Zone.with_hvac_mode
               (Zone.__init__ "Z" "switch.z" "sensor.z" [OFF; COOL] []
                  16 30 0.5 None)
               COOL)
            24)
         (Some current))
      open None in
  Zone._should_vent_be_open (z 24.3%float false) = false /\
  Zone._should_vent_be_open (z 24.3%float true) = true /\
  Zone._should_vent_be_open (z 24.6%float false) = true /\
  Zone._should_vent_be_open (z 23.4%float true) = false /\
  Zone._should_vent_be_open
    (Zone.with_current_temp (z 24%float true) None) = false.
Proof. repeat split. Qed.

(** ** Coordinator: one aggregation pass *)

Section Aggregation.
Import Coordinator.

Lemma mode_eqb_eq (a b : HVACMode) : mode_eqb a b = true <-> a = b.
Proof.
  unfold mode_eqb. destruct (HVACMode_eq_dec a b); split;
    congruence || auto.
Qed.

Lemma mode_in_In (m : HVACMode) (l : list HVACMode) :
  mode_in m l = true <-> In m l.
Proof.
  unfold mode_in. rewrite existsb_exists. split.
  - intros (x & Hx & E). apply mode_eqb_eq in E. now subst.
  - intros H. exists m. split; [assumption|now apply mode_eqb_eq].
Qed.

Lemma find_first_present (priority present : list HVACMode) (m : HVACMode) :
  find (fun m => mode_in m present) priority = Some m ->
  first_present priority present m.
Proof.
  induction priority as [|p ps IH]; [discriminate|]. simpl.
  destruct (mode_in p present) eqn:E.
  - intros [= <-]. exists [], ps. repeat split.
    + now apply mode_in_In.
    + intros _ [].
  - intros H. destruct (IH H) as (before & after & -> & Hin & Hno).
    exists (p :: before), after. repeat split; auto.
    intros m' [<-|Hm'].
    + intros Hp. apply mode_in_In in Hp. congruence.
    + now apply Hno.
Qed.

Lemma find_none_absent (priority present : list HVACMode) :
  find (fun m => mode_in m present) priority = None ->
  forall m, In m priority -> ~ In m present.
Proof.
  intros H m Hm Hp. apply (find_none _ _ H) in Hm.
  apply mode_in_In in Hp. congruence.
Qed.

Lemma temp_controlled_filter (zs : list Zone.t) :
  filter (fun z => mode_in (Zone._hvac_mode z) TEMP_CONTROLLED_MODES) zs =
  filter (fun z => mode_eqb (Zone._hvac_mode z) HEAT
                   || mode_eqb (Zone._hvac_mode z) COOL) zs.
Proof.
  apply filter_ext. intros z. simpl. now rewrite orb_false_r.
Qed.

(** An open zone in Heat or Cool contributes its setpoint. *)
Lemma qualifying_nonempty (c : t) (m : HVACMode) :
  m = HEAT \/ m = COOL -> In m (open_modes c) -> qualifying_temps c <> [].
Proof.
  unfold open_modes, qualifying_temps. intros Hm Hin.
  apply in_map_iff in Hin. destruct Hin as (z & Hz & Hin).
  assert (In z (filter (fun z => mode_eqb (Zone._hvac_mode z) HEAT
                                 || mode_eqb (Zone._hvac_mode z) COOL)
                       (open_zones c))) as Hq.
  { apply filter_In. split; [assumption|]. rewrite Hz.
    destruct Hm; subst m; reflexivity. }
  intros E. apply (in_map Zone._target_temp) in Hq.
  rewrite E in Hq. exact Hq.
Qed.

Lemma first_present_In priority present m :
  first_present priority present m -> In m present.
Proof. now intros (? & ? & _ & H & _). Qed.

Lemma set_temperature_calls_app (a b : list Effect) :
  set_temperature_calls (a ++ b) =
  set_temperature_calls a ++ set_temperature_calls b.
Proof. apply flat_map_app. Qed.

Lemma notify_no_temperature (c : t) :
  set_temperature_calls (_notify_sensor c) = [].
Proof. unfold _notify_sensor. now destruct (_sensor c). Qed.

Lemma notify_no_call (p : string) (c : t) :
  filter (is_call p) (_notify_sensor c) = [].
Proof. unfold _notify_sensor. now destruct (_sensor c). Qed.

Lemma notify_no_any_call (c : t) :
  filter is_any_call (_notify_sensor c) = [].
Proof. unfold _notify_sensor. now destruct (_sensor c). Qed.

Lemma count_app (p : Effect -> bool) (a b : list Effect) :
  count p (a ++ b) = (count p a + count p b)%nat.
Proof. unfold count. now rewrite filter_app, length_app. Qed.

End Aggregation.

(** C2: one aggregation pass.  With no open damper the motor gets exactly
    one command, [turn_off], and the last active mode and last commanded
    temperature become absent.  Otherwise the commanded mode is the first
    entry of [Cool, Heat, Dry, FanOnly] found among the open zones' modes,
    or FanOnly when none is found; the target temperature is the minimum
    (Cool) or maximum (Heat) of the setpoints of the open Heat and Cool
    zones; for any other target mode, or when no open zone is in Heat or
    Cool, there is no target temperature; and the temperature commands
    issued are exactly the target temperature, once, when the mode command
    went through, and none otherwise. *)
Theorem sync_motor_aggregation (c : Coordinator.t) (out : Coordinator.Outcomes) :
  let c' := fst (Coordinator._async_sync_motor c out) in
  let eff := snd (Coordinator._async_sync_motor c out) in
  let motor := Coordinator._motor_entity_id c in
  match open_zones c with
  | [] =>
      In (Call "climate" "turn_off" (Entity motor)) eff /\
      count is_any_call eff = 1%nat /\
      Coordinator._last_active_mode c' = None /\
      Coordinator._last_motor_temp c' = None
  | _ :: _ =>
      exists target_mode,
        (first_present [COOL; HEAT; DRY; FAN_ONLY] (open_modes c) target_mode \/
         (forall m, In m [COOL; HEAT; DRY; FAN_ONLY] -> ~ In m (open_modes c)) /\
         target_mode = FAN_ONLY) /\
        Coordinator._last_active_mode c' = Some (value target_mode) /\
        hd_error eff =
          Some (Call "climate" "set_hvac_mode"
                     (EntityHvacMode motor (value target_mode))) /\
        count (is_call "turn_off") eff = 0%nat /\
        (target_mode = COOL ->
         exists x, Coordinator._last_motor_temp c' = Some x /\
                   is_minimum x (qualifying_temps c)) /\
        (target_mode = HEAT ->
         exists x, Coordinator._last_motor_temp c' = Some x /\
                   is_maximum x (qualifying_temps c)) /\
        ((target_mode <> COOL /\ target_mode <> HEAT) \/
         qualifying_temps c = [] ->
         Coordinator._last_motor_temp c' = None) /\
        set_temperature_calls eff =
          match Coordinator._last_motor_temp c' with
          | Some x =>
              if Coordinator.set_hvac_mode_ok out then [x] else []
          | None => []
          end
  end.
Proof.
  intros c' eff motor. subst c' eff.
  unfold Coordinator._async_sync_motor.
  rewrite temp_controlled_filter.
  fold (open_zones c). fold (open_modes c).
  destruct (open_zones c) as [|z0 zs] eqn:Hopen.
  - cbn [fst snd]. repeat split.
    + unfold Coordinator.guarded.
      destruct (Coordinator.turn_off_ok out); apply in_or_app; left; now left.
    + rewrite count_app. unfold count at 2. rewrite notify_no_any_call.
      unfold Coordinator.guarded.
      destruct (Coordinator.turn_off_ok out); reflexivity.
  - rewrite <- Hopen. fold (qualifying_temps c).
    set (tm := match find _ Coordinator.MODE_PRIORITY with
               | Some m => m | None => FAN_ONLY end).
    set (tt := if mode_eqb tm COOL
               then Coordinator.min_or_none (qualifying_temps c)
               else if mode_eqb tm HEAT
                    then Coordinator.max_or_none (qualifying_temps c)
                    else None).
    assert (Htm : first_present Coordinator.MODE_PRIORITY (open_modes c) tm \/
                  (forall m, In m Coordinator.MODE_PRIORITY ->
                             ~ In m (open_modes c)) /\ tm = FAN_ONLY).
    { subst tm.
      destruct (find _ Coordinator.MODE_PRIORITY) as [m|] eqn:F.
      - left. now apply find_first_present.
      - right. split; [now apply find_none_absent|reflexivity]. }
    assert (Hpresent : tm = COOL \/ tm = HEAT -> qualifying_temps c <> []).
    { intros Hm. destruct Htm as [Hf|[_ E]].
      - apply (qualifying_nonempty c tm); [tauto|].
        eapply first_present_In; eauto.
      - rewrite E in Hm. destruct Hm; discriminate. }
    assert (Hcool : tm = COOL ->
              exists x, tt = Some x /\ is_minimum x (qualifying_temps c)).
    { intros E. subst tt. rewrite E. cbn.
      destruct (Coordinator.min_or_none (qualifying_temps c)) as [x|] eqn:M.
      - exists x. split; [reflexivity|]. now apply min_or_none_minimum.
      - exfalso. apply Hpresent; [now left|].
        destruct (qualifying_temps c); [reflexivity|discriminate]. }
    assert (Hheat : tm = HEAT ->
              exists x, tt = Some x /\ is_maximum x (qualifying_temps c)).
    { intros E. subst tt. rewrite E. cbn.
      destruct (Coordinator.max_or_none (qualifying_temps c)) as [x|] eqn:M.
      - exists x. split; [reflexivity|]. now apply max_or_none_maximum.
      - exfalso. apply Hpresent; [now right|].
        destruct (qualifying_temps c); [reflexivity|discriminate]. }
    assert (Hnone : (tm <> COOL /\ tm <> HEAT) \/ qualifying_temps c = [] ->
                    tt = None).
    { intros H. subst tt. destruct H as [[H1 H2]|H].
      - destruct (mode_eqb tm COOL) eqn:E1;
          [apply mode_eqb_eq in E1; contradiction|].
        destruct (mode_eqb tm HEAT) eqn:E2;
          [apply mode_eqb_eq in E2; contradiction|reflexivity].
      - rewrite H. now destruct (mode_eqb tm COOL), (mode_eqb tm HEAT). }
    clearbody tt tm. exists tm.
    destruct (Coordinator.set_hvac_mode_ok out);
      cbn [negb fst snd Coordinator._last_motor_temp Coordinator.with_last
           Coordinator._last_active_mode Coordinator._last_fan_mode];
      (split; [exact Htm|]); (split; [reflexivity|]);
      (split; [reflexivity|]); (split; [|split; [exact Hcool|]; split;
         [exact Hheat|]; split; [exact Hnone|]]).
    + rewrite !count_app. unfold count. rewrite notify_no_call.
      destruct tt; destruct (Coordinator._last_fan_mode c);
        unfold Coordinator.guarded;
        destruct (Coordinator.set_temperature_ok out);
        destruct (Coordinator.set_fan_mode_ok out); reflexivity.
    + rewrite !set_temperature_calls_app, notify_no_temperature.
      destruct tt; destruct (Coordinator._last_fan_mode c);
        unfold Coordinator.guarded;
        destruct (Coordinator.set_temperature_ok out);
        destruct (Coordinator.set_fan_mode_ok out); reflexivity.
    + rewrite count_app. unfold count. rewrite notify_no_call. reflexivity.
    + rewrite set_temperature_calls_app, notify_no_temperature.
      now destruct tt.
Qed.

(** ** Zone controller: guard, actuation, turn-on *)

Section ZoneFacts.
Import Zone.

Lemma eqb_false_neq (a b : bool) : a <> b -> Bool.eqb a b = false.
Proof. destruct a, b; simpl; congruence. Qed.

Lemma control_vent_cases (z : Zone.t) (env : Env) :
  _async_control_vent z env =
  if Bool.eqb (_should_vent_be_open z) (_vent_open z) then (z, [])
  else if _is_min_cycle_respected z (_should_vent_be_open z) (now_guard env)
       then _async_set_vent z (_should_vent_be_open z) (call_ok env)
                            (now_toggle env)
       else (z, [LogDebug]).
Proof.
  unfold _async_control_vent.
  destruct (Bool.eqb _ _); [reflexivity|].
  now destruct (_is_min_cycle_respected _ _ _).
Qed.

End ZoneFacts.

(** C3: with a minimum cycle duration configured, a decision that would
    flip the damper less than that duration after the last toggle is
    dropped: the zone object is left as it was (damper flag and toggle
    timestamp included) and the only effect is a debug log line, so no
    actuation command is sent, the coordinator is not notified and nothing
    is scheduled. *)
Theorem min_cycle_suppresses_toggle
    (z : Zone.t) (env : Zone.Env) (min_cycle last : Z) :
  Zone._min_cycle_duration z = Some min_cycle ->
  Zone._last_vent_toggle z = Some last ->
  Zone._should_vent_be_open z <> Zone._vent_open z ->
  Zone.now_guard env - last < min_cycle ->
  let (z', eff) := Zone._async_control_vent z env in
  z' = z /\
  Zone._vent_open z' = Zone._vent_open z /\
  Zone._last_vent_toggle z' = Zone._last_vent_toggle z /\
  eff = [LogDebug] /\
  count is_any_call eff = 0%nat /\
  count is_zone_changed eff = 0%nat.
Proof.
  intros Hmin Hlast Hflip Hearly.
  rewrite control_vent_cases, (eqb_false_neq _ _ Hflip).
  unfold Zone._is_min_cycle_respected. rewrite Hmin.
  destruct (Zone._last_vent_toggle z) as [l|] eqn:L; [|discriminate].
  injection Hlast as ->.
  assert (E : (min_cycle <=? Zone.now_guard env - last) = false)
    by (apply Z.leb_gt; lia).
  rewrite E. repeat split; assumption || reflexivity.
Qed.

Lemma min_cycle_suppresses_toggle_witness :
  let z := Zone.with_current_temp Sample.cooling (Some 20%float) in
  let env := Sample.at_time (100 * Sample.second) true in
  Zone._min_cycle_duration z = Some (300 * Sample.second) /\
  Zone._last_vent_toggle z = Some 0 /\
  Zone._should_vent_be_open z <> Zone._vent_open z /\
  Zone._async_control_vent z env = (z, [LogDebug]).
Proof.
  intros z env.
  split; [reflexivity|]. split; [reflexivity|].
  split; [vm_compute; discriminate|].
  pose proof (min_cycle_suppresses_toggle z env (300 * Sample.second) 0) as H.
  destruct (Zone._async_control_vent z env) as [z' eff].
  destruct H as (-> & _ & _ & -> & _).
  - reflexivity.
  - reflexivity.
  - vm_compute; discriminate.
  - vm_compute; reflexivity.
  - reflexivity.
Defined.

(** C4: one damper actuation attempt.  When the switch call raises, the
    zone object is untouched and the coordinator is not notified; when it
    returns, the damper flag becomes the requested state, the toggle
    timestamp becomes the current time, nothing else in the zone changes,
    and the coordinator is notified once. *)
Theorem set_vent_outcome (z : Zone.t) (open : bool) (now : Z) :
  let failed := Zone._async_set_vent z open false now in
  let done := Zone._async_set_vent z open true now in
  let verb := if open then "turn_on" else "turn_off" in
  (fst failed = z /\
   count is_zone_changed (snd failed) = 0%nat /\
   snd failed = [Call "switch" verb (Entity (Zone._vent_entity_id z));
                 LogException]) /\
  (Zone._vent_open (fst done) = open /\
   Zone._last_vent_toggle (fst done) = Some now /\
   fst done = Zone.with_vent z open (Some now) /\
   count is_zone_changed (snd done) = 1%nat /\
   hd_error (snd done) =
     Some (Call "switch" verb (Entity (Zone._vent_entity_id z)))).
Proof.
  unfold Zone._async_set_vent; cbn. repeat split.
Qed.

(** A sensor event drives the same attempt end to end. *)
Example sensor_tick_failed_close :
  let z := Zone.with_vent Sample.cooling true None in
  Zone._async_sensor_changed z (Zone.Reading 20) (Sample.at_time 0 false) =
  (Zone.with_current_temp z (Some 20%float),
   [WriteHaState;
    Call "switch" "turn_off" (Entity "switch.living_vent");
    LogException]).
Proof. reflexivity. Qed.

(** ** Zone controller: turn-on *)

(** C9: turn-on after a turn-off does not bring back the mode the zone had
    before: a zone that was heating, is turned off and then on again ends
    up in Cool, the fallback.  The zone keeps no record of its last mode
    other than Off. *)
Theorem turn_on_forgets_previous_mode :
  let env := Sample.at_time 0 true in
  let heating := Life.run Sample.living [Life.SetHvacMode HEAT env] in
  let back_on := Life.run heating [Life.TurnOff env; Life.TurnOn env] in
  Zone._hvac_mode heating = HEAT /\
  Zone._hvac_mode back_on = COOL.
Proof. split; reflexivity. Qed.

(** What turn-on does compute: the current mode when it is not Off,
    otherwise Cool when configured, otherwise entry 1 of the list. *)
Lemma turn_on_mode (z : Zone.t) (env : Zone.Env) :
  Zone.async_turn_on z env =
  match Zone._hvac_mode z with
  | OFF =>
      if mode_in COOL (Zone._attr_hvac_modes z)
      then Zone.Ok (Zone.async_set_hvac_mode z COOL env)
      else match nth_error (Zone._attr_hvac_modes z) 1 with
           | Some m => Zone.Ok (Zone.async_set_hvac_mode z m env)
           | None => Zone.Raise Zone.IndexError
           end
  | m => Zone.Ok (Zone.async_set_hvac_mode z m env)
  end.
Proof.
  unfold Zone.async_turn_on. now destruct (Zone._hvac_mode z).
Qed.

(** C10: for a zone that is Off and has no Cool among its configured
    modes, turn-on uses entry 1 of the configured list; the handler raises
    [IndexError] exactly when the list has fewer than two entries, and in
    particular when the list is just [Off]: no warning is logged and the
    call does not return normally. *)
Theorem turn_on_index_out_of_range (z : Zone.t) (env : Zone.Env) :
  Zone._hvac_mode z = OFF ->
  ~ In COOL (Zone._attr_hvac_modes z) ->
  (forall m, nth_error (Zone._attr_hvac_modes z) 1 = Some m ->
     Zone.async_turn_on z env = Zone.Ok (Zone.async_set_hvac_mode z m env)) /\
  (Zone.async_turn_on z env = Zone.Raise Zone.IndexError <->
     (List.length (Zone._attr_hvac_modes z) < 2)%nat) /\
  (Zone._attr_hvac_modes z = [OFF] ->
     Zone.async_turn_on z env = Zone.Raise Zone.IndexError).
Proof.
  intros Hoff Hcool. rewrite turn_on_mode, Hoff.
  destruct (mode_in COOL (Zone._attr_hvac_modes z)) eqn:E.
  { apply mode_in_In in E. contradiction. }
  destruct (Zone._attr_hvac_modes z) as [|a [|b l]]; cbn.
  - repeat split; try discriminate; intros; lia || reflexivity.
  - repeat split; try discriminate; intros; lia || reflexivity.
  - repeat split; try discriminate.
    + intros m [= <-]. reflexivity.
    + intros H. lia.
Qed.

Lemma turn_on_index_out_of_range_witness :
  Zone._hvac_mode Sample.off_only = OFF /\
  ~ In COOL (Zone._attr_hvac_modes Sample.off_only) /\
  Zone.async_turn_on Sample.off_only (Sample.at_time 0 true) =
    Zone.Raise Zone.IndexError.
Proof.
  assert (H1 : Zone._hvac_mode Sample.off_only = OFF) by reflexivity.
  assert (H2 : ~ In COOL (Zone._attr_hvac_modes Sample.off_only)).
  { simpl. intros [H|[]]. discriminate H. }
  split; [exact H1|]. split; [exact H2|].
  apply (turn_on_index_out_of_range Sample.off_only
           (Sample.at_time 0 true) H1 H2).
  reflexivity.
Defined.

(** With two entries and no Cool, entry 1 is where the zone lands. *)
Example turn_on_heat_only :
  Zone._hvac_mode (Life.run Sample.heat_only
                     [Life.TurnOn (Sample.at_time 0 true)]) = HEAT.
Proof. reflexivity. Qed.

(** ** Zone invariants *)

Section ZoneInvariants.
Import Zone Life.

Lemma set_vent_frame (z : Zone.t) (open ok : bool) (now : Z) :
  let z' := fst (_async_set_vent z open ok now) in
  same_config z z' /\ _hvac_mode z' = _hvac_mode z /\
  _target_temp z' = _target_temp z /\
  _vent_open z' = (if ok then open else _vent_open z).
Proof. unfold _async_set_vent, same_config. now destruct ok. Qed.

Lemma control_vent_frame (z : Zone.t) (env : Env) :
  let z' := fst (_async_control_vent z env) in
  same_config z z' /\ _hvac_mode z' = _hvac_mode z /\
  _target_temp z' = _target_temp z.
Proof.
  cbv zeta. rewrite control_vent_cases.
  destruct (Bool.eqb _ _); [now unfold same_config|].
  destruct (_is_min_cycle_respected _ _ _); [|now unfold same_config].
  pose proof (set_vent_frame z (_should_vent_be_open z) (call_ok env)
                (now_toggle env)) as H.
  cbv zeta in H. tauto.
Qed.

Lemma set_hvac_mode_configured (z : Zone.t) (m : HVACMode) (env : Env) :
  mode_configured z ->
  let z' := fst (async_set_hvac_mode z m env) in
  _attr_hvac_modes z' = _attr_hvac_modes z /\ mode_configured z'.
Proof.
  intros Hz. cbv zeta. unfold async_set_hvac_mode.
  destruct (mode_in m (_attr_hvac_modes z)) eqn:E; cbn [negb].
  - pose proof (control_vent_frame (with_hvac_mode z m) env) as H.
    cbv zeta in H. destruct (_async_control_vent _ env) as [z2 eff].
    cbn [fst] in *. destruct H as ((Hm & _) & Hmode & _).
    unfold mode_configured. rewrite Hm, Hmode. cbn.
    split; [reflexivity|now apply mode_in_In].
  - now split.
Qed.

Lemma control_vent_configured (z : Zone.t) (env : Env) :
  mode_configured z ->
  let z' := fst (_async_control_vent z env) in
  _attr_hvac_modes z' = _attr_hvac_modes z /\ mode_configured z'.
Proof.
  intros Hz. pose proof (control_vent_frame z env) as H. cbv zeta in *.
  destruct H as ((Hm & _) & Hmode & _).
  unfold mode_configured. now rewrite Hm, Hmode.
Qed.

Lemma after_configured (z : Zone.t) (cmd : Command) :
  mode_configured z ->
  _attr_hvac_modes (after z cmd) = _attr_hvac_modes z /\
  mode_configured (after z cmd).
Proof.
  intros Hz. unfold after, handle.
  destruct cmd as [m env|x m env1 env2|f|env|env|st env|st env].
  - pose proof (set_hvac_mode_configured z m env Hz) as H. cbv zeta in H.
    now destruct (async_set_hvac_mode z m env).
  - unfold async_set_temperature.
    assert (Hz1 : forall z1 : Zone.t,
              _attr_hvac_modes z1 = _attr_hvac_modes z ->
              mode_configured z1 ->
              forall eff1 : list Effect,
              let r := match m with
                       | Some m0 =>
                           let (z2, eff2) := async_set_hvac_mode z1 m0 env2 in
                           (z2, eff1 ++ eff2)
                       | None => (z1, eff1)
                       end in
              _attr_hvac_modes (fst r) = _attr_hvac_modes z /\
              mode_configured (fst r)).
    { intros z1 E1 C1 eff1. destruct m as [m0|]; cbn; [|now split].
      pose proof (set_hvac_mode_configured z1 m0 env2 C1) as H.
      cbv zeta in H. destruct (async_set_hvac_mode z1 m0 env2) as [z2 e2].
      cbn [fst] in *. destruct H as [H1 H2]. split; congruence. }
    destruct x as [temp|].
    + pose proof (control_vent_configured (with_target_temp z temp) env1 Hz)
        as H. cbv zeta in H.
      destruct (_async_control_vent (with_target_temp z temp) env1)
        as [z' eff]. cbn [fst] in H. destruct H as [H1 H2].
      specialize (Hz1 z' H1 H2 (WriteHaState :: eff ++ [ZoneChanged])).
      cbv zeta in Hz1.
      destruct m as [m0|]; [|exact Hz1].
      now destruct (async_set_hvac_mode z' m0 env2).
    + specialize (Hz1 z eq_refl Hz []). cbv zeta in Hz1.
      destruct m as [m0|]; [|exact Hz1].
      now destruct (async_set_hvac_mode z m0 env2).
  - unfold async_set_fan_mode.
    now destruct (negb (str_in f (_attr_fan_modes z))).
  - rewrite turn_on_mode.
    assert (G : forall m, _attr_hvac_modes
                  (let (z', _) := async_set_hvac_mode z m env in z') =
                _attr_hvac_modes z /\
                mode_configured
                  (let (z', _) := async_set_hvac_mode z m env in z')).
    { intros m. pose proof (set_hvac_mode_configured z m env Hz) as H.
      cbv zeta in H. now destruct (async_set_hvac_mode z m env). }
    destruct (_hvac_mode z); try apply G.
    destruct (mode_in COOL (_attr_hvac_modes z)); [apply G|].
    destruct (nth_error (_attr_hvac_modes z) 1); [apply G|now split].
  - unfold async_turn_off.
    pose proof (set_hvac_mode_configured z OFF env Hz) as H. cbv zeta in H.
    now destruct (async_set_hvac_mode z OFF env).
  - unfold _async_sensor_changed. destruct st; try now split.
    pose proof (control_vent_configured
                  (with_current_temp z (Some x)) env Hz) as H.
    cbv zeta in H. now destruct (_async_control_vent _ env).
  - unfold _async_startup_check.
    assert (C : mode_configured (fst (_update_current_temp z st)) /\
                _attr_hvac_modes (fst (_update_current_temp z st)) =
                _attr_hvac_modes z) by (destruct st; now split).
    destruct (_update_current_temp z st) as [z1 e1]. cbn [fst] in C.
    destruct C as [C1 C2].
    pose proof (control_vent_configured z1 env C1) as H. cbv zeta in H.
    destruct (_async_control_vent z1 env) as [z2 e2]. cbn [fst] in H.
    destruct H as [H1 H2]. split; congruence.
Qed.

Lemma set_temperature_stores (z : Zone.t) (x : float) (env1 env2 : Env) :
  _target_temp (fst (async_set_temperature z (Some x) None env1 env2)) = x.
Proof.
  unfold async_set_temperature.
  pose proof (control_vent_frame (with_target_temp z x) env1) as H.
  cbv zeta in H. destruct (_async_control_vent _ env1) as [z' eff].
  cbn [fst] in *. now destruct H as (_ & _ & ->).
Qed.

End ZoneInvariants.

(** C7, as the code has it: starting from a zone whose mode is configured
    (a fresh zone is Off), no sequence of handler invocations changes the
    configured list or leaves it with a mode outside that list; and
    set-temperature stores the requested value as it is, with no clamping
    against the configured bounds. *)
Theorem mode_stays_configured (z : Zone.t) (cmds : list Life.Command) :
  mode_configured z ->
  let z' := Life.run z cmds in
  Zone._attr_hvac_modes z' = Zone._attr_hvac_modes z /\
  mode_configured z' /\
  forall (x : float) (env1 env2 : Zone.Env),
    Zone._target_temp
      (fst (Zone.async_set_temperature z' (Some x) None env1 env2)) = x.
Proof.
  intros Hz. cbv zeta.
  assert (H : Zone._attr_hvac_modes (Life.run z cmds) =
              Zone._attr_hvac_modes z /\
              mode_configured (Life.run z cmds)).
  { revert z Hz. induction cmds as [|cmd cmds IH]; intros z Hz.
    - now split.
    - destruct (after_configured z cmd Hz) as [H1 H2].
      destruct (IH _ H2) as [H3 H4]. unfold Life.run in *. cbn [fold_left].
      split; [now rewrite H3|assumption]. }
  destruct H as [H1 H2]. repeat split; try assumption.
  intros x env1 env2. apply set_temperature_stores.
Qed.

Lemma mode_stays_configured_witness :
  let env := Sample.at_time 0 true in
  let z' := Life.run Sample.living
              [Life.SetHvacMode AUTO env;
               Life.SetTemperature (Some 35%float) (Some HEAT) env env;
               Life.SensorChanged (Zone.Reading 18) env;
               Life.TurnOff env; Life.TurnOn env] in
  mode_configured Sample.living /\ mode_configured z'.
Proof.
  intros env z'.
  assert (H : mode_configured Sample.living) by (now left).
  split; [exact H|].
  apply (mode_stays_configured Sample.living
           [Life.SetHvacMode AUTO env;
            Life.SetTemperature (Some 35%float) (Some HEAT) env env;
            Life.SensorChanged (Zone.Reading 18) env;
            Life.TurnOff env; Life.TurnOn env] H).
Defined.

(** C7 fails as stated.  A set-temperature request for 35 degrees on a
    zone bounded by 16 and 30 is stored unchanged; and a restore on start
    from a persisted state "dry" at 40 degrees puts a zone configured for
    Off and Heat in Dry at 40. *)
Lemma target_escapes_bounds :
  let env := Sample.at_time 0 true in
  let z := Life.run Sample.living
             [Life.SetTemperature (Some 35%float) None env env] in
  let restored :=
    fst (Zone.async_added_to_hass Sample.heat_only
           (Some (Zone.mkLast "dry" (Some (Some 40%float)) None None None))
           Zone.NoState) in
  (mode_configured Sample.living /\ target_in_bounds Sample.living) /\
  (Zone._target_temp z = 35%float /\ ~ target_in_bounds z) /\
  (Zone._hvac_mode restored = DRY /\ ~ mode_configured restored) /\
  (Zone._target_temp restored = 40%float /\ ~ target_in_bounds restored).
Proof.
  cbv zeta. repeat split.
  - now left.
  - intros [_ H]. vm_compute in H. discriminate.
  - intros H. vm_compute in H. intuition discriminate.
  - intros [_ H]. vm_compute in H. discriminate.
Qed.

(** C8, as the code has it: setting the mode to Off (turn-off is exactly
    that) stores Off, after which the damper decision is "closed"; the
    damper flag ends up closed when it was closed already, or when the
    minimum-cycle guard lets the toggle through and the close command
    returns; otherwise it stays open. *)
Theorem mode_off_closes_when_allowed (z : Zone.t) (env : Zone.Env) :
  In OFF (Zone._attr_hvac_modes z) ->
  let z' := fst (Zone.async_turn_off z env) in
  Zone.async_turn_off z env = Zone.async_set_hvac_mode z OFF env /\
  Zone._hvac_mode z' = OFF /\
  Zone._should_vent_be_open z' = false /\
  Zone._vent_open z' =
    Zone._vent_open z &&
    negb (Zone._is_min_cycle_respected z false (Zone.now_guard env)
          && Zone.call_ok env).
Proof.
  intros Hoff. cbv zeta. unfold Zone.async_turn_off.
  split; [reflexivity|].
  unfold Zone.async_set_hvac_mode.
  apply mode_in_In in Hoff. rewrite Hoff. cbn [negb].
  rewrite control_vent_cases.
  change (Zone._should_vent_be_open (Zone.with_hvac_mode z OFF)) with false.
  change (Zone._vent_open (Zone.with_hvac_mode z OFF)) with (Zone._vent_open z).
  change (Zone._is_min_cycle_respected (Zone.with_hvac_mode z OFF) false
            (Zone.now_guard env))
    with (Zone._is_min_cycle_respected z false (Zone.now_guard env)).
  destruct (Zone._vent_open z) eqn:V; cbn [Bool.eqb andb].
  - destruct (Zone._is_min_cycle_respected z false (Zone.now_guard env));
      cbn [andb negb].
    + unfold Zone._async_set_vent. destruct (Zone.call_ok env); cbn.
      * repeat split.
      * repeat split. exact V.
    + cbn. repeat split. exact V.
  - cbn. repeat split. exact V.
Qed.

Lemma mode_off_closes_when_allowed_witness :
  let z' := fst (Zone.async_turn_off Sample.cooling
                   (Sample.at_time (400 * Sample.second) true)) in
  In OFF (Zone._attr_hvac_modes Sample.cooling) /\
  Zone._vent_open Sample.cooling = true /\
  Zone._hvac_mode z' = OFF /\ Zone._vent_open z' = false.
Proof.
  cbv zeta.
  assert (H : In OFF (Zone._attr_hvac_modes Sample.cooling)) by (now left).
  split; [exact H|]. split; [reflexivity|].
  destruct (mode_off_closes_when_allowed Sample.cooling
              (Sample.at_time (400 * Sample.second) true) H)
    as (_ & Hm & _ & Hv).
  split; [exact Hm|]. rewrite Hv. reflexivity.
Defined.

(** C8 fails as stated.  The living room opened its damper at time 0 with
    a five-minute minimum cycle; turned off 100 seconds later, it is Off
    with the damper still open, and no actuation command was sent. *)
Lemma off_with_damper_open :
  let env := Sample.at_time (100 * Sample.second) true in
  let z := Life.run Sample.living
             [Life.SensorChanged (Zone.Reading 30) (Sample.at_time 0 true);
              Life.SetHvacMode COOL (Sample.at_time 0 true);
              Life.TurnOff env] in
  Zone._hvac_mode z = OFF /\
  Zone._vent_open z = true /\
  ~ off_means_closed z /\
  snd (Zone.async_turn_off Sample.cooling env) =
    [WriteHaState; LogDebug; ZoneChanged].
Proof.
  cbv zeta. repeat split.
  intros H. specialize (H eq_refl). vm_compute in H. discriminate.
Qed.

(** ** Coordinator: scenarios and failure paths *)

Example mode_priority_scenario :
  Coordinator._async_sync_motor Sample.mixed Sample.all_ok =
  (Coordinator.with_last Sample.mixed (Some "cool") (Some 20%float),
   [Call "climate" "set_hvac_mode" (EntityHvacMode "climate.motor" "cool");
    Call "climate" "set_temperature" (EntityTemperature "climate.motor" 20);
    UpdateSensor]).
Proof. reflexivity. Qed.

Example heat_priority_scenario :
  Coordinator._async_sync_motor Sample.heat_and_dry Sample.all_ok =
  (Coordinator.with_last Sample.heat_and_dry (Some "heat") (Some 22%float),
   [Call "climate" "set_hvac_mode" (EntityHvacMode "climate.motor" "heat");
    Call "climate" "set_temperature" (EntityTemperature "climate.motor" 22);
    UpdateSensor]).
Proof. reflexivity. Qed.

Example all_closed_scenario :
  Coordinator._async_sync_motor Sample.all_closed Sample.all_ok =
  (Coordinator.with_last Sample.all_closed None None,
   [Call "climate" "turn_off" (Entity "climate.motor"); UpdateSensor]).
Proof. reflexivity. Qed.

(** C5: failure paths of one aggregation pass, with the status sensor
    registered.  The sensor is updated exactly once on every path, as the
    last effect of the pass.  When zones are open the mode command is
    attempted once; if it raises, neither the temperature nor the fan
    command is attempted; if it returns, the temperature command is
    attempted when there is a target temperature and the fan command is
    attempted when a fan mode has been recorded, whether or not the
    temperature command raised. *)
Theorem sync_motor_failure_paths
    (c : Coordinator.t) (out : Coordinator.Outcomes) (sensor : string) :
  Coordinator._sensor c = Some sensor ->
  let c' := fst (Coordinator._async_sync_motor c out) in
  let eff := snd (Coordinator._async_sync_motor c out) in
  let calls := fun service => count (is_call service) eff in
  count is_update_sensor eff = 1%nat /\
  (exists before, eff = before ++ [UpdateSensor]) /\
  match open_zones c with
  | [] => calls "turn_off" = 1%nat /\ count is_any_call eff = 1%nat
  | _ :: _ =>
      calls "set_hvac_mode" = 1%nat /\
      if Coordinator.set_hvac_mode_ok out then
        calls "set_temperature" =
          match Coordinator._last_motor_temp c' with
          | Some _ => 1%nat | None => 0%nat
          end /\
        calls "set_fan_mode" =
          match Coordinator._last_fan_mode c with
          | Some _ => 1%nat | None => 0%nat
          end
      else
        calls "set_temperature" = 0%nat /\ calls "set_fan_mode" = 0%nat
  end.
Proof.
  intros Hs. cbv zeta. unfold Coordinator._async_sync_motor.
  fold (open_zones c).
  destruct (open_zones c) as [|z0 zs].
  - unfold Coordinator._notify_sensor, Coordinator.guarded.
    cbn [Coordinator._sensor Coordinator.with_last fst snd]. rewrite Hs.
    destruct (Coordinator.turn_off_ok out); cbn;
      (split; [reflexivity|]); (split; [|split; reflexivity]).
    + now exists [Call "climate" "turn_off"
                       (Entity (Coordinator._motor_entity_id c))].
    + now exists [Call "climate" "turn_off"
                       (Entity (Coordinator._motor_entity_id c));
                  LogException].
  - set (tm := match find _ Coordinator.MODE_PRIORITY with
               | Some m => m | None => FAN_ONLY end).
    set (tt := if mode_eqb tm COOL then _ else _).
    clearbody tt tm.
    unfold Coordinator._notify_sensor, Coordinator.guarded.
    cbn [Coordinator._sensor Coordinator.with_last
         Coordinator._last_fan_mode]. rewrite Hs.
    destruct (Coordinator.set_hvac_mode_ok out);
      cbn [negb fst snd Coordinator._last_motor_temp Coordinator.with_last].
    + destruct tt as [x|]; destruct (Coordinator._last_fan_mode c) as [f|];
        destruct (Coordinator.set_temperature_ok out);
        destruct (Coordinator.set_fan_mode_ok out); cbn;
        (split; [reflexivity|]);
        (split; [|repeat split]);
        match goal with
        | |- exists b, ?l = _ => exists (removelast l); reflexivity
        end.
    + cbn. split; [reflexivity|]. split; [|repeat split].
      now exists [Call "climate" "set_hvac_mode"
                       (EntityHvacMode (Coordinator._motor_entity_id c)
                          (value tm));
                  LogException].
Qed.

(** With no status sensor registered there is nobody to update. *)
Lemma sync_motor_without_sensor
    (c : Coordinator.t) (out : Coordinator.Outcomes) :
  Coordinator._sensor c = None ->
  count is_update_sensor (snd (Coordinator._async_sync_motor c out)) = 0%nat.
Proof.
  intros Hs. unfold Coordinator._async_sync_motor.
  destruct (filter Zone._vent_open (Coordinator._zones c)) as [|z0 zs].
  - unfold Coordinator._notify_sensor, Coordinator.guarded.
    cbn [Coordinator._sensor Coordinator.with_last fst snd]. rewrite Hs.
    now destruct (Coordinator.turn_off_ok out).
  - set (tm := match find _ Coordinator.MODE_PRIORITY with
               | Some m => m | None => FAN_ONLY end).
    set (tt := if mode_eqb tm COOL then _ else _).
    clearbody tt tm.
    unfold Coordinator._notify_sensor, Coordinator.guarded.
    cbn [Coordinator._sensor Coordinator.with_last
         Coordinator._last_fan_mode]. rewrite Hs.
    destruct (Coordinator.set_hvac_mode_ok out); [|reflexivity].
    destruct tt, (Coordinator._last_fan_mode c),
      (Coordinator.set_temperature_ok out),
      (Coordinator.set_fan_mode_ok out); reflexivity.
Qed.

Lemma sync_motor_failure_paths_witness :
  let c := Coordinator.with_last_fan_mode Sample.mixed (Some "low") in
  let out := Coordinator.mkOut true true false true in
  Coordinator._sensor c = Some "entry_coordinator_sensor" /\
  count is_update_sensor (snd (Coordinator._async_sync_motor c out)) = 1%nat.
Proof.
  cbv zeta. split; [reflexivity|].
  apply (sync_motor_failure_paths
           (Coordinator.with_last_fan_mode Sample.mixed (Some "low"))
           (Coordinator.mkOut true true false true)
           "entry_coordinator_sensor").
  reflexivity.
Defined.

(** The temperature command raises, the fan command still goes out. *)
Example temperature_failure_scenario :
  snd (Coordinator._async_sync_motor
         (Coordinator.with_last_fan_mode Sample.mixed (Some "low"))
         (Coordinator.mkOut true true false true)) =
  [Call "climate" "set_hvac_mode" (EntityHvacMode "climate.motor" "cool");
   Call "climate" "set_temperature" (EntityTemperature "climate.motor" 20);
   LogException;
   Call "climate" "set_fan_mode" (EntityFanMode "climate.motor" "low");
   UpdateSensor].
Proof. reflexivity. Qed.

(** The mode command raises: nothing else is attempted. *)
Example mode_failure_scenario :
  snd (Coordinator._async_sync_motor
         (Coordinator.with_last_fan_mode Sample.mixed (Some "low"))
         (Coordinator.mkOut true false true true)) =
  [Call "climate" "set_hvac_mode" (EntityHvacMode "climate.motor" "cool");
   LogException;
   UpdateSensor].
Proof. reflexivity. Qed.

(** ** Debounced scheduling *)

Section Debounce.
Import Coordinator Loop.

Lemma nth_error_finished (n h : nat) (s : TaskStatus) :
  nth_error (repeat Finished n) h = Some s -> s = Finished.
Proof.
  revert h. induction n as [|n IH]; intros [|h]; cbn; try discriminate.
  - now intros [= <-].
  - apply IH.
Qed.

Lemma nth_error_newest (n h : nat) (s x : TaskStatus) :
  nth_error (repeat Finished n ++ [s]) h = Some x -> x <> Finished ->
  h = n /\ x = s.
Proof.
  revert h. induction n as [|n IH]; intros [|h]; cbn.
  - now intros [= <-].
  - destruct h; discriminate.
  - intros [= <-] Hx. contradiction.
  - intros H Hx. destruct (IH h H Hx) as [-> ->]. now split.
Qed.

Lemma nth_error_at_newest (n : nat) (s : TaskStatus) :
  nth_error (repeat Finished n ++ [s]) n = Some s.
Proof. induction n; cbn; auto. Qed.

Lemma nth_error_settled (n h : nat) :
  (h < n)%nat -> nth_error (repeat Finished n) h = Some Finished.
Proof.
  revert h. induction n as [|n IH]; intros [|h] Hh; cbn; try lia; auto.
  apply IH. lia.
Qed.

Lemma set_nth_newest (n : nat) (s a : TaskStatus) :
  set_nth (repeat Finished n ++ [s]) n a = repeat Finished n ++ [a].
Proof. induction n as [|n IH]; cbn; [reflexivity|now rewrite IH]. Qed.

Lemma repeat_snoc (n : nat) :
  repeat Finished n ++ [Finished] = repeat Finished (S n).
Proof. induction n as [|n IH]; cbn in *; [reflexivity|now rewrite IH]. Qed.

Lemma sync_motor_keeps_pending (c : Coordinator.t) (out : Outcomes) :
  _pending_sync (fst (_async_sync_motor c out)) = _pending_sync c.
Proof.
  unfold _async_sync_motor.
  destruct (filter Zone._vent_open (_zones c)); [reflexivity|].
  now destruct (set_hvac_mode_ok out).
Qed.

(** A notification on a settled loop schedules one pass. *)
Lemma zone_changed_settled (c : Coordinator.t) (n : nat) :
  (forall h, _pending_sync c = Some h -> (h < n)%nat) ->
  async_zone_changed c (repeat Finished n) =
  (with_pending_sync c (Some n), repeat Finished n ++ [Scheduled]).
Proof.
  intros Hp. unfold async_zone_changed, async_create_task, done.
  rewrite repeat_length.
  destruct (_pending_sync c) as [h|]; [|reflexivity].
  now rewrite (nth_error_settled n h (Hp h eq_refl)).
Qed.

(** A notification while a pass is scheduled or running is absorbed. *)
Lemma zone_changed_busy (c : Coordinator.t) (n : nat) (s : TaskStatus) :
  not_done s = true -> _pending_sync c = Some n ->
  async_zone_changed c (repeat Finished n ++ [s]) =
  (c, repeat Finished n ++ [s]).
Proof.
  intros Hs Hp. unfold async_zone_changed, done.
  rewrite Hp, nth_error_at_newest. now destruct s.
Qed.

Lemma notify_settled (w : World) :
  settled w -> busy (step w Notify) /\
               tasks (step w Notify) = tasks w ++ [Scheduled].
Proof.
  intros (n & Ht & Hp). destruct w as [c ts]. cbn [coord tasks] in *.
  subst ts. unfold step. cbn [coord tasks].
  rewrite (zone_changed_settled c n Hp). cbn [tasks]. split; [|reflexivity].
  exists n, Scheduled. now repeat split.
Qed.

Lemma notify_busy (w : World) : busy w -> step w Notify = w.
Proof.
  intros (n & s & Ht & Hs & Hp). destruct w as [c ts].
  cbn [coord tasks] in *. subst ts. unfold step. cbn [coord tasks].
  now rewrite (zone_changed_busy c n s Hs Hp).
Qed.

Lemma step_coherent (w : World) (ev : Event) :
  coherent w -> coherent (step w ev).
Proof.
  intros Hw. destruct ev as [|f|z|sn|i z|h out|h].
  - destruct Hw as [Hw|Hw].
    + right. now apply notify_settled.
    + rewrite (notify_busy w Hw). now right.
  - destruct w as [c ts]. unfold step, async_fan_mode_changed.
    destruct Hw as [(n & Ht & Hp)|(n & s & Ht & Hs & Hp)];
      cbn [coord tasks] in *; subst ts.
    + rewrite (zone_changed_settled (with_last_fan_mode c (Some f)) n Hp).
      right. exists n, Scheduled. now repeat split.
    + rewrite (zone_changed_busy (with_last_fan_mode c (Some f)) n s Hs Hp).
      right. exists n, s. now repeat split.
  - destruct Hw as [(n & Ht & Hp)|(n & s & Ht & Hs & Hp)];
      [left; exists n|right; exists n, s]; now repeat split.
  - destruct Hw as [(n & Ht & Hp)|(n & s & Ht & Hs & Hp)];
      [left; exists n|right; exists n, s]; now repeat split.
  - destruct Hw as [(n & Ht & Hp)|(n & s & Ht & Hs & Hp)];
      [left; exists n|right; exists n, s]; now repeat split.
  - cbn. destruct (nth_error (tasks w) h) as [[| |]|] eqn:E; try assumption.
    destruct Hw as [(n & Ht & Hp)|(n & s & Ht & Hs & Hp)].
    + rewrite Ht in E. apply nth_error_finished in E. discriminate.
    + rewrite Ht in E. apply nth_error_newest in E; [|discriminate].
      destruct E as [-> <-]. right. exists n, Running. cbn.
      rewrite Ht, set_nth_newest, sync_motor_keeps_pending.
      now repeat split.
  - cbn. destruct (nth_error (tasks w) h) as [[| |]|] eqn:E; try assumption.
    destruct Hw as [(n & Ht & Hp)|(n & s & Ht & Hs & Hp)].
    + rewrite Ht in E. apply nth_error_finished in E. discriminate.
    + rewrite Ht in E. apply nth_error_newest in E; [|discriminate].
      destruct E as [-> <-]. left. exists (S n). cbn.
      rewrite Ht, set_nth_newest, repeat_snoc. split; [reflexivity|].
      intros h' Hh'. rewrite Hp in Hh'. injection Hh' as <-. lia.
Qed.

Lemma run_coherent (evs : list Event) :
  forall w, coherent w -> coherent (run w evs).
Proof.
  induction evs as [|ev evs IH]; intros w Hw; [assumption|].
  apply IH. now apply step_coherent.
Qed.

Lemma init_coherent (motor : string) : coherent (init motor).
Proof. left. exists O. split; [reflexivity|]. intros h. discriminate. Qed.

Lemma filter_finished (p : TaskStatus -> bool) (n : nat) :
  List.length (filter p (repeat Finished n)) =
  if p Finished then n else O.
Proof.
  induction n as [|n IH]; cbn; [now destruct (p Finished)|].
  destruct (p Finished); cbn; congruence.
Qed.

Lemma settled_in_flight (w : World) : settled w -> in_flight w = O.
Proof.
  intros (n & Ht & _). unfold in_flight. rewrite Ht.
  apply (filter_finished not_done).
Qed.

Lemma busy_in_flight (w : World) : busy w -> in_flight w = 1%nat.
Proof.
  intros (n & s & Ht & Hs & _). unfold in_flight.
  rewrite Ht, filter_app, length_app, (filter_finished not_done).
  cbn. now rewrite Hs.
Qed.

Lemma run_notify_busy (w : World) (N : nat) :
  busy w -> run w (repeat Notify N) = w.
Proof.
  intros Hw. induction N as [|N IH]; [reflexivity|].
  unfold run in *. cbn [repeat fold_left]. now rewrite (notify_busy w Hw).
Qed.

(** The loop runs the scheduled pass to completion. *)
Lemma run_scheduled_pass (w : World) (n : nat) (out : Outcomes) :
  tasks w = repeat Finished n ++ [Scheduled] ->
  tasks (run w [Resume n out; Return n]) = repeat Finished (S n).
Proof.
  intros Ht. unfold run. cbn [fold_left].
  assert (H1 : tasks (step w (Resume n out)) = repeat Finished n ++ [Running]).
  { unfold step. rewrite Ht, nth_error_at_newest. cbn [tasks].
    apply set_nth_newest. }
  unfold step at 1. rewrite H1, nth_error_at_newest. cbn [tasks].
  now rewrite set_nth_newest, repeat_snoc.
Qed.

End Debounce.

(** C6: along any sequence of events from the coordinator's creation, at
    most one aggregation pass is scheduled or running.  [N >= 1]
    notifications that arrive while one is scheduled or running leave the
    coordinator and the task table exactly as they were.  Arriving when
    none is in flight, they create exactly one task; once the loop has
    run that task, the number of executed passes has grown by one and
    nothing is in flight. *)
Theorem debounce_coalesces
    (motor : string) (evs : list Loop.Event) (N : nat)
    (out : Coordinator.Outcomes) :
  (1 <= N)%nat ->
  let w := Loop.run (Loop.init motor) evs in
  let w' := Loop.run w (repeat Loop.Notify N) in
  (Loop.in_flight w <= 1)%nat /\
  match Loop.in_flight w with
  | O =>
      let h := List.length (Loop.tasks w) in
      let w'' := Loop.run w' [Loop.Resume h out; Loop.Return h] in
      Loop.tasks w' = Loop.tasks w ++ [Coordinator.Scheduled] /\
      Loop.in_flight w' = 1%nat /\
      Loop.executed w' = Loop.executed w /\
      Loop.executed w'' = S (Loop.executed w) /\
      Loop.in_flight w'' = O
  | S _ => w' = w
  end.
Proof.
  intros HN. cbv zeta.
  pose proof (run_coherent evs _ (init_coherent motor)) as Hw.
  set (w := Loop.run (Loop.init motor) evs) in *. clearbody w.
  destruct Hw as [Hs|Hb].
  - rewrite (settled_in_flight w Hs). split; [lia|].
    destruct N as [|N]; [lia|]. cbn [repeat].
    change (Loop.run w (Loop.Notify :: repeat Loop.Notify N))
      with (Loop.run (Loop.step w Loop.Notify) (repeat Loop.Notify N)).
    destruct (notify_settled w Hs) as [Hb Ht].
    rewrite (run_notify_busy _ N Hb).
    destruct Hs as (n & Hn & Hp).
    split; [exact Ht|]. split; [now apply busy_in_flight|].
    rewrite Hn, repeat_length in *.
    pose proof (run_scheduled_pass _ n out Ht) as Hrun.
    unfold Loop.executed, Loop.in_flight. rewrite Hrun, Ht, Hn.
    rewrite !filter_app, !length_app, !filter_finished. cbn. lia.
  - rewrite (busy_in_flight w Hb). split; [lia|].
    now apply run_notify_busy.
Qed.

Lemma debounce_coalesces_witness :
  let w' := Loop.run (Loop.init "climate.motor") (repeat Loop.Notify 3) in
  (1 <= 3)%nat /\
  Loop.tasks w' = [Coordinator.Scheduled] /\
  Loop.executed
    (Loop.run w' [Loop.Resume 0 Sample.all_ok; Loop.Return 0]) = 1%nat.
Proof.
  cbv zeta. split; [lia|].
  destruct (debounce_coalesces "climate.motor" [] 3 Sample.all_ok)
    as (_ & H); [lia|].
  cbn in H. destruct H as (H1 & _ & _ & H2 & _).
  split; [exact H1|exact H2].
Defined.

(* ================================================================== *)
(** * Further properties of the zone controller *)

Section VentEvaluation.
Import Zone.

(** Outside the dead band the decision does not look at the damper flag:
    when the decision disagrees with the flag, it survives any rewrite of
    the flag and the timestamp. *)
Lemma decision_ignores_flag (z : Zone.t) (b : bool) (ts : option Z) :
  _should_vent_be_open z <> _vent_open z ->
  _should_vent_be_open (with_vent z b ts) = _should_vent_be_open z.
Proof.
  unfold _should_vent_be_open. cbn.
  destruct (_hvac_mode z); cbn; try reflexivity;
    destruct (_current_temp z) as [temp|]; try reflexivity;
    repeat match goal with
           | |- context [if ?c then _ else _] => destruct c
           end; congruence.
Qed.

Lemma control_vent_changed (z : Zone.t) (env : Env) :
  _vent_open (fst (_async_control_vent z env)) <> _vent_open z ->
  _should_vent_be_open z <> _vent_open z /\
  _is_min_cycle_respected z (_should_vent_be_open z) (now_guard env) = true /\
  call_ok env = true /\
  _async_control_vent z env =
    (with_vent z (_should_vent_be_open z) (Some (now_toggle env)),
     [Call "switch" (if _should_vent_be_open z then "turn_on" else "turn_off")
           (Entity (_vent_entity_id z));
      WriteHaState; ZoneChanged]).
Proof.
  rewrite control_vent_cases.
  destruct (Bool.eqb (_should_vent_be_open z) (_vent_open z)) eqn:E;
    [cbn; congruence|].
  destruct (_is_min_cycle_respected z _ _); [|cbn; congruence].
  unfold _async_set_vent. destruct (call_ok env); [|cbn; congruence].
  intros _. repeat split; try reflexivity.
  intros H. rewrite H in E. now rewrite Bool.eqb_reflx in E.
Qed.

Lemma control_vent_unchanged (z : Zone.t) (env : Env) :
  _vent_open (fst (_async_control_vent z env)) = _vent_open z ->
  fst (_async_control_vent z env) = z /\
  count is_zone_changed (snd (_async_control_vent z env)) = 0%nat.
Proof.
  rewrite control_vent_cases.
  destruct (Bool.eqb (_should_vent_be_open z) (_vent_open z)) eqn:E;
    [now split|].
  destruct (_is_min_cycle_respected z _ _); [|now split].
  unfold _async_set_vent. destruct (call_ok env); [|now split].
  cbn. intros H. rewrite H in E. now rewrite Bool.eqb_reflx in E.
Qed.

End VentEvaluation.

(** X1: one evaluation of the damper is all or nothing.  Either the zone
    object is left exactly as it was and the coordinator is not notified,
    or the damper flag is flipped to the decision, the toggle timestamp
    is the clock read after the switch call, exactly one switch call was
    made (the verb matching the new position) and the coordinator is
    notified exactly once.  No evaluation makes more than one call. *)
Theorem control_vent_all_or_nothing (z : Zone.t) (env : Zone.Env) :
  let z' := fst (Zone._async_control_vent z env) in
  let eff := snd (Zone._async_control_vent z env) in
  (count is_any_call eff <= 1)%nat /\
  ((z' = z /\ count is_zone_changed eff = 0%nat) \/
   (Zone._vent_open z' = negb (Zone._vent_open z) /\
    Zone._vent_open z' = Zone._should_vent_be_open z /\
    Zone._last_vent_toggle z' = Some (Zone.now_toggle env) /\
    same_setup z z' /\
    eff = [Call "switch" (if Zone._vent_open z' then "turn_on" else "turn_off")
                (Entity (Zone._vent_entity_id z));
           WriteHaState; ZoneChanged])).
Proof.
  cbv zeta. split.
  - rewrite control_vent_cases.
    destruct (Bool.eqb _ _); [cbn; lia|].
    destruct (Zone._is_min_cycle_respected z _ _); [|cbn; lia].
    unfold Zone._async_set_vent. destruct (Zone.call_ok env); cbn; lia.
  - destruct (Bool.bool_dec
                (Zone._vent_open (fst (Zone._async_control_vent z env)))
                (Zone._vent_open z)) as [E|N].
    + left. now apply control_vent_unchanged.
    + right. destruct (control_vent_changed z env N) as (Hd & _ & _ & ->).
      cbn. repeat split.
      destruct (Zone._should_vent_be_open z), (Zone._vent_open z);
        reflexivity || congruence.
Qed.

(** X2: no chatter.  Once an evaluation has moved the damper, evaluating
    again on the same readings does nothing, whatever the clock and the
    switch would do: the decision that moved the damper was taken outside
    the dead band and does not depend on the damper flag. *)
Theorem decision_stable_after_toggle (z : Zone.t) (env env' : Zone.Env) :
  Zone._vent_open (fst (Zone._async_control_vent z env)) <> Zone._vent_open z ->
  Zone._async_control_vent (fst (Zone._async_control_vent z env)) env' =
  (fst (Zone._async_control_vent z env), []).
Proof.
  intros N. destruct (control_vent_changed z env N) as (Hd & _ & _ & ->).
  cbn [fst]. unfold Zone._async_control_vent at 1.
  rewrite (decision_ignores_flag z _ _ Hd). cbn [Zone._vent_open Zone.with_vent].
  now rewrite Bool.eqb_reflx.
Qed.

Lemma decision_stable_after_toggle_witness :
  let z := Zone.with_current_temp Sample.cooling (Some 20%float) in
  let env := Sample.at_time (400 * Sample.second) true in
  let z' := fst (Zone._async_control_vent z env) in
  Zone._vent_open z = true /\ Zone._vent_open z' = false /\
  Zone._async_control_vent z' (Sample.at_time 0 false) = (z', []).
Proof.
  cbv zeta. split; [reflexivity|]. split; [reflexivity|].
  apply (decision_stable_after_toggle
           (Zone.with_current_temp Sample.cooling (Some 20%float))
           (Sample.at_time (400 * Sample.second) true)
           (Sample.at_time 0 false)).
  vm_compute. discriminate.
Defined.

(** X3: the guard bounds the toggle rate.  Whenever an evaluation moves
    the damper of a zone that has a minimum cycle duration and an earlier
    toggle on record, at least that duration lies between the earlier
    toggle and the clock read by the guard. *)
Theorem toggle_implies_cycle_elapsed
    (z : Zone.t) (env : Zone.Env) (min_cycle last : Z) :
  Zone._min_cycle_duration z = Some min_cycle ->
  Zone._last_vent_toggle z = Some last ->
  Zone._vent_open (fst (Zone._async_control_vent z env)) <> Zone._vent_open z ->
  min_cycle <= Zone.now_guard env - last.
Proof.
  intros Hm Hl N. destruct (control_vent_changed z env N) as (_ & G & _).
  unfold Zone._is_min_cycle_respected in G. rewrite Hm, Hl in G.
  now apply Z.leb_le.
Qed.

Lemma toggle_implies_cycle_elapsed_witness :
  let z := Zone.with_current_temp Sample.cooling (Some 20%float) in
  let env := Sample.at_time (400 * Sample.second) true in
  Zone._min_cycle_duration z = Some (300 * Sample.second) /\
  Zone._last_vent_toggle z = Some 0 /\
  Zone._vent_open (fst (Zone._async_control_vent z env)) <> Zone._vent_open z /\
  300 * Sample.second <= Zone.now_guard env - 0.
Proof.
  cbv zeta.
  assert (N : Zone._vent_open
                (fst (Zone._async_control_vent
                        (Zone.with_current_temp Sample.cooling (Some 20%float))
                        (Sample.at_time (400 * Sample.second) true))) <>
              Zone._vent_open
                (Zone.with_current_temp Sample.cooling (Some 20%float)))
    by (vm_compute; discriminate).
  split; [reflexivity|]. split; [reflexivity|]. split; [exact N|].
  exact (toggle_implies_cycle_elapsed
           (Zone.with_current_temp Sample.cooling (Some 20%float))
           (Sample.at_time (400 * Sample.second) true)
           (300 * Sample.second) 0 eq_refl eq_refl N).
Defined.

(** ** Fan mode *)

Section FanMode.
Import Zone Life.

Lemma str_in_In (f : string) (l : list string) :
  str_in f l = true <-> In f l.
Proof.
  unfold str_in. rewrite existsb_exists. split.
  - intros (x & Hx & E). apply String.eqb_eq in E. now subst.
  - intros H. exists f. split; [assumption|apply String.eqb_refl].
Qed.

Lemma control_vent_same_fan (z : Zone.t) (env : Env) :
  same_fan z (fst (_async_control_vent z env)).
Proof.
  rewrite control_vent_cases. unfold same_fan, _async_set_vent.
  destruct (Bool.eqb _ _); [now split|].
  destruct (_is_min_cycle_respected _ _ _); [|now split].
  now destruct (call_ok env).
Qed.

Lemma set_hvac_mode_same_fan (z : Zone.t) (m : HVACMode) (env : Env) :
  same_fan z (fst (async_set_hvac_mode z m env)).
Proof.
  unfold async_set_hvac_mode.
  destruct (negb (mode_in m (_attr_hvac_modes z))); [now split|].
  pose proof (control_vent_same_fan (with_hvac_mode z m) env) as H.
  now destruct (_async_control_vent (with_hvac_mode z m) env).
Qed.

Lemma same_fan_trans (a b c : Zone.t) :
  same_fan a b -> same_fan b c -> same_fan a c.
Proof. unfold same_fan. intros [H1 H2] [H3 H4]. split; congruence. Qed.

Lemma same_fan_configured (z z' : Zone.t) :
  same_fan z z' -> fan_mode_configured z -> fan_mode_configured z'.
Proof.
  unfold same_fan, fan_mode_configured. intros [H1 H2]. now rewrite H1, H2.
Qed.

Lemma set_temperature_same_fan (z : Zone.t) (x : option float)
    (m : option HVACMode) (env1 env2 : Env) :
  same_fan z (fst (async_set_temperature z x m env1 env2)).
Proof.
  unfold async_set_temperature.
  assert (H1 : same_fan z
            (fst match x with
                 | Some temp =>
                     let (z', eff) :=
                       _async_control_vent (with_target_temp z temp) env1 in
                     (z', WriteHaState :: eff ++ [ZoneChanged])
                 | None => (z, [])
                 end)).
  { destruct x as [temp|]; [|now split].
    pose proof (control_vent_same_fan (with_target_temp z temp) env1) as H.
    now destruct (_async_control_vent (with_target_temp z temp) env1). }
  destruct (match x with Some _ => _ | None => _ end) as [z1 eff1].
  cbn [fst] in H1. destruct m as [m0|]; [|exact H1].
  pose proof (set_hvac_mode_same_fan z1 m0 env2) as H2.
  destruct (async_set_hvac_mode z1 m0 env2) as [z2 eff2]. cbn [fst] in *.
  eapply same_fan_trans; eauto.
Qed.

Lemma after_fan_configured (z : Zone.t) (cmd : Command) :
  fan_mode_configured z ->
  _attr_fan_modes (after z cmd) = _attr_fan_modes z /\
  fan_mode_configured (after z cmd).
Proof.
  intros Hz.
  assert (K : forall z', same_fan z z' ->
              _attr_fan_modes z' = _attr_fan_modes z /\
              fan_mode_configured z').
  { intros z' H. split; [apply H|now apply (same_fan_configured z)]. }
  unfold after, handle.
  destruct cmd as [m env|x m env1 env2|f|env|env|st env|st env].
  - pose proof (set_hvac_mode_same_fan z m env) as H.
    destruct (async_set_hvac_mode z m env). now apply K.
  - pose proof (set_temperature_same_fan z x m env1 env2) as H.
    destruct (async_set_temperature z x m env1 env2). now apply K.
  - unfold async_set_fan_mode.
    destruct (str_in f (_attr_fan_modes z)) eqn:E; cbn [negb].
    + split; [reflexivity|]. unfold fan_mode_configured. cbn.
      now apply str_in_In.
    + now split.
  - rewrite turn_on_mode.
    assert (G : forall m,
              _attr_fan_modes
                (let (z', _) := async_set_hvac_mode z m env in z') =
              _attr_fan_modes z /\
              fan_mode_configured
                (let (z', _) := async_set_hvac_mode z m env in z')).
    { intros m. pose proof (set_hvac_mode_same_fan z m env) as H.
      destruct (async_set_hvac_mode z m env). now apply K. }
    destruct (_hvac_mode z); try apply G.
    destruct (mode_in COOL (_attr_hvac_modes z)); [apply G|].
    destruct (nth_error (_attr_hvac_modes z) 1); [apply G|now split].
  - unfold async_turn_off.
    pose proof (set_hvac_mode_same_fan z OFF env) as H.
    destruct (async_set_hvac_mode z OFF env). now apply K.
  - unfold _async_sensor_changed. destruct st; try now split.
    pose proof (control_vent_same_fan (with_current_temp z (Some x)) env) as H.
    destruct (_async_control_vent (with_current_temp z (Some x)) env).
    now apply K.
  - unfold _async_startup_check.
    assert (H1 : same_fan z (fst (_update_current_temp z st)))
      by (destruct st; now split).
    destruct (_update_current_temp z st) as [z1 e1]. cbn [fst] in H1.
    pose proof (control_vent_same_fan z1 env) as H2.
    destruct (_async_control_vent z1 env) as [z2 e2]. cbn [fst] in H2.
    apply K. eapply same_fan_trans; eauto.
Qed.

Lemma added_to_hass_fan_configured (z : Zone.t) (ls : option LastState)
    (st : SensorState) :
  fan_mode_configured z ->
  _attr_fan_modes (fst (async_added_to_hass z ls st)) = _attr_fan_modes z /\
  fan_mode_configured (fst (async_added_to_hass z ls st)).
Proof.
  intros Hz. unfold async_added_to_hass.
  set (z1 := match ls with Some _ => _ | None => z end).
  assert (H1 : _attr_fan_modes z1 = _attr_fan_modes z /\
               fan_mode_configured z1).
  { subst z1. destruct ls as [ls|]; [|now split].
    set (za := match of_value (state ls) with Some _ => _ | None => z end).
    assert (Ha : same_fan z za)
      by (subst za; destruct (of_value (state ls)); now split).
    set (zb := match attr_temperature ls with Some (Some _) => _ | _ => za end).
    assert (Hb : same_fan za zb)
      by (subst zb; destruct (attr_temperature ls) as [[?|]|]; now split).
    set (zc := match attr_vent_open ls with Some _ => _ | None => zb end).
    assert (Hc : same_fan zb zc)
      by (subst zc; destruct (attr_vent_open ls); now split).
    set (zd := match attr_last_vent_toggle ls with
               | Some _ => _ | None => zc end).
    assert (Hd : same_fan zc zd)
      by (subst zd; destruct (attr_last_vent_toggle ls); now split).
    assert (H : same_fan z zd)
      by (repeat (eapply same_fan_trans; eauto)).
    clearbody zd. clear - H Hz.
    destruct (_fan_mode zd) eqn:F;
      [|split; [apply H|now apply (same_fan_configured z)]].
    destruct (attr_fan_mode ls) as [fm|];
      [|split; [apply H|now apply (same_fan_configured z)]].
    destruct (negb (fm =? "")%string && str_in fm (_attr_fan_modes zd)) eqn:E;
      [|split; [apply H|now apply (same_fan_configured z)]].
    apply andb_prop in E. destruct E as [_ E]. apply str_in_In in E.
    split; [apply H|]. unfold fan_mode_configured. cbn. exact E. }
  destruct H1 as [H1 H2].
  assert (H3 : same_fan z1 (fst (_update_current_temp z1 st)))
    by (destruct st; now split).
  destruct (_update_current_temp z1 st) as [z2 eff]. cbn [fst] in *.
  split; [destruct H3 as [_ ->]; exact H1|now apply (same_fan_configured z1)].
Qed.

End FanMode.

(** X4: the fan mode of a zone is always one of its configured fan modes,
    and is absent exactly when no fan mode is configured.  This holds for
    a zone as constructed, after restore-on-start from any persisted
    state (a persisted fan mode outside the list is ignored) and after any
    sequence of handler invocations (set-fan-mode rejects unknown
    values). *)
Theorem fan_mode_stays_configured
    (nm vent sensor : string) (modes : list HVACMode)
    (fan_modes : list string) (min_temp max_temp tolerance : float)
    (min_cycle_duration : option Z)
    (last_state : option Zone.LastState) (sensor_state : Zone.SensorState)
    (cmds : list Life.Command) :
  let created := Zone.__init__ nm vent sensor modes fan_modes
                   min_temp max_temp tolerance min_cycle_duration in
  let added := fst (Zone.async_added_to_hass created last_state sensor_state) in
  let z := Life.run added cmds in
  Zone._attr_fan_modes z = fan_modes /\
  match Zone._fan_mode z with
  | Some f => In f fan_modes
  | None => fan_modes = []
  end.
Proof.
  cbv zeta.
  set (created := Zone.__init__ _ _ _ _ _ _ _ _ _).
  assert (H0 : fan_mode_configured created)
    by (unfold fan_mode_configured; cbn; destruct fan_modes; cbn; auto).
  destruct (added_to_hass_fan_configured created last_state sensor_state H0)
    as [H1 H2].
  set (added := fst (Zone.async_added_to_hass created last_state sensor_state))
    in *.
  change (Zone._attr_fan_modes created) with fan_modes in H1.
  clearbody added. clear H0 created.
  assert (H : Zone._attr_fan_modes (Life.run added cmds) = fan_modes /\
              fan_mode_configured (Life.run added cmds)).
  { revert added H1 H2. induction cmds as [|cmd cmds IH]; intros z H1 H2.
    - now split.
    - destruct (after_fan_configured z cmd H2) as [H3 H4].
      unfold Life.run in *. cbn [fold_left]. apply IH; congruence. }
  destruct H as [Hm Hc]. split; [exact Hm|].
  unfold fan_mode_configured in Hc. now rewrite Hm in Hc.
Qed.

(** ** Restore on start *)

Section Restore.
Import Zone.

Lemma of_value_value (m : HVACMode) : of_value (value m) = Some m.
Proof. now destruct m. Qed.

Lemma of_value_sound (s : string) (m : HVACMode) :
  of_value s = Some m -> value m = s.
Proof.
  unfold of_value. intros H. apply find_some in H.
  destruct H as [_ H]. now apply String.eqb_eq in H.
Qed.

Lemma update_current_temp_quiet (z : Zone.t) (st : SensorState) :
  let r := _update_current_temp z st in
  same_setup z (fst r) /\
  _hvac_mode (fst r) = _hvac_mode z /\
  _target_temp (fst r) = _target_temp z /\
  _vent_open (fst r) = _vent_open z /\
  _last_vent_toggle (fst r) = _last_vent_toggle z /\
  _fan_mode (fst r) = _fan_mode z /\
  count is_outgoing (snd r) = 0%nat.
Proof. destruct st; cbn; unfold same_setup; repeat split. Qed.

End Restore.

(** X5: restore-on-start reproduces what was persisted.  When the stored
    state string is the value of a mode and the stored attributes hold a
    parseable temperature, a damper flag and a toggle timestamp, the zone
    comes up with exactly that mode, target temperature, damper flag and
    timestamp, whatever the sensor says and whatever the zone's
    configuration; the static configuration is untouched. *)
Theorem restore_reproduces_persisted
    (z : Zone.t) (m : HVACMode) (x : float) (open : bool) (ts : option Z)
    (fm : option string) (sensor_state : Zone.SensorState) :
  let last := Zone.mkLast (value m) (Some (Some x)) (Some open) (Some ts) fm in
  let z' := fst (Zone.async_added_to_hass z (Some last) sensor_state) in
  Zone._hvac_mode z' = m /\
  Zone._target_temp z' = x /\
  Zone._vent_open z' = open /\
  Zone._last_vent_toggle z' = ts /\
  same_setup z z'.
Proof.
  cbv zeta. unfold Zone.async_added_to_hass.
  cbn [Zone.state Zone.attr_temperature Zone.attr_vent_open
       Zone.attr_last_vent_toggle Zone.attr_fan_mode].
  rewrite of_value_value.
  set (zd := Zone.with_vent _ _ ts).
  set (z1 := match Zone._fan_mode zd with Some _ => _ | None => zd end).
  assert (H1 : Zone._hvac_mode z1 = m /\ Zone._target_temp z1 = x /\
               Zone._vent_open z1 = open /\ Zone._last_vent_toggle z1 = ts /\
               same_setup z z1).
  { subst z1. unfold same_setup.
    destruct (Zone._fan_mode zd); [destruct fm as [f|]|];
      try (destruct (negb (f =? "")%string && str_in f _));
      cbn; repeat split. }
  clearbody z1. clear zd.
  pose proof (update_current_temp_quiet z1 sensor_state) as H2.
  cbv zeta in H2.
  destruct (Zone._update_current_temp z1 sensor_state) as [z2 eff].
  cbn [fst snd] in *.
  destruct H1 as (A & B & C & D & E).
  destruct H2 as (E' & A' & B' & C' & D' & _).
  repeat split; try congruence;
    unfold same_setup in *; intuition congruence.
Qed.

(** X6: restore-on-start is silent and forgiving.  Whatever was persisted,
    adding the zone makes no service call and sends no notification to the
    coordinator (a restored open damper is neither actuated nor
    announced); it never touches the static configuration; with nothing
    persisted the mode, target, damper flag, timestamp and fan mode are
    those of the zone as constructed; and a state string that is not a
    mode, or a temperature that does not parse, leaves the corresponding
    field as constructed. *)
Theorem restore_is_silent
    (z : Zone.t) (last_state : option Zone.LastState)
    (sensor_state : Zone.SensorState) :
  let z' := fst (Zone.async_added_to_hass z last_state sensor_state) in
  let eff := snd (Zone.async_added_to_hass z last_state sensor_state) in
  count is_outgoing eff = 0%nat /\
  same_setup z z' /\
  match last_state with
  | None =>
      Zone._hvac_mode z' = Zone._hvac_mode z /\
      Zone._target_temp z' = Zone._target_temp z /\
      Zone._vent_open z' = Zone._vent_open z /\
      Zone._last_vent_toggle z' = Zone._last_vent_toggle z /\
      Zone._fan_mode z' = Zone._fan_mode z
  | Some ls =>
      (of_value (Zone.state ls) = None ->
       Zone._hvac_mode z' = Zone._hvac_mode z) /\
      (Zone.attr_temperature ls = None \/
       Zone.attr_temperature ls = Some None ->
       Zone._target_temp z' = Zone._target_temp z) /\
      (Zone.attr_vent_open ls = None ->
       Zone._vent_open z' = Zone._vent_open z)
  end.
Proof.
  cbv zeta. unfold Zone.async_added_to_hass.
  set (z1 := match last_state with Some _ => _ | None => z end).
  pose proof (update_current_temp_quiet z1 sensor_state) as H2.
  cbv zeta in H2.
  destruct (Zone._update_current_temp z1 sensor_state) as [z2 eff].
  cbn [fst snd] in *.
  destruct H2 as (E' & A' & B' & C' & D' & F' & Q).
  split.
  { rewrite count_app, Q. reflexivity. }
  assert (H1 : same_setup z z1 /\
               match last_state with
               | None => z1 = z
               | Some ls =>
                   (of_value (Zone.state ls) = None ->
                    Zone._hvac_mode z1 = Zone._hvac_mode z) /\
                   (Zone.attr_temperature ls = None \/
                    Zone.attr_temperature ls = Some None ->
                    Zone._target_temp z1 = Zone._target_temp z) /\
                   (Zone.attr_vent_open ls = None ->
                    Zone._vent_open z1 = Zone._vent_open z)
               end).
  { subst z1. destruct last_state as [ls|];
      [|split; [unfold same_setup; repeat split|reflexivity]].
    set (za := match of_value (Zone.state ls) with
               | Some _ => _ | None => z end).
    assert (Ha : same_setup z za /\
                 (of_value (Zone.state ls) = None ->
                  Zone._hvac_mode za = Zone._hvac_mode z) /\
                 Zone._target_temp za = Zone._target_temp z /\
                 Zone._vent_open za = Zone._vent_open z).
    { subst za. destruct (of_value (Zone.state ls));
        unfold same_setup; cbn; repeat split; intros; discriminate. }
    set (zb := match Zone.attr_temperature ls with
               | Some (Some _) => _ | _ => za end).
    assert (Hb : same_setup za zb /\
                 Zone._hvac_mode zb = Zone._hvac_mode za /\
                 (Zone.attr_temperature ls = None \/
                  Zone.attr_temperature ls = Some None ->
                  Zone._target_temp zb = Zone._target_temp za) /\
                 Zone._vent_open zb = Zone._vent_open za).
    { subst zb. destruct (Zone.attr_temperature ls) as [[x|]|];
        unfold same_setup; cbn; repeat split; intros [H|H]; discriminate. }
    set (zc := match Zone.attr_vent_open ls with
               | Some _ => _ | None => zb end).
    assert (Hc : same_setup zb zc /\
                 Zone._hvac_mode zc = Zone._hvac_mode zb /\
                 Zone._target_temp zc = Zone._target_temp zb /\
                 (Zone.attr_vent_open ls = None ->
                  Zone._vent_open zc = Zone._vent_open zb)).
    { subst zc. destruct (Zone.attr_vent_open ls);
        unfold same_setup; cbn; repeat split; intros; discriminate. }
    set (zd := match Zone.attr_last_vent_toggle ls with
               | Some _ => _ | None => zc end).
    assert (Hd : same_setup zc zd /\
                 Zone._hvac_mode zd = Zone._hvac_mode zc /\
                 Zone._target_temp zd = Zone._target_temp zc /\
                 Zone._vent_open zd = Zone._vent_open zc).
    { subst zd. destruct (Zone.attr_last_vent_toggle ls);
        unfold same_setup; cbn; repeat split. }
    set (ze := match Zone._fan_mode zd, Zone.attr_fan_mode ls with
               | Some _, Some _ => _ | _, _ => zd end).
    assert (He : same_setup zd ze /\
                 Zone._hvac_mode ze = Zone._hvac_mode zd /\
                 Zone._target_temp ze = Zone._target_temp zd /\
                 Zone._vent_open ze = Zone._vent_open zd).
    { subst ze. destruct (Zone._fan_mode zd);
        [destruct (Zone.attr_fan_mode ls) as [fmv|]|];
        try (destruct (negb (fmv =? "")%string && str_in fmv _));
        unfold same_setup; cbn; repeat split. }
    clearbody za zb zc zd ze.
    destruct Ha as (Sa & Ma & Ta & Va), Hb as (Sb & Mb & Tb & Vb),
             Hc as (Sc & Mc & Tc & Vc), Hd as (Sd & Md & Td & Vd),
             He as (Se & Me & Te & Ve).
    split; [unfold same_setup in *; intuition congruence|].
    repeat split.
    - intros H. rewrite Me, Md, Mc, Mb. auto.
    - intros H. rewrite Te, Td, Tc. rewrite (Tb H). exact Ta.
    - intros H. rewrite Ve, Vd, (Vc H), Vb. exact Va. }
  destruct H1 as [S1 H1]. split.
  { unfold same_setup in *. intuition congruence. }
  destruct last_state as [ls|].
  - destruct H1 as (P1 & P2 & P3). repeat split; intros.
    + rewrite A'. auto.
    + rewrite B'. auto.
    + rewrite C'. auto.
  - subst z1. repeat split; assumption.
Qed.

(** ** Sensor events and the reported action *)

Section SensorEvents.
Import Zone.

Lemma control_vent_keeps_readings (z : Zone.t) (env : Env) :
  let z' := fst (_async_control_vent z env) in
  _current_temp z' = _current_temp z /\
  _hvac_mode z' = _hvac_mode z /\
  _target_temp z' = _target_temp z /\
  _fan_mode z' = _fan_mode z.
Proof.
  cbv zeta. rewrite control_vent_cases. unfold _async_set_vent.
  destruct (Bool.eqb _ _); [now repeat split|].
  destruct (_is_min_cycle_respected _ _ _); [|now repeat split].
  destruct (call_ok env); now repeat split.
Qed.

End SensorEvents.

(** X7: sensor events.  An event without a usable reading (no state
    object, "unknown", "unavailable", or text that is not a number) leaves
    the zone object untouched and has no effect at all, not even a state
    write or a log line.  A usable reading is always stored, also when the
    damper change it asks for is held back by the guard or the switch call
    raises, and the state write comes before any switch call.  Neither
    kind of event changes the mode, the target temperature or the fan
    mode. *)
Theorem sensor_event_stores_reading
    (z : Zone.t) (new_state : Zone.SensorState) (env : Zone.Env) :
  let z' := fst (Zone._async_sensor_changed z new_state env) in
  let eff := snd (Zone._async_sensor_changed z new_state env) in
  Zone._hvac_mode z' = Zone._hvac_mode z /\
  Zone._target_temp z' = Zone._target_temp z /\
  Zone._fan_mode z' = Zone._fan_mode z /\
  match new_state with
  | Zone.Reading x =>
      Zone._current_temp z' = Some x /\
      hd_error eff = Some WriteHaState /\
      (z', tl eff) =
        Zone._async_control_vent (Zone.with_current_temp z (Some x)) env
  | _ => z' = z /\ eff = []
  end.
Proof.
  cbv zeta. unfold Zone._async_sensor_changed.
  destruct new_state as [| | |x|]; try (cbn; now repeat split).
  pose proof (control_vent_keeps_readings
                (Zone.with_current_temp z (Some x)) env) as H.
  cbv zeta in H.
  destruct (Zone._async_control_vent (Zone.with_current_temp z (Some x)) env)
    as [z' eff].
  cbn [fst snd hd_error tl] in *. destruct H as (A & B & C & D).
  now repeat split.
Qed.

(** X8: the action a zone reports.  It is Off exactly when the mode is
    Off, also while the damper is still open; with the damper closed any
    other mode reports Idle; heating, cooling, fan and drying are reported
    exactly when the damper is open in Heat, Cool, FanOnly and Dry; a mode
    outside these (Auto, HeatCool, reachable through restore) reports Idle
    even with the damper open. *)
Theorem hvac_action_reports (z : Zone.t) :
  let action := ZoneView.hvac_action z in
  let mode := Zone._hvac_mode z in
  let open := Zone._vent_open z in
  (action = ZoneView.OFF <-> mode = OFF) /\
  (action = ZoneView.HEATING <-> mode = HEAT /\ open = true) /\
  (action = ZoneView.COOLING <-> mode = COOL /\ open = true) /\
  (action = ZoneView.FAN <-> mode = FAN_ONLY /\ open = true) /\
  (action = ZoneView.DRYING <-> mode = DRY /\ open = true) /\
  (action = ZoneView.IDLE <->
   mode <> OFF /\ (open = false \/ mode = AUTO \/ mode = HEAT_COOL)).
Proof.
  cbv zeta. unfold ZoneView.hvac_action.
  destruct (Zone._hvac_mode z), (Zone._vent_open z); cbn;
    repeat split; intros;
    repeat match goal with
           | H : _ /\ _ |- _ => destruct H
           | H : _ \/ _ |- _ => destruct H
           end;
    try discriminate; try congruence; auto.
Qed.

(* ================================================================== *)
(** * Further properties of the coordinator *)

Section PassFacts.
Import Coordinator.

Lemma value_inj (a b : HVACMode) : value a = value b -> a = b.
Proof. destruct a, b; cbn; congruence. Qed.

Lemma has_open_modes (c : Coordinator.t) (m : HVACMode) :
  In m (open_modes c) <-> has_open c m.
Proof.
  unfold open_modes, open_zones, has_open. rewrite in_map_iff. split.
  - intros (z & Hm & Hz). apply filter_In in Hz. exists z. tauto.
  - intros (z & Hz & Ho & Hm). exists z. split; [assumption|].
    apply filter_In. tauto.
Qed.

(** The coordinator a pass leaves behind, in closed form. *)
Lemma sync_motor_state (c : Coordinator.t) (out : Outcomes) :
  fst (_async_sync_motor c out) =
  match open_zones c with
  | [] => with_last c None None
  | _ :: _ =>
      let tm := if mode_in COOL (open_modes c) then COOL
                else if mode_in HEAT (open_modes c) then HEAT
                else if mode_in DRY (open_modes c) then DRY
                else FAN_ONLY in
      with_last c (Some (value tm))
        (if mode_eqb tm COOL then min_or_none (qualifying_temps c)
         else if mode_eqb tm HEAT then max_or_none (qualifying_temps c)
         else None)
  end.
Proof.
  unfold _async_sync_motor. rewrite temp_controlled_filter.
  fold (open_zones c). fold (open_modes c).
  destruct (open_zones c) as [|z0 zs] eqn:E; [reflexivity|].
  rewrite <- E. fold (qualifying_temps c). cbn [find MODE_PRIORITY].
  destruct (set_hvac_mode_ok out); cbn [negb fst];
    destruct (mode_in COOL (open_modes c)); try reflexivity;
    destruct (mode_in HEAT (open_modes c)); try reflexivity;
    destruct (mode_in DRY (open_modes c)); try reflexivity;
    destruct (mode_in FAN_ONLY (open_modes c)); reflexivity.
Qed.

End PassFacts.

(** X9: the state a pass records does not depend on how its commands
    fare.  The last active mode and last commanded temperature are what
    the pass set out to command, whether or not any call raised; zones,
    motor entity, pending task, recorded fan mode and registered sensor
    are not touched; and a second pass over the same zones records the
    same state again. *)
Theorem sync_motor_state_ignores_outcomes
    (c : Coordinator.t) (out out' : Coordinator.Outcomes) :
  let c' := fst (Coordinator._async_sync_motor c out) in
  c' = fst (Coordinator._async_sync_motor c out') /\
  fst (Coordinator._async_sync_motor c' out') = c' /\
  Coordinator._zones c' = Coordinator._zones c /\
  Coordinator._motor_entity_id c' = Coordinator._motor_entity_id c /\
  Coordinator._pending_sync c' = Coordinator._pending_sync c /\
  Coordinator._last_fan_mode c' = Coordinator._last_fan_mode c /\
  Coordinator._sensor c' = Coordinator._sensor c.
Proof.
  cbv zeta. rewrite (sync_motor_state c out), (sync_motor_state c out').
  rewrite sync_motor_state.
  destruct (open_zones c) as [|z0 zs] eqn:E.
  - change (open_zones (Coordinator.with_last c None None))
      with (open_zones c). rewrite E. now repeat split.
  - cbv zeta.
    set (tm := if mode_in COOL (open_modes c) then _ else _).
    set (tt := if mode_eqb tm COOL then _ else _).
    change (open_zones (Coordinator.with_last c (Some (value tm)) tt))
      with (open_zones c).
    change (open_modes (Coordinator.with_last c (Some (value tm)) tt))
      with (open_modes c).
    change (qualifying_temps (Coordinator.with_last c (Some (value tm)) tt))
      with (qualifying_temps c).
    rewrite E. now repeat split.
Qed.

(** X10: which mode the motor is left with, in terms of the zones.  After
    a pass the last active mode is absent exactly when no damper is open;
    it is "cool" exactly when some open zone is in Cool; "heat" exactly
    when some open zone is in Heat and none in Cool; "dry" exactly when
    some open zone is in Dry and none in Cool or Heat; and "fan_only" in
    every other case with an open damper, including open zones left in a
    mode outside the priority list.  It is never "off". *)
Theorem active_mode_by_zones
    (c : Coordinator.t) (out : Coordinator.Outcomes) :
  let active :=
    Coordinator._last_active_mode (fst (Coordinator._async_sync_motor c out)) in
  (active = None <-> open_zones c = []) /\
  (active = Some "cool" <-> has_open c COOL) /\
  (active = Some "heat" <-> has_open c HEAT /\ ~ has_open c COOL) /\
  (active = Some "dry" <->
   has_open c DRY /\ ~ has_open c COOL /\ ~ has_open c HEAT) /\
  (active = Some "fan_only" <->
   open_zones c <> [] /\
   ~ has_open c COOL /\ ~ has_open c HEAT /\ ~ has_open c DRY) /\
  active <> Some "off".
Proof.
  cbv zeta. rewrite sync_motor_state.
  rewrite <- !has_open_modes.
  assert (Hne : forall m, In m (open_modes c) -> open_zones c <> []).
  { unfold open_modes. intros m H E. rewrite E in H. exact H. }
  destruct (open_zones c) as [|z0 zs] eqn:E.
  - cbn. assert (Hn : forall m, ~ In m (open_modes c)).
    { intros m H. now apply (Hne m H). }
    repeat split; intros; try discriminate; try congruence;
      try (exfalso; intuition (eapply Hn; eauto)).
  - cbv zeta.
    destruct (mode_in COOL (open_modes c)) eqn:C;
      [|destruct (mode_in HEAT (open_modes c)) eqn:H;
        [|destruct (mode_in DRY (open_modes c)) eqn:D]];
      cbn;
      repeat match goal with
             | H : mode_in _ _ = true |- _ => apply mode_in_In in H
             | H : mode_in ?m ?l = false |- _ =>
                 assert (~ In m l)
                   by (intros X; apply mode_in_In in X; congruence);
                 clear H
             end;
      repeat split; intros;
      repeat match goal with
             | H : _ /\ _ |- _ => destruct H
             end;
      try discriminate; try congruence; try contradiction; auto.
Qed.

(** ** Notifications, fan mode and the loop *)

Section Delivery.
Import Coordinator Loop.

Lemma notify_fan_as_notify (w : World) (f : string) :
  step w (NotifyFan f) =
  step (mkWorld (with_last_fan_mode (coord w) (Some f)) (tasks w)) Notify.
Proof. reflexivity. Qed.

Lemma settled_with_fan (w : World) (f : string) :
  settled w ->
  settled (mkWorld (with_last_fan_mode (coord w) (Some f)) (tasks w)).
Proof. intros (n & Ht & Hp). exists n. now split. Qed.

Lemma busy_with_fan (w : World) (f : string) :
  busy w ->
  busy (mkWorld (with_last_fan_mode (coord w) (Some f)) (tasks w)).
Proof. intros (n & s & Ht & Hs & Hp). exists n, s. now repeat split. Qed.

(** Either notification on a settled loop schedules one pass; on a busy
    loop it leaves the task table alone. *)
Lemma notification_settled (w : World) (ev : Event) :
  ev = Notify \/ (exists f, ev = NotifyFan f) ->
  settled w ->
  busy (step w ev) /\ tasks (step w ev) = tasks w ++ [Scheduled].
Proof.
  intros [->|(f & ->)] Hs; [now apply notify_settled|].
  rewrite notify_fan_as_notify.
  apply (notify_settled _ (settled_with_fan w f Hs)).
Qed.

Lemma notification_busy (w : World) (ev : Event) :
  ev = Notify \/ (exists f, ev = NotifyFan f) ->
  busy w ->
  busy (step w ev) /\ tasks (step w ev) = tasks w.
Proof.
  intros [->|(f & ->)] Hb.
  - rewrite (notify_busy w Hb). now split.
  - rewrite notify_fan_as_notify.
    rewrite (notify_busy _ (busy_with_fan w f Hb)).
    split; [now apply busy_with_fan|reflexivity].
Qed.

Lemma deliver_cons (w : World) (e : Effect) (eff : list Effect) :
  Wiring.deliver w (e :: eff) =
  Wiring.deliver
    (match e with
     | ZoneChanged => step w Notify
     | FanModeChanged f => step w (NotifyFan f)
     | _ => w
     end) eff.
Proof. reflexivity. Qed.

Lemma deliver_busy (eff : list Effect) :
  forall w, busy w ->
  busy (Wiring.deliver w eff) /\ tasks (Wiring.deliver w eff) = tasks w.
Proof.
  induction eff as [|e eff IH]; intros w Hb; [now split|].
  rewrite deliver_cons.
  destruct e; try (now apply IH).
  - destruct (notification_busy w Notify (or_introl eq_refl) Hb) as [B T].
    destruct (IH _ B) as [B' T']. split; [assumption|congruence].
  - destruct (notification_busy w (NotifyFan fan_mode)
                (or_intror (ex_intro _ fan_mode eq_refl)) Hb) as [B T].
    destruct (IH _ B) as [B' T']. split; [assumption|congruence].
Qed.

Lemma deliver_settled (eff : list Effect) :
  forall w, settled w ->
  if existsb is_notification eff
  then busy (Wiring.deliver w eff) /\
       tasks (Wiring.deliver w eff) = tasks w ++ [Scheduled]
  else Wiring.deliver w eff = w.
Proof.
  induction eff as [|e eff IH]; intros w Hs; [reflexivity|].
  rewrite deliver_cons. cbn [existsb].
  destruct e; cbn [is_notification orb]; try (now apply IH).
  - destruct (notification_settled w Notify (or_introl eq_refl) Hs) as [B T].
    destruct (deliver_busy eff _ B) as [B' T']. split; [assumption|congruence].
  - destruct (notification_settled w (NotifyFan fan_mode)
                (or_intror (ex_intro _ fan_mode eq_refl)) Hs) as [B T].
    destruct (deliver_busy eff _ B) as [B' T']. split; [assumption|congruence].
Qed.

Lemma zone_changed_keeps_fan (c : Coordinator.t) (ts : Tasks) :
  _last_fan_mode (fst (async_zone_changed c ts)) = _last_fan_mode c.
Proof.
  unfold async_zone_changed, async_create_task.
  destruct (_pending_sync c) as [h|]; [|reflexivity].
  now destruct (negb (done ts h)).
Qed.

Lemma sync_motor_keeps_fan (c : Coordinator.t) (out : Outcomes) :
  _last_fan_mode (fst (_async_sync_motor c out)) = _last_fan_mode c.
Proof.
  unfold _async_sync_motor.
  destruct (filter Zone._vent_open (_zones c)); [reflexivity|].
  now destruct (set_hvac_mode_ok out).
Qed.

Lemma step_keeps_fan (w : World) (ev : Event) :
  is_fan_event ev = false ->
  _last_fan_mode (coord (step w ev)) = _last_fan_mode (coord w).
Proof.
  destruct ev as [|f|z|sn|i z|h out|h]; cbn [is_fan_event];
    try discriminate; intros _; unfold step.
  - pose proof (zone_changed_keeps_fan (coord w) (tasks w)) as H.
    now destruct (async_zone_changed (coord w) (tasks w)).
  - reflexivity.
  - reflexivity.
  - reflexivity.
  - destruct (nth_error (tasks w) h) as [[| |]|]; try reflexivity.
    apply sync_motor_keeps_fan.
  - now destruct (nth_error (tasks w) h) as [[| |]|].
Qed.

Lemma run_keeps_fan (evs : list Event) :
  forall w, forallb (fun ev => negb (is_fan_event ev)) evs = true ->
  _last_fan_mode (coord (run w evs)) = _last_fan_mode (coord w).
Proof.
  induction evs as [|ev evs IH]; intros w H; [reflexivity|].
  cbn [forallb] in H. apply andb_prop in H. destruct H as [H1 H2].
  unfold run in *. cbn [fold_left]. rewrite (IH _ H2).
  apply step_keeps_fan. now destruct (is_fan_event ev).
Qed.

End Delivery.

(** ** A pass and what happens while it waits *)

Section RunningPass.
Import Coordinator Loop.

Lemma nth_error_set_nth_other {A : Type} (l : list A) (i j : nat) (a : A) :
  i <> j -> nth_error (set_nth l i a) j = nth_error l j.
Proof.
  revert i j. induction l as [|x l IH]; intros [|i] [|j] H; cbn;
    try reflexivity; try congruence.
  apply IH. congruence.
Qed.

Lemma zone_changed_tasks (c : Coordinator.t) (ts : Tasks) :
  snd (async_zone_changed c ts) = ts \/
  snd (async_zone_changed c ts) = ts ++ [Scheduled].
Proof.
  unfold async_zone_changed, async_create_task.
  destruct (_pending_sync c) as [h|]; [|now right].
  destruct (negb (done ts h)); [now left|now right].
Qed.

(** A finished task stays finished. *)
Lemma finished_stays (w : World) (ev : Event) (h : nat) :
  nth_error (tasks w) h = Some Finished ->
  nth_error (tasks (step w ev)) h = Some Finished.
Proof.
  intros H.
  assert (K : forall c, nth_error (snd (async_zone_changed c (tasks w))) h =
                        Some Finished).
  { intros c. destruct (zone_changed_tasks c (tasks w)) as [->| ->];
      [assumption|].
    rewrite nth_error_app1; [assumption|].
    apply nth_error_Some. congruence. }
  destruct ev as [|f|z|sn|i z|h' out|h']; unfold step.
  - specialize (K (coord w)).
    now destruct (async_zone_changed (coord w) (tasks w)).
  - unfold async_fan_mode_changed.
    specialize (K (with_last_fan_mode (coord w) (Some f))).
    now destruct (async_zone_changed _ (tasks w)).
  - assumption.
  - assumption.
  - assumption.
  - destruct (nth_error (tasks w) h') as [[| |]|] eqn:E; try assumption.
    cbn [tasks]. rewrite nth_error_set_nth_other; [assumption|].
    intros ->. congruence.
  - destruct (nth_error (tasks w) h') as [[| |]|] eqn:E; try assumption.
    cbn [tasks]. rewrite nth_error_set_nth_other; [assumption|].
    intros ->. congruence.
Qed.

Lemma run_finished_stays (evs : list Event) :
  forall w h, nth_error (tasks w) h = Some Finished ->
  nth_error (tasks (run w evs)) h = Some Finished.
Proof.
  induction evs as [|ev evs IH]; intros w h H; [assumption|].
  unfold run in *. cbn [fold_left]. apply IH. now apply finished_stays.
Qed.

Lemma zone_changed_same_record (c : Coordinator.t) (ts : Tasks) :
  same_record c (fst (async_zone_changed c ts)).
Proof.
  unfold async_zone_changed, async_create_task, same_record.
  destruct (_pending_sync c) as [h|]; [|now repeat split].
  destruct (negb (done ts h)); now repeat split.
Qed.

(** While a pass is running, one more event either leaves it running
    with its record intact, or is its own return. *)
Lemma step_while_running (w : World) (ev : Event) (h : nat) :
  coherent w -> nth_error (tasks w) h = Some Running ->
  (nth_error (tasks (step w ev)) h = Some Running /\
   same_record (coord w) (coord (step w ev))) \/
  nth_error (tasks (step w ev)) h = Some Finished.
Proof.
  intros Hw Hh.
  destruct Hw as [(n & Ht & _)|(n & s & Ht & Hs & Hp)].
  { rewrite Ht in Hh. apply nth_error_finished in Hh. discriminate. }
  pose proof Hh as Hh'. rewrite Ht in Hh'.
  apply nth_error_newest in Hh'; [|discriminate].
  destruct Hh' as [-> <-].
  assert (B : busy w) by (exists n, Running; now repeat split).
  destruct ev as [|f|z|sn|i z|h' out|h'].
  - left. rewrite (notify_busy w B). split; [assumption|].
    unfold same_record. now repeat split.
  - left. rewrite notify_fan_as_notify.
    rewrite (notify_busy _ (busy_with_fan w f B)). cbn [tasks coord].
    split; [assumption|]. unfold same_record. now repeat split.
  - left. cbn. split; [assumption|]. unfold same_record. now repeat split.
  - left. cbn. split; [assumption|]. unfold same_record. now repeat split.
  - left. cbn. split; [assumption|]. unfold same_record. now repeat split.
  - left. unfold step.
    destruct (nth_error (tasks w) h') as [[| |]|] eqn:E;
      try (split; [assumption|unfold same_record; now repeat split]).
    rewrite Ht in E. apply nth_error_newest in E; [|discriminate].
    destruct E as [_ E]. discriminate E.
  - unfold step.
    destruct (nth_error (tasks w) h') as [[| |]|] eqn:E;
      try (left; split; [assumption|unfold same_record; now repeat split]).
    right. rewrite Ht in E. apply nth_error_newest in E; [|discriminate].
    destruct E as [-> _]. cbn [tasks].
    rewrite Ht, set_nth_newest. apply nth_error_at_newest.
Qed.

Lemma run_while_running (evs : list Event) :
  forall w h, coherent w -> nth_error (tasks w) h = Some Running ->
  nth_error (tasks (run w evs)) h = Some Running ->
  same_record (coord w) (coord (run w evs)).
Proof.
  induction evs as [|ev evs IH]; intros w h Hw Hh He.
  - unfold same_record. now repeat split.
  - unfold run in *. cbn [fold_left] in *.
    destruct (step_while_running w ev h Hw Hh) as [[H1 H2]|H1].
    + pose proof (IH _ h (step_coherent w ev Hw) H1 He) as H3.
      unfold same_record in *. intuition congruence.
    + pose proof (run_finished_stays evs _ h H1) as F.
      unfold run in F. congruence.
Qed.

Lemma run_app (w : World) (a b : list Event) :
  run w (a ++ b) = run (run w a) b.
Proof. unfold run. apply fold_left_app. Qed.

(** The suspended pass records what the uninterrupted one records, and
    is the uninterrupted one when nothing changes while it waits. *)
Lemma interleaved_same_state (c : Coordinator.t) (out : Outcomes)
    (fan_seen sensor_seen : option string) :
  fst (Interleaved._async_sync_motor c out fan_seen sensor_seen) =
  fst (_async_sync_motor c out).
Proof.
  unfold Interleaved._async_sync_motor, _async_sync_motor.
  destruct (filter Zone._vent_open (_zones c)); [reflexivity|].
  now destruct (set_hvac_mode_ok out).
Qed.

Lemma interleaved_uninterrupted (c : Coordinator.t) (out : Outcomes) :
  Interleaved._async_sync_motor c out (_last_fan_mode c) (_sensor c) =
  _async_sync_motor c out.
Proof. reflexivity. Qed.

(** The calls of a pass, against its own record. *)
Lemma interleaved_commands (c cm ce : Coordinator.t) (out : Outcomes)
    (sensor_seen : option string) :
  same_record (fst (_async_sync_motor c out)) ce ->
  let eff := snd (Interleaved._async_sync_motor c out (_last_fan_mode cm)
                    sensor_seen) in
  Forall (command_as_issued cm ce) eff /\
  (1 <= count is_any_call eff <= 3)%nat.
Proof.
  intros (Ha & Ht & Hm). cbv zeta.
  rewrite <- (interleaved_same_state c out (_last_fan_mode cm) sensor_seen)
    in Ha, Ht, Hm.
  revert Ha Ht Hm.
  unfold Interleaved._async_sync_motor, command_as_issued.
  destruct (filter Zone._vent_open (_zones c)) as [|z0 zs].
  - unfold guarded. cbn [fst snd with_last _last_active_mode
                         _last_motor_temp _motor_entity_id].
    intros Ha Ht Hm.
    destruct (turn_off_ok out), sensor_seen;
      cbn; (split; [repeat constructor; cbn; auto|lia]).
  - set (tm := match find _ MODE_PRIORITY with
               | Some m => m | None => FAN_ONLY end).
    set (tt := if mode_eqb tm COOL then _ else _).
    clearbody tt tm. unfold guarded.
    destruct (set_hvac_mode_ok out);
      cbn [negb fst snd with_last _last_active_mode
           _last_motor_temp _motor_entity_id]; intros Ha Ht Hm.
    + destruct tt as [x|]; destruct (_last_fan_mode cm) as [f|];
        destruct (set_temperature_ok out);
        destruct (set_fan_mode_ok out);
        destruct sensor_seen;
        cbn; (split; [repeat constructor; cbn; auto|lia]).
    + destruct sensor_seen;
        cbn; (split; [repeat constructor; cbn; auto|lia]).
Qed.

End RunningPass.

(** X11: what a pass sends is what the coordinator shows.  Take a pass
    that resumes in any state the loop can reach, and let any events run
    while it awaits its calls, as long as it has not returned.  Every
    service call it makes is a [climate] call on the motor entity, never
    on a zone's switch; its mode and temperature commands carry exactly
    the last active mode and last commanded temperature the coordinator
    shows when the pass has made its last call; [turn_off] is sent only
    with the active mode absent; the fan command carries the fan mode on
    record when the fan step is reached, after the mode and temperature
    calls, which a fan change arriving during those calls has already
    replaced.  A pass makes at least one and at most three calls. *)
Theorem sync_motor_commands_on_record
    (motor : string) (evs : list Loop.Event) (h : nat)
    (out : Coordinator.Outcomes) (during_calls during_fan : list Loop.Event) :
  let w := Loop.run (Loop.init motor) evs in
  let w_mid := Loop.run (Loop.step w (Loop.Resume h out)) during_calls in
  let w_end := Loop.run w_mid during_fan in
  let eff := Interleaved.pass_effects w h out during_calls during_fan in
  nth_error (Loop.tasks w) h = Some Coordinator.Scheduled ->
  nth_error (Loop.tasks w_end) h = Some Coordinator.Running ->
  Forall (command_as_issued (Loop.coord w_mid) (Loop.coord w_end)) eff /\
  (1 <= count is_any_call eff <= 3)%nat.
Proof.
  cbv zeta. intros Hs He.
  pose proof (run_coherent evs _ (init_coherent motor)) as Hw.
  set (w := Loop.run (Loop.init motor) evs) in *. clearbody w.
  unfold Interleaved.pass_effects.
  apply interleaved_commands.
  rewrite <- run_app in *.
  assert (H1 : nth_error (Loop.tasks (Loop.step w (Loop.Resume h out))) h =
               Some Coordinator.Running).
  { destruct Hw as [(n & Ht & _)|(n & s & Ht & Hn & Hp)].
    - rewrite Ht in Hs. apply nth_error_finished in Hs. discriminate.
    - pose proof Hs as Hs'. rewrite Ht in Hs'.
      apply nth_error_newest in Hs'; [|discriminate].
      destruct Hs' as [-> <-]. unfold Loop.step. rewrite Hs.
      cbn [Loop.tasks]. rewrite Ht, set_nth_newest.
      apply nth_error_at_newest. }
  pose proof (run_while_running (during_calls ++ during_fan) _ h
                (step_coherent w (Loop.Resume h out) Hw) H1 He) as R.
  unfold Loop.step in R at 1. rewrite Hs in R. cbn [Loop.coord] in R.
  exact R.
Qed.

Lemma sync_motor_commands_on_record_witness :
  let w := Loop.run (Loop.init "climate.motor")
             [Loop.Register (Sample.zone_in "a" COOL 20 true);
              Loop.NotifyFan "high"] in
  Interleaved.pass_effects w 0 Sample.all_ok [Loop.NotifyFan "low"]
    [Loop.NotifyFan "auto"] =
  [Call "climate" "set_hvac_mode" (EntityHvacMode "climate.motor" "cool");
   Call "climate" "set_temperature" (EntityTemperature "climate.motor" 20);
   Call "climate" "set_fan_mode" (EntityFanMode "climate.motor" "low")] /\
  (1 <= count is_any_call
          (Interleaved.pass_effects w 0 Sample.all_ok [Loop.NotifyFan "low"]
             [Loop.NotifyFan "auto"]) <= 3)%nat.
Proof.
  cbv zeta. split; [reflexivity|].
  exact (proj2 (sync_motor_commands_on_record "climate.motor"
                  [Loop.Register (Sample.zone_in "a" COOL 20 true);
                   Loop.NotifyFan "high"]
                  0 Sample.all_ok [Loop.NotifyFan "low"]
                  [Loop.NotifyFan "auto"] eq_refl eq_refl)).
Defined.

(** X12: fan mode is last-write-wins across zones.  When any zone accepts
    a fan mode (whatever its own mode and damper position), the value is
    recorded by the coordinator at once and stays on record through every
    later event that is not another fan change: notifications,
    registrations, zone updates and passes, including passes that turn the
    motor off.  A rejected fan mode is not passed on at all. *)
Theorem fan_mode_last_write_wins
    (w : Loop.World) (z : Zone.t) (f : string) (evs : list Loop.Event) :
  forallb (fun ev => negb (is_fan_event ev)) evs = true ->
  let w1 := Wiring.deliver w (snd (Zone.async_set_fan_mode z f)) in
  if str_in f (Zone._attr_fan_modes z)
  then Coordinator._last_fan_mode (Loop.coord (Loop.run w1 evs)) = Some f
  else w1 = w.
Proof.
  intros Hevs. cbv zeta. unfold Zone.async_set_fan_mode.
  destruct (str_in f (Zone._attr_fan_modes z)); cbn [negb snd];
    [|reflexivity].
  rewrite (run_keeps_fan evs _ Hevs).
  cbn [Wiring.deliver fold_left]. rewrite notify_fan_as_notify.
  unfold Loop.step. cbn [Loop.coord Loop.tasks].
  pose proof (zone_changed_keeps_fan
                (Coordinator.with_last_fan_mode (Loop.coord w) (Some f))
                (Loop.tasks w)) as H.
  now destruct (Coordinator.async_zone_changed _ (Loop.tasks w)).
Qed.

Lemma fan_mode_last_write_wins_witness :
  let off_zone := Sample.living in
  let w := Loop.run (Loop.init "climate.motor")
             [Loop.Register off_zone; Loop.NotifyFan "high"] in
  let evs := [Loop.Resume 0 Sample.all_ok; Loop.Return 0; Loop.Notify] in
  Zone._hvac_mode off_zone = OFF /\
  Coordinator._last_fan_mode
    (Loop.coord
       (Loop.run (Wiring.deliver w (snd (Zone.async_set_fan_mode off_zone "low")))
                 evs)) = Some "low".
Proof.
  cbv zeta. split; [reflexivity|].
  exact (fan_mode_last_write_wins
           (Loop.run (Loop.init "climate.motor")
              [Loop.Register Sample.living; Loop.NotifyFan "high"])
           Sample.living "low"
           [Loop.Resume 0 Sample.all_ok; Loop.Return 0; Loop.Notify]
           eq_refl).
Defined.

Section Suspension.
Import Coordinator Loop.

Lemma deliver_with_app (pre post : list Effect) :
  existsb is_any_call post = false ->
  forall w gaps,
  Interleaved.deliver_with w (pre ++ post) gaps =
  Wiring.deliver (Interleaved.deliver_with w pre gaps) post.
Proof.
  intros Hpost.
  assert (B : forall w gaps,
            Interleaved.deliver_with w post gaps = Wiring.deliver w post).
  { induction post as [|e post IH]; intros w gaps; [reflexivity|].
    cbn [existsb] in Hpost. apply orb_false_elim in Hpost.
    destruct Hpost as [H1 H2]. rewrite deliver_cons.
    destruct e; cbn [is_any_call] in H1; try discriminate;
      cbn [Interleaved.deliver_with]; now apply IH. }
  induction pre as [|e pre IH]; intros w gaps; [apply B|].
  cbn [app]. destruct e; cbn [Interleaved.deliver_with]; try apply IH.
  destruct gaps as [|gap later]; apply IH.
Qed.

Lemma deliver_with_coherent (eff : list Effect) :
  forall w gaps, coherent w -> coherent (Interleaved.deliver_with w eff gaps).
Proof.
  induction eff as [|e eff IH]; intros w gaps Hw; [assumption|].
  destruct e; cbn [Interleaved.deliver_with]; try (now apply IH).
  - destruct gaps as [|gap later]; apply IH; [assumption|].
    now apply run_coherent.
  - apply IH. now apply step_coherent.
  - apply IH. now apply step_coherent.
Qed.

(** One damper evaluation: nothing is notified before the switch call
    has returned. *)
Lemma control_vent_effects_shape (z : Zone.t) (env : Zone.Env) :
  exists pre post,
    snd (Zone._async_control_vent z env) = pre ++ post /\
    existsb is_notification pre = false /\
    existsb is_any_call post = false.
Proof.
  rewrite control_vent_cases. unfold Zone._async_set_vent.
  destruct (Bool.eqb _ _); [now exists [], []|].
  destruct (Zone._is_min_cycle_respected _ _ _); [|now exists [LogDebug], []].
  destruct (Zone.call_ok env).
  - eexists [_], [WriteHaState; ZoneChanged]. now repeat split.
  - eexists [_], [LogException]. now repeat split.
Qed.

Lemma set_hvac_mode_effects_shape (z : Zone.t) (m : HVACMode)
    (env : Zone.Env) :
  exists pre post,
    snd (Zone.async_set_hvac_mode z m env) = pre ++ post /\
    existsb is_notification pre = false /\
    existsb is_any_call post = false /\
    existsb is_notification post = mode_in m (Zone._attr_hvac_modes z).
Proof.
  unfold Zone.async_set_hvac_mode.
  destruct (mode_in m (Zone._attr_hvac_modes z)); cbn [negb];
    [|now exists [LogWarning], []].
  destruct (control_vent_effects_shape (Zone.with_hvac_mode z m) env)
    as (pre & post & E & H1 & H2).
  destruct (Zone._async_control_vent (Zone.with_hvac_mode z m) env)
    as [z' eff]. cbn [snd] in *. subst eff.
  exists (WriteHaState :: pre), (post ++ [ZoneChanged]).
  repeat split.
  - cbn. now rewrite <- app_assoc.
  - exact H1.
  - rewrite existsb_app, H2. reflexivity.
  - rewrite existsb_app. cbn. apply orb_true_r.
Qed.

End Suspension.

(** X13: notifications with no awaited call between them coalesce.  Let
    a handler run from any state the loop can be in, with any events
    running while it awaits its service calls.  The notifications it
    issues after its last awaited call reach the coordinator back to back
    and create exactly one task if nothing is in flight when that call
    returns, none otherwise, leaving at most one pass in flight; with no
    notification among them the loop is left as it was.  A mode change
    is of that kind: it notifies nothing before its switch call has
    returned, and an accepted one always notifies afterwards. *)
Theorem handler_notifications_coalesce
    (motor : string) (evs : list Loop.Event) (pre post : list Effect)
    (gaps : list (list Loop.Event)) :
  existsb is_any_call post = false ->
  let w := Loop.run (Loop.init motor) evs in
  let w1 := Interleaved.deliver_with w pre gaps in
  let w' := Interleaved.deliver_with w (pre ++ post) gaps in
  ((Loop.in_flight w' <= 1)%nat /\
   Loop.tasks w' =
     (if existsb is_notification post && Nat.eqb (Loop.in_flight w1) 0
      then Loop.tasks w1 ++ [Coordinator.Scheduled]
      else Loop.tasks w1) /\
   Loop.in_flight w' =
     (if existsb is_notification post then 1%nat else Loop.in_flight w1) /\
   (existsb is_notification post = false -> w' = w1)) /\
  (forall (z : Zone.t) (m : HVACMode) (env : Zone.Env),
   exists before after,
     snd (Zone.async_set_hvac_mode z m env) = before ++ after /\
     existsb is_notification before = false /\
     existsb is_any_call after = false /\
     existsb is_notification after = mode_in m (Zone._attr_hvac_modes z)).
Proof.
  intros Hpost. cbv zeta. split; [|apply set_hvac_mode_effects_shape].
  rewrite (deliver_with_app pre post Hpost).
  pose proof (deliver_with_coherent pre _ gaps
                (run_coherent evs _ (init_coherent motor))) as Hw.
  set (w := Interleaved.deliver_with _ pre gaps) in *. clearbody w.
  rename post into eff. clear Hpost.
  destruct Hw as [Hs|Hb].
  - pose proof (deliver_settled eff w Hs) as H.
    rewrite (settled_in_flight w Hs). cbn [Nat.eqb].
    destruct (existsb is_notification eff); cbn [andb].
    + destruct H as [B T]. rewrite (busy_in_flight _ B).
      repeat split; try assumption; try lia; try discriminate.
    + rewrite H, (settled_in_flight w Hs). repeat split; lia.
  - destruct (deliver_busy eff w Hb) as [B T].
    rewrite (busy_in_flight _ B), (busy_in_flight w Hb). cbn [Nat.eqb].
    rewrite andb_false_r. repeat split; try assumption; try lia.
    + now destruct (existsb is_notification eff).
    + intros E. clear B T. revert w Hb.
      induction eff as [|e eff IH]; intros w Hb; [reflexivity|].
      cbn [existsb] in E. apply orb_false_elim in E. destruct E as [E1 E2].
      rewrite deliver_cons.
      destruct e; cbn [is_notification] in E1; try discriminate;
        now apply IH.
Qed.

Lemma handler_notifications_coalesce_witness :
  let z := Zone.with_current_temp Sample.living (Some 30%float) in
  let eff := snd (Zone.async_set_hvac_mode z COOL (Sample.at_time 0 true)) in
  let pre := [WriteHaState;
              Call "switch" "turn_on" (Entity "switch.living_vent")] in
  let post := [WriteHaState; ZoneChanged; ZoneChanged] in
  let gaps := [[Loop.Notify; Loop.Resume 0 Sample.all_ok; Loop.Return 0]] in
  eff = pre ++ post /\
  existsb is_any_call post = false /\
  Loop.tasks (Interleaved.deliver_with (Loop.init "climate.motor")
                eff gaps) =
    [Coordinator.Finished; Coordinator.Scheduled].
Proof.
  cbv zeta. split; [reflexivity|]. split; [reflexivity|].
  destruct (handler_notifications_coalesce "climate.motor" []
              [WriteHaState;
               Call "switch" "turn_on" (Entity "switch.living_vent")]
              [WriteHaState; ZoneChanged; ZoneChanged]
              [[Loop.Notify; Loop.Resume 0 Sample.all_ok; Loop.Return 0]]
              eq_refl) as ((_ & H & _) & _).
  exact H.
Defined.

(** An accepted mode change that also moves the damper notifies twice
    and still leaves one pass. *)
Example mode_change_notifies_twice :
  let eff := snd (Zone.async_set_hvac_mode
                    (Zone.with_current_temp Sample.living (Some 30%float))
                    COOL (Sample.at_time 0 true)) in
  count is_zone_changed eff = 2%nat /\
  Loop.tasks (Wiring.deliver (Loop.init "climate.motor") eff) =
    [Coordinator.Scheduled].
Proof. split; reflexivity. Qed.

(** A set-temperature request that also carries a mode notifies, awaits
    the switch call and notifies again: a pass that runs to its end in
    between leaves room for a second task. *)
Example setpoint_with_mode_two_tasks :
  let z := Zone.with_current_temp Sample.living (Some 30%float) in
  let env := Sample.at_time 0 true in
  let eff := snd (Zone.async_set_temperature z (Some 24%float) (Some COOL)
                    env env) in
  eff = [WriteHaState; ZoneChanged; WriteHaState;
         Call "switch" "turn_on" (Entity "switch.living_vent");
         WriteHaState; ZoneChanged; ZoneChanged] /\
  Loop.tasks (Interleaved.deliver_with (Loop.init "climate.motor") eff
                [[Loop.Resume 0 Sample.all_ok; Loop.Return 0]]) =
    [Coordinator.Finished; Coordinator.Scheduled].
Proof. split; reflexivity. Qed.

(** X14: a change made while the pass is between its read and its return
    is not picked up.  If a pass has resumed (it has read the zones) and,
    before it returns, a zone is rewritten and the coordinator notified,
    the notification is absorbed; when the pass returns nothing is in
    flight and the coordinator still shows the mode and temperature
    computed from the earlier zone state. *)
Theorem change_during_pass_not_resynced
    (motor : string) (evs : list Loop.Event) (h i : nat) (z : Zone.t) :
  let w := Loop.run (Loop.init motor) evs in
  nth_error (Loop.tasks w) h = Some Coordinator.Running ->
  let w' := Loop.run w [Loop.ZoneWrite i z; Loop.Notify; Loop.Return h] in
  Loop.in_flight w' = 0%nat /\
  Loop.executed w' = Loop.executed w /\
  List.length (Loop.tasks w') = List.length (Loop.tasks w) /\
  Coordinator._zones (Loop.coord w') =
    Loop.set_nth (Coordinator._zones (Loop.coord w)) i z /\
  Coordinator._last_active_mode (Loop.coord w') =
    Coordinator._last_active_mode (Loop.coord w) /\
  Coordinator._last_motor_temp (Loop.coord w') =
    Coordinator._last_motor_temp (Loop.coord w).
Proof.
  cbv zeta.
  pose proof (run_coherent evs _ (init_coherent motor)) as Hw.
  set (w := Loop.run (Loop.init motor) evs) in *. clearbody w.
  intros Hh.
  destruct Hw as [(n & Ht & _)|(n & s & Ht & Hs & Hp)].
  { rewrite Ht in Hh. apply nth_error_finished in Hh. discriminate. }
  rewrite Ht in Hh. apply nth_error_newest in Hh; [|discriminate].
  destruct Hh as [-> <-].
  set (w1 := Loop.step w (Loop.ZoneWrite i z)).
  assert (B1 : busy w1) by (exists n, Coordinator.Running; now repeat split).
  unfold Loop.run. cbn [fold_left]. fold w1.
  rewrite (notify_busy w1 B1).
  unfold Loop.step at 1. cbn [Loop.tasks w1 Loop.step].
  rewrite Ht, nth_error_at_newest, set_nth_newest, repeat_snoc.
  unfold Loop.in_flight, Loop.executed. cbn [Loop.tasks Loop.coord].
  rewrite Ht, !filter_app, !length_app, !filter_finished, repeat_length.
  rewrite ?repeat_length. cbn. repeat split; try reflexivity; lia.
Qed.

Lemma change_during_pass_not_resynced_witness :
  let closed := Sample.zone_in "a" COOL 20 false in
  let opened := Sample.zone_in "a" COOL 20 true in
  let w := Loop.run (Loop.init "climate.motor")
             [Loop.Register closed; Loop.Notify;
              Loop.Resume 0 Sample.all_ok] in
  let w' := Loop.run w [Loop.ZoneWrite 0 opened; Loop.Notify; Loop.Return 0] in
  nth_error (Loop.tasks w) 0 = Some Coordinator.Running /\
  Coordinator._zones (Loop.coord w') = [opened] /\
  Loop.in_flight w' = 0%nat /\
  Coordinator._last_active_mode (Loop.coord w') = None.
Proof.
  cbv zeta.
  destruct (change_during_pass_not_resynced "climate.motor"
              [Loop.Register (Sample.zone_in "a" COOL 20 false); Loop.Notify;
               Loop.Resume 0 Sample.all_ok]
              0 0 (Sample.zone_in "a" COOL 20 true) eq_refl)
    as (H1 & _ & _ & H2 & H3 & _).
  split; [reflexivity|]. split; [exact H2|]. split; [exact H1|].
  rewrite H3. reflexivity.
Defined.

(** ** Status sensor *)

Section Status.
Import Coordinator StatusSensor.

Lemma filter_partition {A : Type} (p : A -> bool) (l : list A) :
  Permutation (filter p l ++ filter (fun a => negb (p a)) l) l.
Proof.
  induction l as [|a l IH]; [constructor|]. cbn.
  destruct (p a); cbn.
  - now constructor.
  - apply Permutation_sym, Permutation_cons_app, Permutation_sym, IH.
Qed.

End Status.

Example status_value :
  StatusSensor.native_value Sample.mixed = "2/3" /\
  StatusSensor.native_value (Coordinator.__init__ "climate.motor") = "0/0".
Proof. split; reflexivity. Qed.

Section StatusAfterPass.
Import Coordinator Loop.

Lemma pass_view_consistent (c : Coordinator.t) (out : Outcomes) :
  view_consistent (fst (_async_sync_motor c out)).
Proof.
  unfold view_consistent. rewrite sync_motor_state.
  destruct (open_zones c) as [|z0 zs] eqn:E.
  - cbn [_zones with_last _last_active_mode _last_motor_temp].
    fold (open_zones c). rewrite E. now repeat split.
  - cbv zeta. cbn [_zones with_last _last_active_mode _last_motor_temp].
    fold (open_zones c). rewrite E. repeat split; intros; discriminate.
Qed.

Lemma zone_changed_keeps_view (c : Coordinator.t) (ts : Tasks) :
  view_consistent c -> view_consistent (fst (async_zone_changed c ts)).
Proof.
  unfold async_zone_changed, async_create_task.
  destruct (_pending_sync c) as [h|]; [|now idtac].
  now destruct (negb (done ts h)).
Qed.

Lemma step_keeps_view (w : World) (ev : Event) :
  is_zone_event ev = false ->
  view_consistent (coord w) -> view_consistent (coord (step w ev)).
Proof.
  destruct ev as [|f|z|sn|i z|h out|h]; cbn [is_zone_event];
    try discriminate; intros _ Hv; unfold step.
  - pose proof (zone_changed_keeps_view (coord w) (tasks w) Hv) as H.
    now destruct (async_zone_changed (coord w) (tasks w)).
  - unfold async_fan_mode_changed.
    pose proof (zone_changed_keeps_view
                  (with_last_fan_mode (coord w) (Some f)) (tasks w) Hv) as H.
    now destruct (async_zone_changed _ (tasks w)).
  - exact Hv.
  - destruct (nth_error (tasks w) h) as [[| |]|]; try exact Hv.
    apply pass_view_consistent.
  - now destruct (nth_error (tasks w) h) as [[| |]|].
Qed.

Lemma run_keeps_view (evs : list Event) :
  forall w, forallb (fun ev => negb (is_zone_event ev)) evs = true ->
  view_consistent (coord w) -> view_consistent (coord (run w evs)).
Proof.
  induction evs as [|ev evs IH]; intros w H Hv; [assumption|].
  cbn [forallb] in H. apply andb_prop in H. destruct H as [H1 H2].
  unfold run in *. cbn [fold_left]. apply (IH _ H2).
  apply step_keeps_view; [now destruct (is_zone_event ev)|assumption].
Qed.

End StatusAfterPass.

(** X15: the status sensor's view.  Whenever it is read, the open and
    closed name lists together hold every registered zone exactly once
    (as many entries as registrations, duplicates included), the open
    list has as many entries as the count shown in the state, and that
    count never exceeds the number of zones.  When it is read after a
    pass has resumed and no zone has registered or been rewritten since,
    in particular not while the pass awaited its calls, the active mode
    attribute is absent exactly when the open list is empty, and the
    temperature attribute is absent whenever the active mode is.  Zones
    rewritten in between are shown as they are now, next to the mode the
    pass recorded. *)
Theorem status_sensor_consistent
    (c : Coordinator.t) (w : Loop.World) (h : nat)
    (out : Coordinator.Outcomes) (evs : list Loop.Event) :
  let a := StatusSensor.extra_state_attributes c in
  (Permutation (StatusSensor.open_zones a ++ StatusSensor.closed_zones a)
               (map Zone.name (Coordinator._zones c)) /\
   List.length (StatusSensor.open_zones a) = StatusSensor.open_count c /\
   (StatusSensor.open_count c <= List.length (Coordinator._zones c))%nat) /\
  (nth_error (Loop.tasks w) h = Some Coordinator.Scheduled ->
   forallb (fun ev => negb (is_zone_event ev)) evs = true ->
   let shown :=
     StatusSensor.extra_state_attributes
       (Loop.coord (Loop.run (Loop.step w (Loop.Resume h out)) evs)) in
   (StatusSensor.active_mode shown = None <->
    StatusSensor.open_zones shown = []) /\
   (StatusSensor.active_mode shown = None ->
    StatusSensor.motor_target_temperature shown = None)).
Proof.
  cbv zeta. split.
  - unfold StatusSensor.extra_state_attributes, StatusSensor.open_count.
    cbn [StatusSensor.open_zones StatusSensor.closed_zones].
    split. { rewrite <- map_app. apply Permutation_map, filter_partition. }
    split. { apply length_map. }
    apply filter_length_le.
  - intros Hs Hevs.
    assert (V : view_consistent
                  (Loop.coord (Loop.run (Loop.step w (Loop.Resume h out)) evs))).
    { apply run_keeps_view; [assumption|].
      unfold Loop.step. rewrite Hs. cbn [Loop.coord].
      apply pass_view_consistent. }
    destruct V as [V1 V2].
    unfold StatusSensor.extra_state_attributes.
    cbn [StatusSensor.open_zones StatusSensor.active_mode
         StatusSensor.motor_target_temperature].
    split; [|exact V2]. rewrite V1. split.
    + intros ->. reflexivity.
    + apply map_eq_nil.
Qed.

(** After a pass with the status sensor reading at its end. *)
Example status_after_quiet_pass :
  let w := Loop.run (Loop.init "climate.motor")
             [Loop.Register (Sample.zone_in "a" COOL 20 true); Loop.Notify] in
  let shown :=
    StatusSensor.extra_state_attributes
      (Loop.coord (Loop.run (Loop.step w (Loop.Resume 0 Sample.all_ok))
                            [Loop.NotifyFan "low"; Loop.Return 0])) in
  nth_error (Loop.tasks w) 0 = Some Coordinator.Scheduled /\
  StatusSensor.active_mode shown = Some "cool" /\
  StatusSensor.open_zones shown = ["a"].
Proof. repeat split. Qed.

(** A damper that opens while the pass awaits its turn-off call shows up
    as open next to an absent active mode. *)
Example status_after_late_change :
  let w := Loop.run (Loop.init "climate.motor")
             [Loop.Register (Sample.zone_in "a" COOL 20 false); Loop.Notify] in
  let shown :=
    StatusSensor.extra_state_attributes
      (Loop.coord
         (Loop.run (Loop.step w (Loop.Resume 0 Sample.all_ok))
            [Loop.ZoneWrite 0 (Sample.zone_in "a" COOL 20 true);
             Loop.Notify; Loop.Return 0])) in
  StatusSensor.active_mode shown = None /\
  StatusSensor.open_zones shown = ["a"].
Proof. split; reflexivity. Qed.

(* ================================================================== *)
(** * Setup and configuration *)

Section SetupFacts.
Import Setup.

Lemma modes_of_values_map (raw : list string) (ms : list HVACMode) :
  modes_of_values raw = Some ms -> map value ms = raw.
Proof.
  revert ms. induction raw as [|s raw IH]; intros ms; cbn [modes_of_values].
  - now intros [= <-].
  - destruct (of_value s) as [m|] eqn:E; [|discriminate].
    destruct (modes_of_values raw) as [ms'|]; [|discriminate].
    intros [= <-]. cbn. rewrite (IH ms' eq_refl).
    now rewrite (of_value_sound s m E).
Qed.

Lemma modes_of_values_none (raw : list string) :
  modes_of_values raw = None <-> exists s, In s raw /\ of_value s = None.
Proof.
  induction raw as [|s raw IH]; cbn [modes_of_values In].
  - split; [discriminate|now intros (s & [] & _)].
  - destruct (of_value s) as [m|] eqn:E.
    + destruct (modes_of_values raw) as [ms|].
      * split; [discriminate|]. intros (s' & [<-|H] & N); [congruence|].
        destruct IH as [_ IH].
        assert (X : Some ms = None) by (apply IH; now exists s').
        discriminate X.
      * split; [|reflexivity]. intros _. destruct IH as [IH _].
        destruct (IH eq_refl) as (s' & H & N). exists s'. auto.
    + split; [|reflexivity]. intros _. exists s. auto.
Qed.

Lemma off_in_values (ms : list HVACMode) :
  mode_in OFF ms = str_in "off" (map value ms).
Proof.
  unfold mode_in, str_in.
  induction ms as [|m ms IH]; [reflexivity|]. cbn [existsb map].
  rewrite IH. now destruct m.
Qed.

Lemma with_off_has_off (l : list string) : In "off" (with_off l).
Proof.
  unfold with_off. destruct (str_in "off" l) eqn:E.
  - now apply str_in_In.
  - now left.
Qed.

Lemma with_off_idempotent (l : list string) :
  with_off (with_off l) = with_off l.
Proof.
  unfold with_off at 1.
  pose proof (with_off_has_off l) as H. apply str_in_In in H. now rewrite H.
Qed.

End SetupFacts.

(** X16: the mode list a config entry yields.  Setup fails (the mode
    constructor raises) exactly when some stored string is not a mode
    value.  Otherwise the zones get the stored modes in their stored
    order, with Off put in front if and only if it was missing, so Off is
    always configured.  On a list that went through the flows'
    normalisation the setup adds nothing, and that normalisation is
    idempotent. *)
Theorem entry_modes_ensure_off (raw : list string) :
  match Setup.entry_modes raw with
  | Some ms =>
      In OFF ms /\
      map value ms = Setup.with_off raw /\
      (In "off" raw -> map value ms = raw)
  | None => exists s, In s raw /\ of_value s = None
  end /\
  Setup.entry_modes (Setup.with_off raw) =
    match Setup.entry_modes raw with
    | Some ms => Some ms
    | None => None
    end /\
  Setup.with_off (Setup.with_off raw) = Setup.with_off raw /\
  In "off" (Setup.with_off raw).
Proof.
  assert (K : forall raw ms, Setup.modes_of_values raw = Some ms ->
              Setup.entry_modes raw =
              Some (if str_in "off" raw then ms else OFF :: ms)).
  { intros r ms H. unfold Setup.entry_modes. rewrite H.
    now rewrite off_in_values, (modes_of_values_map r ms H). }
  split; [|split; [|split; [apply with_off_idempotent
                           |apply with_off_has_off]]].
  - destruct (Setup.modes_of_values raw) as [ms|] eqn:E.
    + rewrite (K raw ms E). pose proof (modes_of_values_map raw ms E) as M.
      unfold Setup.with_off. destruct (str_in "off" raw) eqn:O.
      * repeat split; try assumption; [|intros _; exact M].
        apply mode_in_In. now rewrite off_in_values, M.
      * repeat split; [now left|cbn; now rewrite M|].
        intros H. apply str_in_In in H. congruence.
    + unfold Setup.entry_modes. rewrite E. now apply modes_of_values_none.
  - destruct (Setup.modes_of_values raw) as [ms|] eqn:E.
    + rewrite (K raw ms E). unfold Setup.with_off.
      destruct (str_in "off" raw) eqn:O.
      * now rewrite (K raw ms E), O.
      * assert (E' : Setup.modes_of_values ("off" :: raw) = Some (OFF :: ms))
          by (cbn; now rewrite E).
        rewrite (K _ _ E'). cbn. reflexivity.
    + assert (N : Setup.entry_modes raw = None)
        by (unfold Setup.entry_modes; now rewrite E).
      rewrite N. unfold Setup.with_off, Setup.entry_modes.
      destruct (str_in "off" raw); [now rewrite E|].
      cbn. now rewrite E.
Qed.

(** ** Static configuration and the guard *)

Section StaticSetup.
Import Zone Life.

Lemma same_setup_refl (z : Zone.t) : same_setup z z.
Proof. unfold same_setup. now repeat split. Qed.

Lemma same_setup_trans (a b c : Zone.t) :
  same_setup a b -> same_setup b c -> same_setup a c.
Proof. unfold same_setup. intuition congruence. Qed.

Lemma control_vent_same_setup (z : Zone.t) (env : Env) :
  same_setup z (fst (_async_control_vent z env)).
Proof.
  rewrite control_vent_cases. unfold _async_set_vent.
  destruct (Bool.eqb _ _); [apply same_setup_refl|].
  destruct (_is_min_cycle_respected _ _ _); [|apply same_setup_refl].
  destruct (call_ok env); unfold same_setup; now repeat split.
Qed.

Lemma set_hvac_mode_same_setup (z : Zone.t) (m : HVACMode) (env : Env) :
  same_setup z (fst (async_set_hvac_mode z m env)).
Proof.
  unfold async_set_hvac_mode.
  destruct (negb (mode_in m (_attr_hvac_modes z))); [apply same_setup_refl|].
  pose proof (control_vent_same_setup (with_hvac_mode z m) env) as H.
  now destruct (_async_control_vent (with_hvac_mode z m) env).
Qed.

Lemma set_temperature_same_setup (z : Zone.t) (x : option float)
    (m : option HVACMode) (env1 env2 : Env) :
  same_setup z (fst (async_set_temperature z x m env1 env2)).
Proof.
  unfold async_set_temperature.
  assert (H1 : same_setup z
            (fst match x with
                 | Some temp =>
                     let (z', eff) :=
                       _async_control_vent (with_target_temp z temp) env1 in
                     (z', WriteHaState :: eff ++ [ZoneChanged])
                 | None => (z, [])
                 end)).
  { destruct x as [temp|]; [|apply same_setup_refl].
    pose proof (control_vent_same_setup (with_target_temp z temp) env1) as H.
    now destruct (_async_control_vent (with_target_temp z temp) env1). }
  destruct (match x with Some _ => _ | None => _ end) as [z1 eff1].
  cbn [fst] in H1. destruct m as [m0|]; [|exact H1].
  pose proof (set_hvac_mode_same_setup z1 m0 env2) as H2.
  destruct (async_set_hvac_mode z1 m0 env2) as [z2 eff2]. cbn [fst] in *.
  eapply same_setup_trans; eauto.
Qed.

Lemma after_same_setup (z : Zone.t) (cmd : Command) :
  same_setup z (after z cmd).
Proof.
  unfold after, handle.
  destruct cmd as [m env|x m env1 env2|f|env|env|st env|st env].
  - pose proof (set_hvac_mode_same_setup z m env) as H.
    now destruct (async_set_hvac_mode z m env).
  - pose proof (set_temperature_same_setup z x m env1 env2) as H.
    now destruct (async_set_temperature z x m env1 env2).
  - unfold async_set_fan_mode.
    destruct (negb (str_in f (_attr_fan_modes z)));
      unfold same_setup; now repeat split.
  - rewrite turn_on_mode.
    assert (G : forall m,
              same_setup z (let (z', _) := async_set_hvac_mode z m env in z')).
    { intros m. pose proof (set_hvac_mode_same_setup z m env) as H.
      now destruct (async_set_hvac_mode z m env). }
    destruct (_hvac_mode z); try apply G.
    destruct (mode_in COOL (_attr_hvac_modes z)); [apply G|].
    destruct (nth_error (_attr_hvac_modes z) 1);
      [apply G|apply same_setup_refl].
  - unfold async_turn_off.
    pose proof (set_hvac_mode_same_setup z OFF env) as H.
    now destruct (async_set_hvac_mode z OFF env).
  - unfold _async_sensor_changed. destruct st; try apply same_setup_refl.
    pose proof (control_vent_same_setup (with_current_temp z (Some x)) env)
      as H.
    now destruct (_async_control_vent (with_current_temp z (Some x)) env).
  - unfold _async_startup_check.
    assert (H1 : same_setup z (fst (_update_current_temp z st)))
      by (destruct st; unfold same_setup; now repeat split).
    destruct (_update_current_temp z st) as [z1 e1]. cbn [fst] in H1.
    pose proof (control_vent_same_setup z1 env) as H2.
    destruct (_async_control_vent z1 env) as [z2 e2]. cbn [fst] in H2.
    eapply same_setup_trans; eauto.
Qed.

Lemma run_same_setup (cmds : list Command) :
  forall z, same_setup z (run z cmds).
Proof.
  induction cmds as [|cmd cmds IH]; intros z; [apply same_setup_refl|].
  unfold run in *. cbn [fold_left].
  eapply same_setup_trans; [apply after_same_setup|apply IH].
Qed.

End StaticSetup.

(** X17: a minimum cycle duration that is missing or zero switches the
    guard off for good.  Zones set up from such an entry carry no minimum
    cycle, no handler ever gives them one, and at any point of their life
    a decision that differs from the damper flag leads to exactly one
    switch call, never to a held-back toggle; if that call returns, the
    damper flag is the decision. *)
Theorem unset_min_cycle_never_delays
    (microseconds : float -> Z) (modes : list HVACMode)
    (fan_modes : option (list string)) (min_temp max_temp tolerance : float)
    (min_cycle : option float) (zones : list Setup.ZoneEntry)
    (z : Zone.t) (cmds : list Life.Command) (env : Zone.Env) :
  match min_cycle with
  | Some seconds => (seconds =? 0)%float = true
  | None => True
  end ->
  In z (Setup.zone_entities microseconds modes fan_modes
          min_temp max_temp tolerance min_cycle zones) ->
  let z' := Life.run z cmds in
  Zone._min_cycle_duration z' = None /\
  (Zone._should_vent_be_open z' <> Zone._vent_open z' ->
   count is_any_call (snd (Zone._async_control_vent z' env)) = 1%nat /\
   ~ In LogDebug (snd (Zone._async_control_vent z' env)) /\
   (Zone.call_ok env = true ->
    Zone._vent_open (fst (Zone._async_control_vent z' env)) =
    Zone._should_vent_be_open z')).
Proof.
  intros Hv Hin. cbv zeta.
  assert (H0 : Zone._min_cycle_duration z = None).
  { unfold Setup.zone_entities in Hin. apply in_map_iff in Hin.
    destruct Hin as (zc & <- & _). cbn.
    destruct min_cycle as [x|]; [|reflexivity].
    unfold Setup.min_cycle_of, Setup.truthy. now rewrite Hv. }
  assert (H1 : Zone._min_cycle_duration (Life.run z cmds) = None).
  { pose proof (run_same_setup cmds z) as S. unfold same_setup in S.
    destruct S as (_ & _ & _ & _ & S & _). congruence. }
  split; [exact H1|]. intros Hd.
  rewrite control_vent_cases, (eqb_false_neq _ _ Hd).
  unfold Zone._is_min_cycle_respected. rewrite H1.
  unfold Zone._async_set_vent.
  destruct (Zone.call_ok env); cbn; repeat split; try discriminate;
    intros H; repeat (destruct H as [H|H]; try discriminate); auto.
Qed.

Lemma unset_min_cycle_never_delays_witness :
  let entities :=
    Setup.zone_entities (fun _ => 0) [OFF; COOL] None 16 30 0.3
      (Some 0%float)
      [Setup.mkZone "Living" "living" "switch.living" "sensor.living"] in
  let z := Zone.__init__ "Living" "switch.living" "sensor.living"
             [OFF; COOL] [] 16 30 0.3 None in
  let cmds := [Life.SensorChanged (Zone.Reading 30) (Sample.at_time 0 true);
               Life.SetHvacMode COOL (Sample.at_time 0 true);
               Life.SensorChanged (Zone.Reading 20) (Sample.at_time 1 false)] in
  In z entities /\
  Zone._should_vent_be_open (Life.run z cmds) <>
    Zone._vent_open (Life.run z cmds) /\
  count is_any_call
    (snd (Zone._async_control_vent (Life.run z cmds)
            (Sample.at_time 2 true))) = 1%nat.
Proof.
  cbv zeta.
  assert (Hin : In (Zone.__init__ "Living" "switch.living" "sensor.living"
                      [OFF; COOL] [] 16 30 0.3 None)
                   (Setup.zone_entities (fun _ => 0) [OFF; COOL] None 16 30 0.3
                      (Some 0%float)
                      [Setup.mkZone "Living" "living" "switch.living"
                                    "sensor.living"]))
    by (left; reflexivity).
  split; [exact Hin|].
  assert (Hd : Zone._should_vent_be_open
                 (Life.run (Zone.__init__ "Living" "switch.living"
                              "sensor.living" [OFF; COOL] [] 16 30 0.3 None)
                    [Life.SensorChanged (Zone.Reading 30) (Sample.at_time 0 true);
                     Life.SetHvacMode COOL (Sample.at_time 0 true);
                     Life.SensorChanged (Zone.Reading 20)
                       (Sample.at_time 1 false)]) <>
               Zone._vent_open
                 (Life.run (Zone.__init__ "Living" "switch.living"
                              "sensor.living" [OFF; COOL] [] 16 30 0.3 None)
                    [Life.SensorChanged (Zone.Reading 30) (Sample.at_time 0 true);
                     Life.SetHvacMode COOL (Sample.at_time 0 true);
                     Life.SensorChanged (Zone.Reading 20)
                       (Sample.at_time 1 false)]))
    by (vm_compute; discriminate).
  split; [exact Hd|].
  destruct (unset_min_cycle_never_delays (fun _ => 0) [OFF; COOL] None
              16 30 0.3 (Some 0%float)
              [Setup.mkZone "Living" "living" "switch.living" "sensor.living"]
              _ [Life.SensorChanged (Zone.Reading 30) (Sample.at_time 0 true);
                 Life.SetHvacMode COOL (Sample.at_time 0 true);
                 Life.SensorChanged (Zone.Reading 20) (Sample.at_time 1 false)]
              (Sample.at_time 2 true) eq_refl Hin) as [_ H].
  exact (proj1 (H Hd)).
Defined.

(** ** Config flow *)

Section FlowFacts.
Import Setup ConfigFlow.
Variables _slug strip : string -> string.

Lemma NoDup_snoc {A : Type} (l : list A) (a : A) :
  NoDup l -> ~ In a l -> NoDup (l ++ [a]).
Proof.
  intros Hl Ha. apply NoDup_app; [assumption|repeat constructor; auto|].
  intros x Hx [<-|[]]. contradiction.
Qed.

Lemma validate_global_ok (u : GlobalInput) :
  _validate_global u = [] <->
  (max_temp u <=? min_temp u)%float = false /\ modes u <> [].
Proof.
  unfold _validate_global.
  destruct (max_temp u <=? min_temp u)%float; destruct (modes u); cbn;
    split; intros H; try discriminate; try (now split);
    destruct H; congruence.
Qed.

Lemma zone_errors_ok (u : ZoneInput) (existing : list string) :
  zone_errors _slug strip u existing = [] <->
  strip (in_name u) <> "" /\ ~ In (_slug (strip (in_name u))) existing.
Proof.
  unfold zone_errors.
  destruct (String.eqb_spec (strip (in_name u)) "") as [E|E].
  - split; [discriminate|]. intros [H _]. contradiction.
  - destruct (str_in (_slug (strip (in_name u))) existing) eqn:S.
    + split; [discriminate|]. intros [_ H]. apply str_in_In in S.
      contradiction.
    + split; [|reflexivity]. intros _. split; [assumption|].
      intros H. apply str_in_In in H. congruence.
Qed.

Lemma ids_are_slugs (zs : list ZoneEntry) :
  Forall (entry_zone_ok _slug) zs ->
  map (fun z => _slug (zone_name z)) zs = map unique_id zs.
Proof.
  induction 1 as [|z zs [_ Hz] _ IH]; [reflexivity|].
  cbn. now rewrite IH, Hz.
Qed.

Lemma step_zone_ok (f : Flow) (u : option ZoneInput) :
  flow_ok _slug f -> flow_ok _slug (fst (async_step_zone _slug strip f u)).
Proof.
  intros (Hd & Hz & Hg). unfold async_step_zone.
  destruct u as [u|]; [|now repeat split].
  destruct (zone_errors _slug strip u _) eqn:E; [|now repeat split].
  apply zone_errors_ok in E. destruct E as [E1 E2].
  rewrite (ids_are_slugs _ Hz) in E2.
  unfold flow_ok. cbn [fst _zones _global]. repeat split; try assumption.
  - unfold distinct_ids. rewrite map_app. cbn. now apply NoDup_snoc.
  - apply Forall_app. split; [assumption|].
    constructor; [|constructor]. now split.
Qed.

Lemma call_keeps_flow_ok (f : Flow) (c : StepCall) :
  flow_ok _slug f -> flow_ok _slug (fst (call _slug strip f c)).
Proof.
  intros Hf. destruct c as [u|u| |configured|u configured]; cbn [call].
  - unfold async_step_user. destruct u as [u|]; [|assumption].
    destruct (_validate_global u) eqn:V; [|assumption].
    apply validate_global_ok in V. destruct V as [V1 V2].
    cbn. repeat split; try constructor; try assumption.
    apply with_off_has_off.
  - now apply step_zone_ok.
  - assumption.
  - unfold async_step_finish. destruct (_zones f) eqn:Z.
    + cbn. assumption.
    + now destruct configured.
  - unfold async_step_import. destruct u as [d|]; [|assumption].
    now destruct configured.
Qed.

Lemma flow_after_ok (cs : list StepCall) :
  flow_ok _slug (flow_after _slug strip cs).
Proof.
  unfold flow_after.
  assert (G : forall f, flow_ok _slug f ->
              flow_ok _slug
                (fold_left (fun f c => fst (call _slug strip f c)) cs f)).
  { induction cs as [|c cs IH]; intros f Hf; [assumption|].
    cbn [fold_left]. apply IH. now apply call_keeps_flow_ok. }
  apply G. repeat split; constructor.
Qed.

(** X18: what the config flow can create.  Whatever step methods are
    called, in whatever order and with whatever input, an entry is only
    ever created by the finish step or by the YAML import step.  An entry
    created by the finish step has at least one zone; its zones have
    non-empty names, ids that are the slugs of those names and pairwise
    distinct ids; its modes, if the global step was completed, include
    "off" and its minimum temperature is not at or above its maximum; and
    its title is the configured name.  The import step checks nothing: it
    stores the data it is handed exactly as they are, under the name they
    carry, and leaves the interactive flow's own state alone. *)
Theorem config_flow_entries_well_formed (cs : list StepCall) (c : StepCall) :
  match snd (call _slug strip (flow_after _slug strip cs) c) with
  | CreateEntry title data =>
      title = match settings data with
              | Some g => name g
              | None => "Ducted HVAC"
              end /\
      match c with
      | StepFinish _ =>
          zones data <> [] /\
          distinct_ids (zones data) /\
          Forall (entry_zone_ok _slug) (zones data) /\
          settings_ok (settings data)
      | StepImport user_input _ =>
          user_input = Some data /\
          fst (call _slug strip (flow_after _slug strip cs) c) =
            flow_after _slug strip cs
      | _ => False
      end
  | _ => True
  end.
Proof.
  pose proof (flow_after_ok cs) as (Hd & Hz & Hg).
  set (f := flow_after _slug strip cs) in *. clearbody f.
  destruct c as [u|u| |configured|u configured]; cbn [call].
  - unfold async_step_user. destruct u as [u|]; [|exact I].
    destruct (_validate_global u); exact I.
  - unfold async_step_zone. destruct u as [u|]; [|exact I].
    destruct (zone_errors _slug strip u _); exact I.
  - exact I.
  - unfold async_step_finish. destruct (_zones f) as [|z zs] eqn:Z.
    + exact I.
    + destruct configured; [exact I|]. cbn [snd zones settings].
      rewrite <- Z. repeat split; try (rewrite Z; assumption);
        try assumption.
      rewrite Z. discriminate.
  - unfold async_step_import. destruct u as [d|]; [|exact I].
    destruct configured; [exact I|]. cbn. now repeat split.
Qed.

(** X19: the options flow keeps zone ids distinct.  On an entry whose
    zone ids are distinct: adding a zone stores the old zones followed by
    the new one, refuses an empty name and a name whose slug is already
    an id, and leaves the ids distinct; deleting by id removes exactly
    one zone, the one with that id, keeps the others in order and is
    refused when no zone has the id or the entry has no zone; saving the
    global settings keeps the zones and stores modes including "off". *)
Theorem options_flow_keeps_ids_distinct
    (current : EntryData) (new_zone : ZoneInput) (uid : string)
    (form : GlobalInput) :
  distinct_ids (zones current) ->
  match fst (async_step_add_zone _slug strip current new_zone) with
  | Some d =>
      settings d = settings current /\
      zones d = zones current ++ [_build_zone_entry _slug strip new_zone] /\
      strip (in_name new_zone) <> "" /\
      distinct_ids (zones d)
  | None =>
      strip (in_name new_zone) = "" \/
      In (_slug (strip (in_name new_zone))) (map unique_id (zones current))
  end /\
  match fst (async_step_delete_zone current (Some uid)) with
  | Some d =>
      settings d = settings current /\
      zones d = filter (fun z => negb (String.eqb (unique_id z) uid))
                       (zones current) /\
      In uid (map unique_id (zones current)) /\
      ~ In uid (map unique_id (zones d)) /\
      S (List.length (zones d)) = List.length (zones current) /\
      distinct_ids (zones d)
  | None => ~ In uid (map unique_id (zones current))
  end /\
  match fst (async_step_global_settings current form) with
  | Some d => zones d = zones current /\ settings_ok (settings d)
  | None => _validate_global form <> []
  end.
Proof.
  intros Hd. split; [|split].
  - unfold async_step_add_zone.
    destruct (zone_errors _slug strip new_zone _) eqn:E.
    + apply zone_errors_ok in E. destruct E as [E1 E2]. cbn.
      repeat split; try assumption.
      unfold distinct_ids. rewrite map_app. cbn. now apply NoDup_snoc.
    + cbn. destruct (String.eqb_spec (strip (in_name new_zone)) "");
        [now left|right].
      destruct (in_dec string_dec (_slug (strip (in_name new_zone)))
                  (map unique_id (zones current))) as [H|H]; [assumption|].
      assert (X : zone_errors _slug strip new_zone
                    (map unique_id (zones current)) = [])
        by (apply zone_errors_ok; now split).
      congruence.
  - unfold async_step_delete_zone.
    assert (F : forall zs : list ZoneEntry,
              NoDup (map unique_id zs) ->
              let kept := filter (fun z => negb (String.eqb (unique_id z) uid))
                                 zs in
              ~ In uid (map unique_id kept) /\
              NoDup (map unique_id kept) /\
              (In uid (map unique_id zs) ->
               S (List.length kept) = List.length zs) /\
              (~ In uid (map unique_id zs) -> kept = zs)).
    { induction zs as [|z zs IH]; intros Hn; cbn.
      - repeat split; auto; try constructor. intros [].
      - inversion Hn as [|? ? Hz Hn']; subst.
        destruct (IH Hn') as (I1 & I2 & I3 & I4).
        destruct (String.eqb_spec (unique_id z) uid) as [E|E]; cbn.
        + repeat split; try assumption.
          * intros _. f_equal. rewrite I4; [reflexivity|congruence].
          * intros H. exfalso. apply H. now left.
        + repeat split.
          * intros [H|H]; [congruence|contradiction].
          * constructor; [|assumption]. intros H. apply Hz.
            apply in_map_iff in H. destruct H as (y & Hy & Hin).
            apply filter_In in Hin. apply in_map_iff. exists y. tauto.
          * intros [H|H]; [congruence|]. f_equal. now apply I3.
          * intros H. f_equal. apply I4. tauto. }
    destruct (F (zones current) Hd) as (F1 & F2 & F3 & F4).
    destruct (zones current) as [|z0 zs] eqn:Z; [cbn; auto|].
    rewrite <- Z in *.
    destruct (Nat.eqb_spec
                (List.length
                   (filter (fun z => negb (String.eqb (unique_id z) uid))
                           (zones current)))
                (List.length (zones current))) as [L|L].
    + cbn. intros H. specialize (F3 H). lia.
    + cbn. assert (H : In uid (map unique_id (zones current))).
      { destruct (in_dec string_dec uid (map unique_id (zones current)))
          as [H|H]; [assumption|].
        rewrite (F4 H) in L. congruence. }
      repeat split; auto.
  - unfold async_step_global_settings.
    destruct (_validate_global form) eqn:V; [|cbn; discriminate].
    apply validate_global_ok in V. destruct V as [V1 V2]. cbn.
    repeat split; try assumption. apply with_off_has_off.
Qed.

End FlowFacts.

(** The documented step sequence, with names that are their own slugs. *)
Example config_flow_creates_entry :
  let steps := [ConfigFlow.StepUser None;
                ConfigFlow.StepUser (Some FlowSample.form);
                ConfigFlow.StepZone (Some FlowSample.kitchen);
                ConfigFlow.StepZone None;
                ConfigFlow.StepZone (Some FlowSample.kitchen);
                ConfigFlow.StepZone (Some FlowSample.study)] in
  snd (ConfigFlow.call FlowSample.same FlowSample.same
         (ConfigFlow.flow_after FlowSample.same FlowSample.same steps)
         (ConfigFlow.StepFinish false)) =
  ConfigFlow.CreateEntry "Home" FlowSample.stored.
Proof. reflexivity. Qed.

(** The import step stores an entry with no zone and no mode check. *)
Example config_flow_import_unchecked :
  let data := ConfigFlow.mkEntry
                (Some (ConfigFlow.with_modes FlowSample.form ["off"])) [] in
  snd (ConfigFlow.call FlowSample.same FlowSample.same
         (ConfigFlow.flow_after FlowSample.same FlowSample.same [])
         (ConfigFlow.StepImport (Some data) false)) =
  ConfigFlow.CreateEntry "Home" data.
Proof. reflexivity. Qed.

Lemma options_flow_keeps_ids_distinct_witness :
  distinct_ids (ConfigFlow.zones FlowSample.stored) /\
  fst (ConfigFlow.async_step_delete_zone FlowSample.stored (Some "kitchen")) =
    Some (ConfigFlow.mkEntry (ConfigFlow.settings FlowSample.stored)
            [Setup.mkZone "study" "study" "switch.study" "sensor.study"]).
Proof.
  assert (H : distinct_ids (ConfigFlow.zones FlowSample.stored)).
  { unfold distinct_ids. cbn. repeat constructor; cbn.
    - intros [H|[]]. discriminate H.
    - intros []. }
  split; [exact H|].
  destruct (options_flow_keeps_ids_distinct FlowSample.same FlowSample.same
              FlowSample.stored FlowSample.study "kitchen" FlowSample.form H)
    as (_ & D & _).
  destruct (fst (ConfigFlow.async_step_delete_zone FlowSample.stored
                   (Some "kitchen"))) as [d|] eqn:E.
  - destruct D as (D1 & D2 & _). destruct d as [g zs]. cbn in D1, D2.
    now rewrite D1, D2.
  - exfalso. apply D. cbn. now left.
Defined.

(** ** From the config flow to turn-on *)

Section FlowToZone.
Import Zone.

Lemma set_hvac_mode_accepted (z : Zone.t) (m : HVACMode) (env : Env) :
  In m (_attr_hvac_modes z) ->
  _hvac_mode (fst (async_set_hvac_mode z m env)) = m.
Proof.
  intros H. apply mode_in_In in H. unfold async_set_hvac_mode.
  rewrite H. cbn [negb].
  pose proof (control_vent_keeps_readings (with_hvac_mode z m) env) as K.
  cbv zeta in K.
  destruct (_async_control_vent (with_hvac_mode z m) env) as [z' eff].
  cbn [fst] in *. now destruct K as (_ & -> & _).
Qed.

End FlowToZone.

(** X20: zones configured through the config flow can always be turned
    on.  When the global form passes validation and its selected modes do
    not include "off" (the picker does not offer it), the stored list
    converts to Off followed by at least one other mode, and on any zone
    with that list that is Off, turn-on returns normally and leaves the
    zone in a configured mode other than Off: Cool when selected,
    otherwise the first selected mode. *)
Theorem flow_modes_make_turn_on_safe
    (form : ConfigFlow.GlobalInput) (ms : list HVACMode)
    (z : Zone.t) (env : Zone.Env) :
  ConfigFlow._validate_global form = [] ->
  ~ In "off" (ConfigFlow.modes form) ->
  Setup.entry_modes (Setup.with_off (ConfigFlow.modes form)) = Some ms ->
  Zone._attr_hvac_modes z = ms ->
  Zone._hvac_mode z = OFF ->
  hd_error ms = Some OFF /\
  (2 <= List.length ms)%nat /\
  exists r,
    Zone.async_turn_on z env = Zone.Ok r /\
    Zone._hvac_mode (fst r) <> OFF /\
    In (Zone._hvac_mode (fst r)) ms /\
    (In COOL ms -> Zone._hvac_mode (fst r) = COOL) /\
    (~ In COOL ms -> nth_error ms 1 = Some (Zone._hvac_mode (fst r))).
Proof.
  intros V Hoff E Hms Hmode.
  apply validate_global_ok in V. destruct V as [_ Hne].
  destruct (ConfigFlow.modes form) as [|s rest] eqn:M; [congruence|].
  unfold Setup.with_off in E.
  destruct (str_in "off" (s :: rest)) eqn:O;
    [apply str_in_In in O; contradiction|].
  unfold Setup.entry_modes in E.
  change (Setup.modes_of_values ("off" :: s :: rest))
    with (match Setup.modes_of_values (s :: rest) with
          | Some l => Some (OFF :: l)
          | None => None
          end) in E.
  cbn [Setup.modes_of_values] in E.
  destruct (of_value s) as [m|] eqn:Sm; [|discriminate].
  destruct (Setup.modes_of_values rest) as [ms'|]; [|discriminate].
  cbn in E. injection E as <-.
  assert (Hm : m <> OFF).
  { intros ->. apply of_value_sound in Sm. cbn in Sm. apply Hoff.
    left. now rewrite <- Sm. }
  split; [reflexivity|]. split; [cbn; lia|].
  rewrite turn_on_mode, Hmode, Hms.
  destruct (mode_in COOL (OFF :: m :: ms')) eqn:C.
  - exists (Zone.async_set_hvac_mode z COOL env).
    assert (Hc : In COOL (Zone._attr_hvac_modes z))
      by (rewrite Hms; now apply mode_in_In).
    rewrite (set_hvac_mode_accepted z COOL env Hc).
    repeat split; try discriminate.
    + now apply mode_in_In.
    + intros N. exfalso. apply N. now apply mode_in_In.
  - cbn [nth_error].
    exists (Zone.async_set_hvac_mode z m env).
    assert (Hc : In m (Zone._attr_hvac_modes z))
      by (rewrite Hms; right; now left).
    rewrite (set_hvac_mode_accepted z m env Hc).
    repeat split; try assumption.
    + right. now left.
    + intros N. apply mode_in_In in N. congruence.
Qed.

Lemma flow_modes_make_turn_on_safe_witness :
  let z := Zone.__init__ "kitchen" "switch.kitchen" "sensor.kitchen"
             [OFF; HEAT; DRY] ["auto"; "low"] 16 30 0.3 None in
  ConfigFlow._validate_global FlowSample.form = [] /\
  Setup.entry_modes (Setup.with_off (ConfigFlow.modes FlowSample.form)) =
    Some [OFF; HEAT; DRY] /\
  exists r, Zone.async_turn_on z (Sample.at_time 0 true) = Zone.Ok r /\
            Zone._hvac_mode (fst r) <> OFF.
Proof.
  cbv zeta. split; [reflexivity|]. split; [reflexivity|].
  assert (N : ~ In "off" (ConfigFlow.modes FlowSample.form)).
  { cbn. intros [H|[H|[]]]; discriminate H. }
  destruct (flow_modes_make_turn_on_safe FlowSample.form [OFF; HEAT; DRY]
              (Zone.__init__ "kitchen" "switch.kitchen" "sensor.kitchen"
                 [OFF; HEAT; DRY] ["auto"; "low"] 16 30 0.3 None)
              (Sample.at_time 0 true) eq_refl N eq_refl eq_refl eq_refl)
    as (_ & _ & r & H1 & H2 & _).
  exists r. split; assumption.
Defined.
